(** * Power Rangers Simulation: the battle core, embedded and verified

    A shallow embedding of the combat core of the simulation
    (character.py, enemy.py, battle.py, config.py) together with the
    properties its specification states about it.

    Conventions of the embedding.
    - Python [int] attributes are [Z]; attributes that the code makes
      fractional (health after a x1.2 hit, gold after a 10% loss, limb
      health after a float hit) are exact rationals [Q], compared with
      [==].  Binary rounding of Python floats is not modelled.
    - [int(x)] is truncation toward zero ([Py.int]).
    - Every source of randomness ([random.random], [random.choice],
      [random.uniform]) and of input (the typed combo, the measured
      time) is an explicit argument of the function that consumes it.
    - A method that mutates [self] returns the new object next to its
      Python return value.
    - The message of an action result is a constructor carrying the
      numbers its text is formatted from; the battle log, whose text
      the reward code searches, is a list of strings. *)

From Stdlib Require Import ZArith QArith Qround Qminmax Lia Lqa List String Ascii Bool.
From stdpp Require Import base gmap strings list.
Import ListNotations.

Open Scope string_scope.
Open Scope Z_scope.

(** ** Python built-ins used by the code *)

Module Py.

(** [max(a, b)]: the first argument unless the second is strictly larger. *)
Definition max (a b : Q) : Q := if Qlt_le_dec a b then b else a.

(** [min(a, b)]: the first argument unless the second is strictly smaller. *)
Definition min (a b : Q) : Q := if Qlt_le_dec b a then b else a.

(** [int(x)] on a number: truncation toward zero. *)
Definition int (x : Q) : Z := Z.quot (Qnum x) (Zpos (Qden x)).

(** [x // y] on numbers: the floor of the quotient (the divisor is a
    non-zero literal wherever the code uses it). *)
Definition floordiv (x y : Q) : Q := inject_Z (Qfloor (x / y)).

(** [needle in hay] on two strings. *)
Fixpoint contains (needle hay : string) : bool :=
  String.prefix needle hay ||
  match hay with
  | EmptyString => false
  | String _ rest => contains needle rest
  end.

(** A [dict] keeps its keys in insertion order; the code iterates over
    [keys()], [values()] and [items()], so the order is part of the model. *)
Definition dict (V : Type) : Type := list (string * V).

Fixpoint get {V} (k : string) (d : dict V) : option V :=
  match d with
  | [] => None
  | (k', v) :: rest => if String.eqb k k' then Some v else get k rest
  end.

(** [d[k] = v]: overwrite in place, or append a new key. *)
Fixpoint set {V} (k : string) (v : V) (d : dict V) : dict V :=
  match d with
  | [] => [(k, v)]
  | (k', v') :: rest =>
      if String.eqb k k' then (k', v) :: rest else (k', v') :: set k v rest
  end.

Definition keys {V} (d : dict V) : list string := map fst d.
Definition values {V} (d : dict V) : list V := map snd d.

(** [random.choice(l)] with the drawn index made explicit; [None] is the
    [IndexError] of an empty sequence. *)
Definition choice {A} (l : list A) (draw : nat) : option A :=
  match l with
  | [] => None
  | _ => nth_error l (Nat.modulo draw (length l))
  end.

(** [s * n] on a string, as the list of the [n] copies that make up
    the product; a count below 1 gives the empty string. *)
Definition times (s : string) (n : Z) : list string := List.repeat s (Z.to_nat n).

End Py.

(** ** config.py *)

Module Config.

Definition BASE_HEALTH : Z := 100.
Definition BASE_ATTACK : Z := 20.
Definition BASE_DEFENSE : Z := 10.
Definition BASE_SPEED : Z := 15.

(** One row of a bonus table; an absent key reads as 0 through
    [bonuses.get(key, 0)]. *)
Record Bonus := mkBonus {
  b_health : Z; b_attack : Z; b_defense : Z; b_speed : Z
}.

Definition COLOR_BONUSES (color : string) : option Bonus :=
  if String.eqb color "Red" then Some (mkBonus 10 5 0 0)
  else if String.eqb color "Blue" then Some (mkBonus 5 0 5 0)
  else if String.eqb color "Yellow" then Some (mkBonus 8 0 0 5)
  else if String.eqb color "Pink" then Some (mkBonus 6 3 0 0)
  else if String.eqb color "Black" then Some (mkBonus 7 0 3 0)
  else if String.eqb color "Green" then Some (mkBonus 9 4 0 0)
  else None.

Definition POWER_BONUSES (power_type : string) : option Bonus :=
  if String.eqb power_type "Megaforce" then Some (mkBonus 0 5 0 0)
  else if String.eqb power_type "Super Megaforce" then Some (mkBonus 0 8 0 0)
  else if String.eqb power_type "Mystic Force" then Some (mkBonus 0 6 0 0)
  else if String.eqb power_type "Ninja Storm" then Some (mkBonus 0 0 0 8)
  else if String.eqb power_type "Dino Thunder" then Some (mkBonus 10 0 0 0)
  else if String.eqb power_type "Time Force" then Some (mkBonus 0 0 7 0)
  else None.

(** [WEAPON_STATS]: (damage, speed). *)
Definition WEAPON_STATS (weapon : string) : option (Z * Z) :=
  if String.eqb weapon "Power Sword" then Some (15, 0)
  else if String.eqb weapon "Power Blaster" then Some (12, 3)
  else if String.eqb weapon "Dragon Dagger" then Some (18, -2)
  else if String.eqb weapon "Shark Fin" then Some (20, -5)
  else if String.eqb weapon "Phoenix Shot" then Some (14, 2)
  else if String.eqb weapon "Snake Axe" then Some (22, -3)
  else None.

Definition XP_PER_LEVEL : Z := 100.
Definition LEVEL_STAT_BONUS : Z := 5.
Definition MAX_LEVEL : Z := 50.

Definition COMBO_KEYS : list string := ["W"; "A"; "S"; "D"; "Q"; "E"].
Definition COMBO_TIME_LIMIT : Q := 3.
Definition COMBO_DAMAGE_MULTIPLIER : Q := 2.

(** [ENEMY_TYPES]: name -> (health, attack, behavior), in declaration order. *)
Definition ENEMY_TYPES : Py.dict (Z * Z * string) :=
  [ ("Loogies", (30, 8, "aggressive"));
    ("Zombats", (25, 10, "swarm"));
    ("Bruisers", (60, 15, "tank"));
    ("X-Borgs", (45, 12, "tactical")) ].

(** [BOSS_ENEMIES]: name -> (health, attack, phases). *)
Definition BOSS_ENEMIES : Py.dict (Z * Z * Z) :=
  [ ("Metal Alice", (200, 25, 2));
    ("Black Knight", (250, 30, 3));
    ("Emperor Mavro", (300, 35, 3)) ].

End Config.

(** ** Data shared by both combatants *)

(** A status effect, [{"type": ..., "duration": ...}]. *)
Record StatusEffect := mkEffect {
  effect_type : string;
  effect_duration : Z
}.

(** What a health bar shows: the cells of the bar, brackets included,
    and, unless the health is unknown, the two numbers printed after
    it. *)
Inductive HealthBar :=
| Bar_unknown (bar : list string)
| Bar_of (bar : list string) (current_health : Q) (max_health : Z).

(** ** character.py *)

Module Character.

(** [limb_damage = {"arms": .., "legs": ..}]: two severity counters;
    the code never builds the table with another set of keys. *)
Record LimbDamage := mkLimbDamage { arms : Z; legs : Z }.

(** An entry of [battle_history], as battle.py appends them. *)
Inductive BattleRecord :=
| VictoryRecord (enemy : string) (turns gold_earned xp_earned : Z) (timestamp : Q)
| DefeatRecord (enemy : string) (turns : Z) (gold_lost : Q) (timestamp : Q).

Record PowerRanger := mkPowerRanger {
  name : string;
  color : string;
  power_type : string;
  weapon : string;
  level : Z;
  xp : Z;
  max_health : Z;
  current_health : Q;
  attack : Z;
  defense : Z;
  speed : Z;
  gold : Q;
  mega_energy : Z;
  skill_points : Z;
  ranger_keys : list string;
  battle_history : list BattleRecord;
  investments : Py.dict (Q * Q);
  skills : Py.dict bool;
  limb_damage : LimbDamage;
  status_effects : list StatusEffect
}.

(** Attribute assignment, one function per assigned attribute. *)
Definition with_level (v : Z) (p : PowerRanger) : PowerRanger :=
  mkPowerRanger (name p) (color p) (power_type p) (weapon p) v (xp p)
    (max_health p) (current_health p) (attack p) (defense p) (speed p) (gold p)
    (mega_energy p) (skill_points p) (ranger_keys p) (battle_history p)
    (investments p) (skills p) (limb_damage p) (status_effects p).

Definition with_xp (v : Z) (p : PowerRanger) : PowerRanger :=
  mkPowerRanger (name p) (color p) (power_type p) (weapon p) (level p) v
    (max_health p) (current_health p) (attack p) (defense p) (speed p) (gold p)
    (mega_energy p) (skill_points p) (ranger_keys p) (battle_history p)
    (investments p) (skills p) (limb_damage p) (status_effects p).

Definition with_max_health (v : Z) (p : PowerRanger) : PowerRanger :=
  mkPowerRanger (name p) (color p) (power_type p) (weapon p) (level p) (xp p)
    v (current_health p) (attack p) (defense p) (speed p) (gold p)
    (mega_energy p) (skill_points p) (ranger_keys p) (battle_history p)
    (investments p) (skills p) (limb_damage p) (status_effects p).

Definition with_current_health (v : Q) (p : PowerRanger) : PowerRanger :=
  mkPowerRanger (name p) (color p) (power_type p) (weapon p) (level p) (xp p)
    (max_health p) v (attack p) (defense p) (speed p) (gold p)
    (mega_energy p) (skill_points p) (ranger_keys p) (battle_history p)
    (investments p) (skills p) (limb_damage p) (status_effects p).

Definition with_attack (v : Z) (p : PowerRanger) : PowerRanger :=
  mkPowerRanger (name p) (color p) (power_type p) (weapon p) (level p) (xp p)
    (max_health p) (current_health p) v (defense p) (speed p) (gold p)
    (mega_energy p) (skill_points p) (ranger_keys p) (battle_history p)
    (investments p) (skills p) (limb_damage p) (status_effects p).

Definition with_defense (v : Z) (p : PowerRanger) : PowerRanger :=
  mkPowerRanger (name p) (color p) (power_type p) (weapon p) (level p) (xp p)
    (max_health p) (current_health p) (attack p) v (speed p) (gold p)
    (mega_energy p) (skill_points p) (ranger_keys p) (battle_history p)
    (investments p) (skills p) (limb_damage p) (status_effects p).

Definition with_speed (v : Z) (p : PowerRanger) : PowerRanger :=
  mkPowerRanger (name p) (color p) (power_type p) (weapon p) (level p) (xp p)
    (max_health p) (current_health p) (attack p) (defense p) v (gold p)
    (mega_energy p) (skill_points p) (ranger_keys p) (battle_history p)
    (investments p) (skills p) (limb_damage p) (status_effects p).

Definition with_gold (v : Q) (p : PowerRanger) : PowerRanger :=
  mkPowerRanger (name p) (color p) (power_type p) (weapon p) (level p) (xp p)
    (max_health p) (current_health p) (attack p) (defense p) (speed p) v
    (mega_energy p) (skill_points p) (ranger_keys p) (battle_history p)
    (investments p) (skills p) (limb_damage p) (status_effects p).

Definition with_mega_energy (v : Z) (p : PowerRanger) : PowerRanger :=
  mkPowerRanger (name p) (color p) (power_type p) (weapon p) (level p) (xp p)
    (max_health p) (current_health p) (attack p) (defense p) (speed p) (gold p)
    v (skill_points p) (ranger_keys p) (battle_history p)
    (investments p) (skills p) (limb_damage p) (status_effects p).

Definition with_skill_points (v : Z) (p : PowerRanger) : PowerRanger :=
  mkPowerRanger (name p) (color p) (power_type p) (weapon p) (level p) (xp p)
    (max_health p) (current_health p) (attack p) (defense p) (speed p) (gold p)
    (mega_energy p) v (ranger_keys p) (battle_history p)
    (investments p) (skills p) (limb_damage p) (status_effects p).

Definition with_ranger_keys (v : list string) (p : PowerRanger) : PowerRanger :=
  mkPowerRanger (name p) (color p) (power_type p) (weapon p) (level p) (xp p)
    (max_health p) (current_health p) (attack p) (defense p) (speed p) (gold p)
    (mega_energy p) (skill_points p) v (battle_history p)
    (investments p) (skills p) (limb_damage p) (status_effects p).

Definition with_battle_history (v : list BattleRecord) (p : PowerRanger) : PowerRanger :=
  mkPowerRanger (name p) (color p) (power_type p) (weapon p) (level p) (xp p)
    (max_health p) (current_health p) (attack p) (defense p) (speed p) (gold p)
    (mega_energy p) (skill_points p) (ranger_keys p) v
    (investments p) (skills p) (limb_damage p) (status_effects p).

Definition with_skills (v : Py.dict bool) (p : PowerRanger) : PowerRanger :=
  mkPowerRanger (name p) (color p) (power_type p) (weapon p) (level p) (xp p)
    (max_health p) (current_health p) (attack p) (defense p) (speed p) (gold p)
    (mega_energy p) (skill_points p) (ranger_keys p) (battle_history p)
    (investments p) v (limb_damage p) (status_effects p).

Definition with_limb_damage (v : LimbDamage) (p : PowerRanger) : PowerRanger :=
  mkPowerRanger (name p) (color p) (power_type p) (weapon p) (level p) (xp p)
    (max_health p) (current_health p) (attack p) (defense p) (speed p) (gold p)
    (mega_energy p) (skill_points p) (ranger_keys p) (battle_history p)
    (investments p) (skills p) v (status_effects p).

Definition with_status_effects (v : list StatusEffect) (p : PowerRanger) : PowerRanger :=
  mkPowerRanger (name p) (color p) (power_type p) (weapon p) (level p) (xp p)
    (max_health p) (current_health p) (attack p) (defense p) (speed p) (gold p)
    (mega_energy p) (skill_points p) (ranger_keys p) (battle_history p)
    (investments p) (skills p) (limb_damage p) v.

(** The skill table every ranger starts with (and the default of
    [load_from_dict]). *)
Definition default_skills : Py.dict bool :=
  [ ("Power Strike", false); ("Mega Blast", false); ("Healing Light", false);
    ("Speed Boost", false); ("Medic Protocol", false) ].

(** [_apply_creation_bonuses]: colour, then power type, then weapon. *)
Definition _apply_creation_bonuses (p : PowerRanger) : PowerRanger :=
  let p :=
    match Config.COLOR_BONUSES (color p) with
    | Some b =>
        let p := with_max_health (max_health p + Config.b_health b) p in
        let p := with_attack (attack p + Config.b_attack b) p in
        let p := with_defense (defense p + Config.b_defense b) p in
        let p := with_speed (speed p + Config.b_speed b) p in
        with_current_health (inject_Z (max_health p)) p
    | None => p
    end in
  let p :=
    match Config.POWER_BONUSES (power_type p) with
    | Some b =>
        let p := with_attack (attack p + Config.b_attack b) p in
        let p := with_defense (defense p + Config.b_defense b) p in
        with_speed (speed p + Config.b_speed b) p
    | None => p
    end in
  match Config.WEAPON_STATS (weapon p) with
  | Some (damage, spd) =>
      let p := with_attack (attack p + damage) p in
      with_speed (speed p + spd) p
  | None => p
  end.

(** A string is truthy when it is not empty. *)
Definition truthy (s : string) : bool :=
  match s with EmptyString => false | _ => true end.

(** [PowerRanger.__init__]. *)
Definition init (name color power_type weapon : string) : PowerRanger :=
  let p :=
    mkPowerRanger name color power_type weapon 1 0
      Config.BASE_HEALTH (inject_Z Config.BASE_HEALTH)
      Config.BASE_ATTACK Config.BASE_DEFENSE Config.BASE_SPEED
      100%Q 3 0 [] [] [] default_skills (mkLimbDamage 0 0) [] in
  if truthy color && truthy power_type && truthy weapon
  then _apply_creation_bonuses p else p.

(** The skill a level unlocks inside [gain_xp].  [self.skills[..]] is
    read only at the level that names the skill; [None] is the
    [KeyError] of a skill table without that entry. *)
Definition unlock_at_level (p : PowerRanger) : option PowerRanger :=
  let unlock (skill : string) :=
    match Py.get skill (skills p) with
    | Some false => Some (with_skills (Py.set skill true (skills p)) p)
    | Some true => Some p
    | None => None
    end in
  if level p =? 3 then unlock "Power Strike"
  else if level p =? 5 then unlock "Mega Blast"
  else if level p =? 7 then unlock "Healing Light"
  else Some p.

(** The [while] loop of [gain_xp], with the flag of a raised
    exception.  Every iteration raises [level] by one and the loop
    stops at [MAX_LEVEL], so [MAX_LEVEL - level] iterations are enough
    ([gain_xp_loop_finished] below). *)
Fixpoint gain_xp_loop (fuel : nat) (p : PowerRanger) : PowerRanger * bool :=
  match fuel with
  | O => (p, false)
  | S fuel' =>
      if (Config.XP_PER_LEVEL * level p <=? xp p) && (level p <? Config.MAX_LEVEL)
      then
        let p := with_level (level p + 1) p in
        let p := with_skill_points (skill_points p + 1) p in
        let health_increase := Config.LEVEL_STAT_BONUS in
        let p := with_max_health (max_health p + health_increase) p in
        let p := with_current_health (current_health p + inject_Z health_increase)%Q p in
        let p := with_attack (attack p + 2) p in
        let p := with_defense (defense p + 1) p in
        let p := with_speed (speed p + 1) p in
        match unlock_at_level p with
        | Some p => gain_xp_loop fuel' p
        | None => (p, true)
        end
      else (p, false)
  end.

(** [gain_xp(amount)]: the new ranger and whether the level rose; the
    handler of a raised exception returns [False] and keeps what was
    assigned before it. *)
Definition gain_xp (amount : Z) (p : PowerRanger) : PowerRanger * bool :=
  let p1 := with_xp (xp p + amount) p in
  let old_level := level p1 in
  let '(p2, raised) := gain_xp_loop (Z.to_nat (Config.MAX_LEVEL - level p1)) p1 in
  (p2, if raised then false else old_level <? level p2).

(** What the message of an action result is formatted from. *)
Inductive Message :=
| Msg_unknown_skill
| Msg_already_learned
| Msg_no_skill_points
| Msg_learned (skill : string)
| Msg_skill_not_available
| Msg_not_enough_energy
| Msg_unknown_skill_effect
| Msg_power_strike (damage : Q)
| Msg_mega_blast (damage : Q)
| Msg_healing_light (heal_amount : Q)
| Msg_speed_boost
| Msg_medic_protocol (heal_amount : Q)
| Msg_cannot_use_fusion
| Msg_fusion_activated (damage : Q).

(** [learn_skill(skill_name)]. *)
Definition learn_skill (skill_name : string) (p : PowerRanger)
  : PowerRanger * (bool * Message) :=
  match Py.get skill_name (skills p) with
  | None => (p, (false, Msg_unknown_skill))
  | Some true => (p, (false, Msg_already_learned))
  | Some false =>
      if skill_points p <=? 0 then (p, (false, Msg_no_skill_points))
      else
        let p := with_skills (Py.set skill_name true (skills p)) p in
        let p := with_skill_points (skill_points p - 1) p in
        (p, (true, Msg_learned skill_name))
  end.

(** [use_skill(skill_name)]. *)
Definition use_skill (skill_name : string) (p : PowerRanger)
  : PowerRanger * (bool * Message) :=
  match Py.get skill_name (skills p) with
  | Some true =>
      if String.eqb skill_name "Power Strike" then
        if 1 <=? mega_energy p then
          let p := with_mega_energy (mega_energy p - 1) p in
          let damage := (inject_Z (attack p) * 1.5)%Q in
          (p, (true, Msg_power_strike damage))
        else (p, (false, Msg_not_enough_energy))
      else if String.eqb skill_name "Mega Blast" then
        if 2 <=? mega_energy p then
          let p := with_mega_energy (mega_energy p - 2) p in
          let damage := (inject_Z (attack p) * 2.0)%Q in
          (p, (true, Msg_mega_blast damage))
        else (p, (false, Msg_not_enough_energy))
      else if String.eqb skill_name "Healing Light" then
        if 1 <=? mega_energy p then
          let p := with_mega_energy (mega_energy p - 1) p in
          let heal_amount := (inject_Z (max_health p) * 0.3)%Q in
          let p := with_current_health
                     (Py.min (inject_Z (max_health p)) (current_health p + heal_amount)%Q) p in
          (p, (true, Msg_healing_light heal_amount))
        else (p, (false, Msg_not_enough_energy))
      else if String.eqb skill_name "Speed Boost" then
        if 1 <=? mega_energy p then
          let p := with_mega_energy (mega_energy p - 1) p in
          let p := with_status_effects (status_effects p ++ [mkEffect "speed_boost" 3]) p in
          (p, (true, Msg_speed_boost))
        else (p, (false, Msg_not_enough_energy))
      else if String.eqb skill_name "Medic Protocol" then
        if 2 <=? mega_energy p then
          let p := with_mega_energy (mega_energy p - 2) p in
          let heal_amount := (inject_Z (max_health p) * 0.5)%Q in
          let p := with_current_health
                     (Py.min (inject_Z (max_health p)) (current_health p + heal_amount)%Q) p in
          let p := with_limb_damage (mkLimbDamage 0 0) p in
          (p, (true, Msg_medic_protocol heal_amount))
        else (p, (false, Msg_not_enough_energy))
      else (p, (false, Msg_unknown_skill_effect))
  | _ => (p, (false, Msg_skill_not_available))
  end.

(** [key_name in self.ranger_keys]. *)
Definition has_key (key_name : string) (keys : list string) : bool :=
  existsb (String.eqb key_name) keys.

(** [add_ranger_key(key_name)]: every fifth new key adds one mega
    energy. *)
Definition add_ranger_key (key_name : string) (p : PowerRanger)
  : PowerRanger * bool :=
  if negb (has_key key_name (ranger_keys p)) then
    let p := with_ranger_keys (ranger_keys p ++ [key_name]) p in
    let p :=
      if Z.of_nat (length (ranger_keys p)) mod 5 =? 0
      then with_mega_energy (mega_energy p + 1) p
      else p in
    (p, true)
  else (p, false).

(** [can_use_fusion_power()]. *)
Definition can_use_fusion_power (p : PowerRanger) : bool :=
  (3 <=? level p) && (3 <=? mega_energy p)
  && (2 <=? Z.of_nat (length (ranger_keys p))).

(** [use_fusion_power()]. *)
Definition use_fusion_power (p : PowerRanger) : PowerRanger * (bool * Message) :=
  if negb (can_use_fusion_power p) then (p, (false, Msg_cannot_use_fusion))
  else
    let p := with_mega_energy (mega_energy p - 3) p in
    let damage := (inject_Z (attack p) * 3.0)%Q in
    (p, (true, Msg_fusion_activated damage)).

(** [take_damage(damage)]: the new ranger and the damage applied. *)
Definition take_damage (damage : Q) (p : PowerRanger) : PowerRanger * Q :=
  let actual_damage := Py.max 1 (damage - inject_Z (defense p))%Q in
  let actual_damage :=
    if 0 <? arms (limb_damage p) then (actual_damage * 1.2)%Q else actual_damage in
  let p := with_current_health (current_health p - actual_damage)%Q p in
  let p := with_current_health (Py.max 0 (current_health p)) p in
  (p, actual_damage).

(** [heal(amount)]: the new ranger and the health actually restored. *)
Definition heal (amount : Q) (p : PowerRanger) : PowerRanger * Q :=
  let old_health := current_health p in
  let p := with_current_health
             (Py.min (inject_Z (max_health p)) (current_health p + amount)%Q) p in
  let actual_heal := (current_health p - old_health)%Q in
  (p, actual_heal).

(** [is_alive()]. *)
Definition is_alive (p : PowerRanger) : bool :=
  if Qlt_le_dec 0 (current_health p) then true else false.

(** [get_health_bar(width)]. *)
Definition get_health_bar (width : Z) (p : PowerRanger) : HealthBar :=
  if max_health p <=? 0 then
    Bar_unknown (["["] ++ Py.times "?" width ++ ["]"])%list
  else
    let health_ratio := (current_health p / inject_Z (max_health p))%Q in
    let filled := Py.int (inject_Z width * health_ratio)%Q in
    let empty := width - filled in
    let fill_char :=
      if Qlt_le_dec 0.6 health_ratio then "█"
      else if Qlt_le_dec 0.3 health_ratio then "▓"
      else "▒" in
    let bar :=
      (["["] ++ Py.times fill_char filled ++ Py.times "░" empty ++ ["]"])%list in
    Bar_of bar (current_health p) (max_health p).

(** *** Serialization

    The attribute mapping is a Python [dict] read only through
    [data.get(key, default)]: a finite map from attribute names to
    dynamically typed values. *)

Inductive PyVal :=
| VStr (s : string)
| VInt (z : Z)
| VNum (q : Q)
| VKeys (l : list string)
| VHistory (l : list BattleRecord)
| VInvestments (d : Py.dict (Q * Q))
| VSkills (d : Py.dict bool)
| VLimbDamage (l : LimbDamage)
| VEffects (l : list StatusEffect).

(** [get_stats_dict()]. *)
Definition get_stats_dict (p : PowerRanger) : gmap string PyVal :=
  <["name" := VStr (name p)]>
  (<["color" := VStr (color p)]>
  (<["power_type" := VStr (power_type p)]>
  (<["weapon" := VStr (weapon p)]>
  (<["level" := VInt (level p)]>
  (<["xp" := VInt (xp p)]>
  (<["max_health" := VInt (max_health p)]>
  (<["current_health" := VNum (current_health p)]>
  (<["attack" := VInt (attack p)]>
  (<["defense" := VInt (defense p)]>
  (<["speed" := VInt (speed p)]>
  (<["gold" := VNum (gold p)]>
  (<["mega_energy" := VInt (mega_energy p)]>
  (<["skill_points" := VInt (skill_points p)]>
  (<["ranger_keys" := VKeys (ranger_keys p)]>
  (<["battle_history" := VHistory (battle_history p)]>
  (<["investments" := VInvestments (investments p)]>
  (<["skills" := VSkills (skills p)]>
  (<["limb_damage" := VLimbDamage (limb_damage p)]>
  (<["status_effects" := VEffects (status_effects p)]> ∅))))))))))))))))))).

(** [data.get(key, default)] at each attribute type.  Python stores
    whatever object the mapping holds; the record is typed, so a value
    of another dynamic type has no image in it and the read is [None]. *)
Definition get_str (data : gmap string PyVal) (key default : string) : option string :=
  match data !! key with
  | None => Some default | Some (VStr s) => Some s | Some _ => None
  end.

Definition get_int (data : gmap string PyVal) (key : string) (default : Z) : option Z :=
  match data !! key with
  | None => Some default | Some (VInt z) => Some z | Some _ => None
  end.

Definition get_num (data : gmap string PyVal) (key : string) (default : Q) : option Q :=
  match data !! key with
  | None => Some default | Some (VNum q) => Some q | Some (VInt z) => Some (inject_Z z)
  | Some _ => None
  end.

Definition get_keys (data : gmap string PyVal) (key : string) : option (list string) :=
  match data !! key with
  | None => Some [] | Some (VKeys l) => Some l | Some _ => None
  end.

Definition get_history (data : gmap string PyVal) (key : string)
  : option (list BattleRecord) :=
  match data !! key with
  | None => Some [] | Some (VHistory l) => Some l | Some _ => None
  end.

Definition get_investments (data : gmap string PyVal) (key : string)
  : option (Py.dict (Q * Q)) :=
  match data !! key with
  | None => Some [] | Some (VInvestments d) => Some d | Some _ => None
  end.

Definition get_skills (data : gmap string PyVal) (key : string)
  : option (Py.dict bool) :=
  match data !! key with
  | None => Some default_skills | Some (VSkills d) => Some d | Some _ => None
  end.

Definition get_limb_damage (data : gmap string PyVal) (key : string)
  : option LimbDamage :=
  match data !! key with
  | None => Some (mkLimbDamage 0 0) | Some (VLimbDamage l) => Some l | Some _ => None
  end.

Definition get_effects (data : gmap string PyVal) (key : string)
  : option (list StatusEffect) :=
  match data !! key with
  | None => Some [] | Some (VEffects l) => Some l | Some _ => None
  end.

(** [load_from_dict(data)]: every attribute of [self] is overwritten,
    so the result does not depend on the receiver; the Python return
    value is [True]. *)
Definition load_from_dict (data : gmap string PyVal) (self : PowerRanger)
  : option (PowerRanger * bool) :=
  name ← get_str data "name" "";
  color ← get_str data "color" "";
  power_type ← get_str data "power_type" "";
  weapon ← get_str data "weapon" "";
  level ← get_int data "level" 1;
  xp ← get_int data "xp" 0;
  max_health ← get_int data "max_health" Config.BASE_HEALTH;
  current_health ← get_num data "current_health" (inject_Z max_health);
  attack ← get_int data "attack" Config.BASE_ATTACK;
  defense ← get_int data "defense" Config.BASE_DEFENSE;
  speed ← get_int data "speed" Config.BASE_SPEED;
  gold ← get_num data "gold" 100%Q;
  mega_energy ← get_int data "mega_energy" 3;
  skill_points ← get_int data "skill_points" 0;
  ranger_keys ← get_keys data "ranger_keys";
  battle_history ← get_history data "battle_history";
  investments ← get_investments data "investments";
  skills ← get_skills data "skills";
  limb_damage ← get_limb_damage data "limb_damage";
  status_effects ← get_effects data "status_effects";
  Some (mkPowerRanger name color power_type weapon level xp max_health
          current_health attack defense speed gold mega_energy skill_points
          ranger_keys battle_history investments skills limb_damage
          status_effects, true).

End Character.

(** ** enemy.py *)

Module EnemyAI.

Inductive EnemyState := AGGRESSIVE | DEFENSIVE | FLEEING | STUNNED | ENRAGED.

(** One entry of [limbs]: [{"health": .., "max_health": .., "broken": ..}]. *)
Record Limb := mkLimb {
  health : Q;
  limb_max_health : Z;
  broken : bool
}.

(** An enemy object.  [_temp_defense_boost] records whether the
    attribute of that name exists ([hasattr]); [phases],
    [current_phase] and [royal_guard] exist on boss subclasses only. *)
Record Enemy := mkEnemy {
  name : string;
  enemy_type : string;
  max_health : Z;
  current_health : Q;
  attack : Z;
  defense : Z;
  speed : Z;
  gold_reward : Z;
  xp_reward : Z;
  state : EnemyState;
  behavior_pattern : string;
  turn_counter : Z;
  limbs : Py.dict Limb;
  status_effects : list StatusEffect;
  special_abilities : list string;
  _temp_defense_boost : bool;
  phases : option Z;
  current_phase : option Z;
  royal_guard : option bool
}.

(** Attribute assignment, one function per assigned attribute. *)
Definition with_max_health (v : Z) (e : Enemy) : Enemy :=
  mkEnemy (name e) (enemy_type e) v (current_health e) (attack e) (defense e)
    (speed e) (gold_reward e) (xp_reward e) (state e) (behavior_pattern e)
    (turn_counter e) (limbs e) (status_effects e) (special_abilities e)
    (_temp_defense_boost e) (phases e) (current_phase e) (royal_guard e).

Definition with_current_health (v : Q) (e : Enemy) : Enemy :=
  mkEnemy (name e) (enemy_type e) (max_health e) v (attack e) (defense e)
    (speed e) (gold_reward e) (xp_reward e) (state e) (behavior_pattern e)
    (turn_counter e) (limbs e) (status_effects e) (special_abilities e)
    (_temp_defense_boost e) (phases e) (current_phase e) (royal_guard e).

Definition with_attack (v : Z) (e : Enemy) : Enemy :=
  mkEnemy (name e) (enemy_type e) (max_health e) (current_health e) v
    (defense e) (speed e) (gold_reward e) (xp_reward e) (state e)
    (behavior_pattern e) (turn_counter e) (limbs e) (status_effects e)
    (special_abilities e) (_temp_defense_boost e) (phases e) (current_phase e)
    (royal_guard e).

Definition with_defense (v : Z) (e : Enemy) : Enemy :=
  mkEnemy (name e) (enemy_type e) (max_health e) (current_health e) (attack e)
    v (speed e) (gold_reward e) (xp_reward e) (state e) (behavior_pattern e)
    (turn_counter e) (limbs e) (status_effects e) (special_abilities e)
    (_temp_defense_boost e) (phases e) (current_phase e) (royal_guard e).

Definition with_speed (v : Z) (e : Enemy) : Enemy :=
  mkEnemy (name e) (enemy_type e) (max_health e) (current_health e) (attack e)
    (defense e) v (gold_reward e) (xp_reward e) (state e) (behavior_pattern e)
    (turn_counter e) (limbs e) (status_effects e) (special_abilities e)
    (_temp_defense_boost e) (phases e) (current_phase e) (royal_guard e).

Definition with_gold_reward (v : Z) (e : Enemy) : Enemy :=
  mkEnemy (name e) (enemy_type e) (max_health e) (current_health e) (attack e)
    (defense e) (speed e) v (xp_reward e) (state e) (behavior_pattern e)
    (turn_counter e) (limbs e) (status_effects e) (special_abilities e)
    (_temp_defense_boost e) (phases e) (current_phase e) (royal_guard e).

Definition with_xp_reward (v : Z) (e : Enemy) : Enemy :=
  mkEnemy (name e) (enemy_type e) (max_health e) (current_health e) (attack e)
    (defense e) (speed e) (gold_reward e) v (state e) (behavior_pattern e)
    (turn_counter e) (limbs e) (status_effects e) (special_abilities e)
    (_temp_defense_boost e) (phases e) (current_phase e) (royal_guard e).

Definition with_state (v : EnemyState) (e : Enemy) : Enemy :=
  mkEnemy (name e) (enemy_type e) (max_health e) (current_health e) (attack e)
    (defense e) (speed e) (gold_reward e) (xp_reward e) v (behavior_pattern e)
    (turn_counter e) (limbs e) (status_effects e) (special_abilities e)
    (_temp_defense_boost e) (phases e) (current_phase e) (royal_guard e).

Definition with_behavior_pattern (v : string) (e : Enemy) : Enemy :=
  mkEnemy (name e) (enemy_type e) (max_health e) (current_health e) (attack e)
    (defense e) (speed e) (gold_reward e) (xp_reward e) (state e) v
    (turn_counter e) (limbs e) (status_effects e) (special_abilities e)
    (_temp_defense_boost e) (phases e) (current_phase e) (royal_guard e).

Definition with_turn_counter (v : Z) (e : Enemy) : Enemy :=
  mkEnemy (name e) (enemy_type e) (max_health e) (current_health e) (attack e)
    (defense e) (speed e) (gold_reward e) (xp_reward e) (state e)
    (behavior_pattern e) v (limbs e) (status_effects e) (special_abilities e)
    (_temp_defense_boost e) (phases e) (current_phase e) (royal_guard e).

Definition with_limbs (v : Py.dict Limb) (e : Enemy) : Enemy :=
  mkEnemy (name e) (enemy_type e) (max_health e) (current_health e) (attack e)
    (defense e) (speed e) (gold_reward e) (xp_reward e) (state e)
    (behavior_pattern e) (turn_counter e) v (status_effects e)
    (special_abilities e) (_temp_defense_boost e) (phases e) (current_phase e)
    (royal_guard e).

Definition with_status_effects (v : list StatusEffect) (e : Enemy) : Enemy :=
  mkEnemy (name e) (enemy_type e) (max_health e) (current_health e) (attack e)
    (defense e) (speed e) (gold_reward e) (xp_reward e) (state e)
    (behavior_pattern e) (turn_counter e) (limbs e) v (special_abilities e)
    (_temp_defense_boost e) (phases e) (current_phase e) (royal_guard e).

Definition with_special_abilities (v : list string) (e : Enemy) : Enemy :=
  mkEnemy (name e) (enemy_type e) (max_health e) (current_health e) (attack e)
    (defense e) (speed e) (gold_reward e) (xp_reward e) (state e)
    (behavior_pattern e) (turn_counter e) (limbs e) (status_effects e) v
    (_temp_defense_boost e) (phases e) (current_phase e) (royal_guard e).

Definition with_temp_defense_boost (v : bool) (e : Enemy) : Enemy :=
  mkEnemy (name e) (enemy_type e) (max_health e) (current_health e) (attack e)
    (defense e) (speed e) (gold_reward e) (xp_reward e) (state e)
    (behavior_pattern e) (turn_counter e) (limbs e) (status_effects e)
    (special_abilities e) v (phases e) (current_phase e) (royal_guard e).

Definition with_phases (v : option Z) (e : Enemy) : Enemy :=
  mkEnemy (name e) (enemy_type e) (max_health e) (current_health e) (attack e)
    (defense e) (speed e) (gold_reward e) (xp_reward e) (state e)
    (behavior_pattern e) (turn_counter e) (limbs e) (status_effects e)
    (special_abilities e) (_temp_defense_boost e) v (current_phase e)
    (royal_guard e).

Definition with_current_phase (v : option Z) (e : Enemy) : Enemy :=
  mkEnemy (name e) (enemy_type e) (max_health e) (current_health e) (attack e)
    (defense e) (speed e) (gold_reward e) (xp_reward e) (state e)
    (behavior_pattern e) (turn_counter e) (limbs e) (status_effects e)
    (special_abilities e) (_temp_defense_boost e) (phases e) v (royal_guard e).

Definition with_royal_guard (v : option bool) (e : Enemy) : Enemy :=
  mkEnemy (name e) (enemy_type e) (max_health e) (current_health e) (attack e)
    (defense e) (speed e) (gold_reward e) (xp_reward e) (state e)
    (behavior_pattern e) (turn_counter e) (limbs e) (status_effects e)
    (special_abilities e) (_temp_defense_boost e) (phases e) (current_phase e)
    v.


(** The limb table of [Enemy.__init__]. *)
Definition initial_limbs : Py.dict Limb :=
  [ ("left_arm", mkLimb 20 20 false); ("right_arm", mkLimb 20 20 false);
    ("left_leg", mkLimb 15 15 false); ("right_leg", mkLimb 15 15 false) ].

(** The loop [for limb in self.limbs.values()] of [_apply_type_stats]:
    rescale a limb and refill it. *)
Definition rescale_limb (limb_multiplier : Q) (l : Limb) : Limb :=
  let m := Py.int (inject_Z (limb_max_health l) * limb_multiplier)%Q in
  mkLimb (inject_Z m) m (broken l).

Definition rescale_limbs (limb_multiplier : Q) (d : Py.dict Limb) : Py.dict Limb :=
  map (fun kv => (fst kv, rescale_limb limb_multiplier (snd kv))) d.

(** [_add_boss_abilities]. *)
Definition _add_boss_abilities (e : Enemy) : Enemy :=
  if String.eqb (name e) "Metal Alice" then
    with_special_abilities ["Cyber Blast"; "System Repair"; "Data Corruption"] e
  else if String.eqb (name e) "Black Knight" then
    with_special_abilities ["Dark Strike"; "Shadow Shield"; "Nightmare Wave"] e
  else if String.eqb (name e) "Emperor Mavro" then
    with_special_abilities ["Imperial Blast"; "Royal Guard"; "Conquest Beam"] e
  else e.

(** [_apply_type_stats]. *)
Definition _apply_type_stats (e : Enemy) : Enemy :=
  match Py.get (enemy_type e) Config.ENEMY_TYPES with
  | Some (stats_health, stats_attack, stats_behavior) =>
      let e := with_max_health stats_health e in
      let e := with_current_health (inject_Z (max_health e)) e in
      let e := with_attack stats_attack e in
      let e := with_behavior_pattern stats_behavior e in
      let limb_multiplier := (inject_Z (max_health e) / 50)%Q in
      with_limbs (rescale_limbs limb_multiplier (limbs e)) e
  | None =>
      match Py.get (enemy_type e) Config.BOSS_ENEMIES with
      | Some (stats_health, stats_attack, _) =>
          let e := with_max_health stats_health e in
          let e := with_current_health (inject_Z (max_health e)) e in
          let e := with_attack stats_attack e in
          let e := with_behavior_pattern "boss" e in
          let e := with_gold_reward 100 e in
          let e := with_xp_reward 75 e in
          let e := with_limbs (rescale_limbs 2 (limbs e)) e in
          _add_boss_abilities e
      | None => e
      end
  end.

(** [Enemy.__init__(name, enemy_type)]. *)
Definition init (name enemy_type : string) : Enemy :=
  _apply_type_stats
    (mkEnemy name enemy_type 50 50%Q 15 5 10 25 20 AGGRESSIVE "normal" 0
       initial_limbs [] [] false None None None).

(** [sum(1 for limb in self.limbs.values() if limb["broken"])]. *)
Definition broken_limbs (e : Enemy) : Z :=
  Z.of_nat (length (List.filter (fun l => broken l) (Py.values (limbs e)))).

(** [update_ai_state()].  [r] is the value of [random.random()] and
    [pick] the index drawn by [random.choice].  With [max_health = 0]
    the division raises, the handler prints, and the state is left as it
    was. *)
Definition update_ai_state (r : Q) (pick : nat) (e : Enemy) : Enemy :=
  if max_health e =? 0 then e
  else
    let health_percentage := (current_health e / inject_Z (max_health e))%Q in
    let e :=
      if Qle_bool health_percentage 0.2 then
        if Qlt_le_dec r 0.6 then with_state FLEEING e else with_state ENRAGED e
      else if Qle_bool health_percentage 0.4 then
        if String.eqb (behavior_pattern e) "defensive"
        then with_state DEFENSIVE e else with_state AGGRESSIVE e
      else
        if String.eqb (behavior_pattern e) "aggressive" then with_state AGGRESSIVE e
        else if String.eqb (behavior_pattern e) "defensive" then with_state DEFENSIVE e
        else
          match Py.choice [AGGRESSIVE; DEFENSIVE] pick with
          | Some s => with_state s e
          | None => e
          end in
    if 2 <=? broken_limbs e then with_state DEFENSIVE e else e.

(** The action names [choose_action] produces and [execute_action]
    dispatches on. *)
Inductive Action :=
| basic_attack | power_attack | enraged_attack | desperate_attack
| special_attack | defend | heal | flee | stunned.

(** The random draws one enemy decision consumes. *)
Record Draws := mkDraws {
  draw_state : Q;          (* random.random() in update_ai_state *)
  draw_state_pick : nat;   (* random.choice in update_ai_state *)
  draw_action : Q;         (* random.random() in choose_action *)
  draw_action_pick : nat   (* random.choice(actions) *)
}.

(** The status-effect bookkeeping of [choose_action]: drop the expired
    effects, then age the remaining ones. *)
Definition tick_effects (l : list StatusEffect) : list StatusEffect :=
  map (fun s => mkEffect (effect_type s) (effect_duration s - 1))
      (List.filter (fun s => 0 <? effect_duration s) l).

(** [choose_action(player)]. *)
Definition choose_action (d : Draws) (e : Enemy) : Enemy * Action :=
  let e := with_turn_counter (turn_counter e + 1) e in
  let e := update_ai_state (draw_state d) (draw_state_pick d) e in
  let e := with_status_effects (tick_effects (status_effects e)) e in
  if existsb (fun s => String.eqb (effect_type s) "stunned") (status_effects e)
  then (e, stunned)
  else
    match state e with
    | FLEEING =>
        if Qlt_le_dec (draw_action d) 0.3 then (e, flee) else (e, desperate_attack)
    | ENRAGED => (e, enraged_attack)
    | DEFENSIVE =>
        if Qlt_le_dec (draw_action d) 0.4 then (e, defend) else (e, heal)
    | _ =>
        let actions := [basic_attack] in
        let actions :=
          match special_abilities e with
          | [] => actions
          | _ => if Qlt_le_dec (draw_action d) 0.3
                 then (actions ++ [special_attack])%list else actions
          end in
        let actions :=
          if turn_counter e mod 3 =? 0 then (actions ++ [power_attack])%list else actions in
        match Py.choice actions (draw_action_pick d) with
        | Some a => (e, a)
        | None => (e, basic_attack)
        end
    end.

(** [self.limbs[k]["broken"]]; [None] is the [KeyError]. *)
Definition limb_broken (k : string) (e : Enemy) : option bool :=
  broken <$> Py.get k (limbs e).

(** [calculate_attack_damage()], [u] being the value of
    [random.uniform(0.8, 1.2)].  [or] and [and] evaluate their second
    operand only when needed; a missing limb raises and the handler
    returns the bare attack stat. *)
Definition calculate_attack_damage (u : Q) (e : Enemy) : Z :=
  let arm_broken :=
    match limb_broken "left_arm" e with
    | Some true => Some true
    | Some false => limb_broken "right_arm" e
    | None => None
    end in
  match arm_broken with
  | None => attack e
  | Some a =>
      let base_damage := inject_Z (attack e) in
      let base_damage := if a then (base_damage * 0.7)%Q else base_damage in
      let legs_broken :=
        match limb_broken "left_leg" e with
        | Some true => limb_broken "right_leg" e
        | Some false => Some false
        | None => None
        end in
      match legs_broken with
      | None => attack e
      | Some b =>
          let base_damage := if b then (base_damage * 0.8)%Q else base_damage in
          let damage := (base_damage * u)%Q in
          Z.max 1 (Py.int damage)
      end
  end.

(** What [take_limb_damage] reports. *)
Inductive LimbMessage :=
| Limb_invalid
| Limb_already_broken
| Limb_arm_broken
| Limb_leg_broken
| Limb_takes_damage (damage : Q).

(** [take_limb_damage(limb_name, damage)].  The limb is mutated in
    place inside [self.limbs]. *)
Definition take_limb_damage (limb_name : string) (damage : Q) (e : Enemy)
  : Enemy * (bool * LimbMessage) :=
  match Py.get limb_name (limbs e) with
  | None => (e, (false, Limb_invalid))
  | Some limb =>
      if broken limb then (e, (false, Limb_already_broken))
      else
        let limb := mkLimb (health limb - damage)%Q (limb_max_health limb) (broken limb) in
        if Qle_bool (health limb) 0 then
          let limb := mkLimb 0 (limb_max_health limb) true in
          let e := with_limbs (Py.set limb_name limb (limbs e)) e in
          if Py.contains "arm" limb_name then
            (with_attack (Py.int (inject_Z (attack e) * 0.8)%Q) e, (true, Limb_arm_broken))
          else if Py.contains "leg" limb_name then
            (with_speed (Py.int (inject_Z (speed e) * 0.8)%Q) e, (true, Limb_leg_broken))
          else (e, (true, Limb_takes_damage damage))
        else
          (with_limbs (Py.set limb_name limb (limbs e)) e,
           (true, Limb_takes_damage damage))
  end.

(** [take_damage(damage)], [pick] being the index drawn by
    [random.choice(limb_names)].  With no limb to choose from the draw
    raises after health and defense were updated, and the handler
    returns the raw damage. *)
Definition take_damage (damage : Q) (pick : nat) (e : Enemy) : Enemy * Q :=
  let actual_damage := Py.max 1 (damage - inject_Z (defense e))%Q in
  let e := with_current_health (current_health e - actual_damage)%Q e in
  let e := with_current_health (Py.max 0 (current_health e)) e in
  let e :=
    if _temp_defense_boost e
    then with_temp_defense_boost false (with_defense (defense e - 5) e)
    else e in
  if Qlt_le_dec (inject_Z (attack e) * 1.5)%Q damage then
    let limb_names := Py.keys (limbs e) in
    match Py.choice limb_names pick with
    | None => (e, damage)
    | Some target_limb =>
        let limb_damage := Py.floordiv damage 3 in
        (fst (take_limb_damage target_limb limb_damage e), actual_damage)
    end
  else (e, actual_damage).

(** [is_alive()]. *)
Definition is_alive (e : Enemy) : bool :=
  if Qlt_le_dec 0 (current_health e) then true else false.

(** [use_special_ability(ability, player)]: the damage to inflict, with
    the side effects on both combatants. *)
Definition use_special_ability (ability : string) (p : Character.PowerRanger) (e : Enemy)
  : Enemy * Character.PowerRanger * Q :=
  let atk := inject_Z (attack e) in
  if String.eqb ability "Cyber Blast" then (e, p, atk * 1.8)%Q
  else if String.eqb ability "System Repair" then
    let heal := (inject_Z (max_health e) * 0.25)%Q in
    (with_current_health
       (Py.min (inject_Z (max_health e)) (current_health e + heal)%Q) e, p, 0%Q)
  else if String.eqb ability "Data Corruption" then
    (e, Character.with_status_effects
          (Character.status_effects p ++ [mkEffect "corrupted" 2]) p,
     atk * 1.2)%Q
  else if String.eqb ability "Dark Strike" then (e, p, atk * 2.0)%Q
  else if String.eqb ability "Shadow Shield" then
    (with_defense (defense e + 10) e, p, 0%Q)
  else if String.eqb ability "Nightmare Wave" then (e, p, atk * 1.5)%Q
  else if String.eqb ability "Imperial Blast" then (e, p, atk * 2.5)%Q
  else if String.eqb ability "Royal Guard" then
    (with_defense (defense e + 15) e, p, 0%Q)
  else if String.eqb ability "Conquest Beam" then (e, p, atk * 2.2)%Q
  else (e, p, atk).

(** [execute_action(action, player)]: both combatants afterwards and
    [damage_dealt].  [u] feeds [calculate_attack_damage], [pick] the
    choice of a special ability. *)
Definition execute_action (action : Action) (u : Q) (pick : nat)
    (p : Character.PowerRanger) (e : Enemy)
  : Enemy * Character.PowerRanger * Q :=
  let strike (damage : Q) (e : Enemy) (p : Character.PowerRanger) :=
    let '(p, damage_dealt) := Character.take_damage damage p in
    (e, p, damage_dealt) in
  match action with
  | basic_attack => strike (inject_Z (calculate_attack_damage u e)) e p
  | power_attack => strike (inject_Z (calculate_attack_damage u e) * 1.5)%Q e p
  | enraged_attack => strike (inject_Z (calculate_attack_damage u e) * 2.0)%Q e p
  | desperate_attack => strike (inject_Z (calculate_attack_damage u e) * 1.2)%Q e p
  | special_attack =>
      match Py.choice (special_abilities e) pick with
      | Some ability =>
          let '(e, p, damage) := use_special_ability ability p e in
          strike damage e p
      | None => strike (inject_Z (calculate_attack_damage u e)) e p
      end
  | defend =>
      let e := with_defense (defense e + 5) e in
      let heal_amount := (inject_Z (max_health e) * 0.1)%Q in
      let e := with_current_health
                 (Py.min (inject_Z (max_health e)) (current_health e + heal_amount)%Q) e in
      (e, p, 0%Q)
  | heal =>
      let heal_amount := (inject_Z (max_health e) * 0.15)%Q in
      let e := with_current_health
                 (Py.min (inject_Z (max_health e)) (current_health e + heal_amount)%Q) e in
      (e, p, 0%Q)
  | flee => (e, p, 0%Q)
  | stunned => (e, p, 0%Q)
  end.

(** [get_health_bar(width)]. *)
Definition get_health_bar (width : Z) (e : Enemy) : HealthBar :=
  if max_health e <=? 0 then
    Bar_unknown (["["] ++ Py.times "?" width ++ ["]"])%list
  else
    let health_ratio := (current_health e / inject_Z (max_health e))%Q in
    let filled := Py.int (inject_Z width * health_ratio)%Q in
    let empty := width - filled in
    let bar := (["["] ++ Py.times "█" filled ++ Py.times "░" empty ++ ["]"])%list in
    Bar_of bar (current_health e) (max_health e).

(** *** The archetype subclasses: [super().__init__] and then the
    subclass's own assignments. *)

Definition Loogies : Enemy :=
  with_behavior_pattern "aggressive" (init "Loogies" "Loogies").

Definition Zombats : Enemy :=
  let e := with_behavior_pattern "swarm" (init "Zombats" "Zombats") in
  with_speed (speed e + 5) e.

Definition Bruisers : Enemy :=
  let e := with_behavior_pattern "tank" (init "Bruisers" "Bruisers") in
  with_defense (defense e + 3) e.

Definition XBorgs : Enemy :=
  let e := with_behavior_pattern "tactical" (init "X-Borgs" "X-Borgs") in
  with_attack (attack e + 2) e.

Definition MetalAlice : Enemy :=
  let e := with_behavior_pattern "boss" (init "Metal Alice" "Metal Alice") in
  with_current_phase (Some 1) (with_phases (Some 2) e).

Definition BlackKnight : Enemy :=
  let e := with_behavior_pattern "boss" (init "Black Knight" "Black Knight") in
  with_current_phase (Some 1) (with_phases (Some 3) e).

Definition EmperorMavro : Enemy :=
  let e := with_behavior_pattern "boss" (init "Emperor Mavro" "Emperor Mavro") in
  with_royal_guard (Some true) (with_current_phase (Some 1) (with_phases (Some 3) e)).

(** The class table of [create_enemy]. *)
Definition enemy_classes : Py.dict Enemy :=
  [ ("Loogies", Loogies); ("Zombats", Zombats); ("Bruisers", Bruisers);
    ("X-Borgs", XBorgs); ("Metal Alice", MetalAlice);
    ("Black Knight", BlackKnight); ("Emperor Mavro", EmperorMavro) ].

Definition difficulty_multipliers : Py.dict Q :=
  [ ("Easy", 0.8%Q); ("Medium", 1.0%Q); ("Hard", 1.3%Q); ("Extreme", 1.6%Q) ].

(** The scaling step of [create_enemy]. *)
Definition scale (multiplier : Q) (enemy : Enemy) : Enemy :=
  let enemy := with_max_health (Py.int (inject_Z (max_health enemy) * multiplier)%Q) enemy in
  let enemy := with_current_health (inject_Z (max_health enemy)) enemy in
  let enemy := with_attack (Py.int (inject_Z (attack enemy) * multiplier)%Q) enemy in
  let enemy := with_defense (Py.int (inject_Z (defense enemy) * multiplier)%Q) enemy in
  let enemy := with_gold_reward (Py.int (inject_Z (gold_reward enemy) * multiplier)%Q) enemy in
  with_xp_reward (Py.int (inject_Z (xp_reward enemy) * multiplier)%Q) enemy.

(** [create_enemy(enemy_type, mission_difficulty)], [pick] being the
    index drawn by [random.choice] for ["random"].  An empty type table
    would make the draw raise, and the handler returns a plain
    [Loogies()]. *)
Definition create_enemy (enemy_type mission_difficulty : string) (pick : nat) : Enemy :=
  let chosen :=
    if String.eqb enemy_type "random"
    then Py.choice (Py.keys Config.ENEMY_TYPES) pick
    else Some enemy_type in
  match chosen with
  | None => Loogies
  | Some enemy_type =>
      let enemy :=
        match Py.get enemy_type enemy_classes with
        | Some cls => cls
        | None => Loogies
        end in
      let multiplier :=
        match Py.get mission_difficulty difficulty_multipliers with
        | Some m => m
        | None => 1.0%Q
        end in
      scale multiplier enemy
  end.

(** [MetalAlice.phase_transition()].  The method has no handler of its
    own: on an object without [current_phase] the comparison raises
    ([None]); [and] reads the phase only when the health test holds. *)
Definition phase_transition (e : Enemy) : option (Enemy * bool) :=
  if Qle_bool (current_health e) (inject_Z (max_health e) * 0.5)%Q then
    match current_phase e with
    | None => None
    | Some ph =>
        if ph =? 1 then
          let e := with_current_phase (Some 2) e in
          let e := with_attack (Py.int (inject_Z (attack e) * 1.2)%Q) e in
          let e := with_defense (Py.int (inject_Z (defense e) * 1.1)%Q) e in
          Some (e, true)
        else Some (e, false)
    end
  else Some (e, false).

End EnemyAI.

(** ** battle.py *)

Module Battle.

Import Character.

(** [_apply_environment_effects(player, enemy, environment)]. *)
Definition _apply_environment_effects
    (player : PowerRanger) (enemy : EnemyAI.Enemy) (environment : string)
  : PowerRanger * EnemyAI.Enemy :=
  if String.eqb environment "Forest" then
    (with_speed (speed player + 3) player, enemy)
  else if String.eqb environment "Space Base" then
    (player, EnemyAI.with_attack (EnemyAI.attack enemy + 5) enemy)
  else if String.eqb environment "Underwater" then
    (with_defense (defense player + 2) player,
     EnemyAI.with_speed (EnemyAI.speed enemy - 2) enemy)
  else if String.eqb environment "Mountain" then
    (with_attack (attack player + 3) player, enemy)
  else if String.eqb environment "City" then
    (with_mega_energy (mega_energy player + 1) player, enemy)
  else (player, enemy).

(** The regeneration step that closes a turn of [_battle_loop]. *)
Definition regenerate_mega_energy (turn_counter : Z) (player : PowerRanger)
  : PowerRanger :=
  if turn_counter mod 3 =? 0
  then with_mega_energy (Z.min 5 (mega_energy player + 1)) player
  else player.

(** [_update_status_effects]: only the player's effects are aged here. *)
Definition _update_status_effects (player : PowerRanger) : PowerRanger :=
  with_status_effects
    (map (fun s => mkEffect (effect_type s) (effect_duration s - 1))
       (List.filter (fun s => 0 <? effect_duration s) (status_effects player)))
    player.

(** *** The combo attack *)

(** The branch a combo attempt is scored in. *)
Inductive ComboBranch :=
| TooSlow
| PerfectCombo
| GoodCombo (accuracy : Q)
| WeakCombo (accuracy : Q)
| WrongLength.

(** [player_input == required_sequence] on lists of strings. *)
Fixpoint sequence_eqb (a b : list string) : bool :=
  match a, b with
  | [], [] => true
  | x :: a', y :: b' => String.eqb x y && sequence_eqb a' b'
  | _, _ => false
  end.

(** [sum(1 for i, key in enumerate(player_input)
         if i < len(required_sequence) and key == required_sequence[i])]. *)
Fixpoint correct_count (player_input required_sequence : list string) : Z :=
  match player_input, required_sequence with
  | key :: input', r :: required' =>
      (if String.eqb key r then 1 else 0) + correct_count input' required'
  | _, _ => 0
  end.

(** The decisions of [_execute_combo_attack], in the order the code
    takes them. *)
Definition combo_branch (required_sequence player_input : list string)
    (time_taken : Q) : ComboBranch :=
  if Qlt_le_dec Config.COMBO_TIME_LIMIT time_taken then TooSlow
  else if sequence_eqb player_input required_sequence then PerfectCombo
  else if Nat.eqb (length player_input) (length required_sequence) then
    let accuracy :=
      (inject_Z (correct_count player_input required_sequence)
       / inject_Z (Z.of_nat (length required_sequence)))%Q in
    if Qle_bool 0.6 accuracy then GoodCombo accuracy else WeakCombo accuracy
  else WrongLength.

(** The [damage] each branch hands to [enemy.take_damage]; the slow
    branch returns before any damage is computed. *)
Definition combo_damage (attack : Z) (b : ComboBranch) : option Q :=
  match b with
  | TooSlow => None
  | PerfectCombo => Some (inject_Z attack * Config.COMBO_DAMAGE_MULTIPLIER)%Q
  | GoodCombo accuracy => Some (inject_Z attack * (1 + accuracy))%Q
  | WeakCombo _ => Some (inject_Z attack * 0.5)%Q
  | WrongLength => Some (inject_Z attack * 0.3)%Q
  end.

(** [_execute_combo_attack(player, enemy)] once the sequence was drawn
    and the input read: the enemy afterwards and the damage dealt
    ([None] when no damage was dealt).  [stun_draw] is the value of
    [random.random()], [pick] the limb index drawn inside
    [enemy.take_damage]. *)
Definition _execute_combo_attack
    (player : PowerRanger) (enemy : EnemyAI.Enemy)
    (required_sequence player_input : list string) (time_taken : Q)
    (stun_draw : Q) (pick : nat)
  : EnemyAI.Enemy * option Q :=
  let b := combo_branch required_sequence player_input time_taken in
  match combo_damage (attack player) b with
  | None => (enemy, None)
  | Some damage =>
      let '(enemy, actual_damage) := EnemyAI.take_damage damage pick enemy in
      let enemy :=
        match b with
        | PerfectCombo =>
            if Qlt_le_dec time_taken (Config.COMBO_TIME_LIMIT * 0.5)%Q then
              if Qlt_le_dec stun_draw 0.3 then
                EnemyAI.with_status_effects
                  (EnemyAI.status_effects enemy ++ [mkEffect "stunned" 1])%list enemy
              else enemy
            else enemy
        | _ => enemy
        end in
      (enemy, Some actual_damage)
  end.

(** *** Victory *)

(** The pool a victory may grant a key from. *)
Definition ranger_key_pool : list string :=
  [ "Red Ranger Key"; "Blue Ranger Key"; "Yellow Ranger Key";
    "Pink Ranger Key"; "Black Ranger Key"; "Green Ranger Key";
    "White Ranger Key"; "Gold Ranger Key"; "Silver Ranger Key" ].

(** The health bonus of [_handle_victory]. *)
Definition health_bonus (player : PowerRanger) : Q :=
  if Qeq_bool (current_health player) (inject_Z (max_health player)) then 1.5%Q
  else if Qle_bool (inject_Z (max_health player) * 0.8)%Q (current_health player)
  then 1.2%Q
  else 1.0%Q.

(** [sum(1 for log in self.battle_log if "COMBO" in log)]. *)
Definition combo_count (battle_log : list string) : Z :=
  Z.of_nat (length (List.filter (Py.contains "COMBO") battle_log)).

(** The combo bonus of [_handle_victory]. *)
Definition combo_bonus (battle_log : list string) : Q :=
  if 0 <? combo_count battle_log
  then (1 + inject_Z (combo_count battle_log) * 0.1)%Q
  else 1.0%Q.

(** [final_gold] and [final_xp]. *)
Definition final_rewards (player : PowerRanger) (enemy : EnemyAI.Enemy)
    (battle_log : list string) : Z * Z :=
  let base_gold := EnemyAI.gold_reward enemy in
  let base_xp := EnemyAI.xp_reward enemy in
  let final_gold :=
    Py.int (inject_Z base_gold * health_bonus player * combo_bonus battle_log)%Q in
  let final_xp :=
    Py.int (inject_Z base_xp * health_bonus player * combo_bonus battle_log)%Q in
  (final_gold, final_xp).

(** The result record of a won battle. *)
Record Victory := mkVictory {
  gold_earned : Z;
  xp_earned : Z;
  leveled_up : bool;
  battle_log_out : list string
}.

(** [_handle_victory(player, enemy)].  [key_draw] is the value of
    [random.random()], [key_pick] the index drawn by [random.choice],
    [now] the value of [time.time()]. *)
Definition _handle_victory (battle_log : list string) (turn_counter : Z)
    (key_draw : Q) (key_pick : nat) (now : Q)
    (player : PowerRanger) (enemy : EnemyAI.Enemy)
  : PowerRanger * Victory :=
  let '(final_gold, final_xp) := final_rewards player enemy battle_log in
  let player := with_gold (gold player + inject_Z final_gold)%Q player in
  let '(player, leveled_up) := gain_xp final_xp player in
  let player :=
    if Qlt_le_dec key_draw 0.3 then
      match Py.choice ranger_key_pool key_pick with
      | Some key => fst (add_ranger_key key player)
      | None => player
      end
    else player in
  let battle_record :=
    VictoryRecord (EnemyAI.name enemy) turn_counter final_gold final_xp now in
  let player :=
    with_battle_history (battle_history player ++ [battle_record])%list player in
  (player, mkVictory final_gold final_xp leveled_up battle_log).

(** *** Defeat *)

(** The result record of a lost battle. *)
Record Defeat := mkDefeat {
  gold_lost_out : Q;
  defeat_log_out : list string
}.

(** [_handle_defeat(player, enemy)], [now] being the value of
    [time.time()]. *)
Definition _handle_defeat (battle_log : list string) (turn_counter : Z) (now : Q)
    (player : PowerRanger) (enemy : EnemyAI.Enemy)
  : PowerRanger * Defeat :=
  let gold_lost := Py.min (gold player * 0.1)%Q 50 in
  let player := with_gold (gold player - gold_lost)%Q player in
  let player := with_gold (Py.max 0 (gold player)) player in
  let player := with_current_health (inject_Z (max_health player) * 0.3)%Q player in
  let battle_record := DefeatRecord (EnemyAI.name enemy) turn_counter gold_lost now in
  let player :=
    with_battle_history (battle_history player ++ [battle_record])%list player in
  (player, mkDefeat gold_lost battle_log).

(** *** The player's actions

    The branches of [_execute_player_action] that do not read a number
    back out of a message text, each with the combatants afterwards.
    [roll] is the value of [random.randint], [pick] the limb index
    drawn inside [enemy.take_damage]. *)

(** [action == "attack"], [roll] drawn from -3..5: the damage dealt. *)
Definition player_attack (roll : Z) (pick : nat)
    (player : PowerRanger) (enemy : EnemyAI.Enemy) : EnemyAI.Enemy * Q :=
  let damage := inject_Z (attack player + roll) in
  EnemyAI.take_damage damage pick enemy.

(** [action == "defend"]. *)
Definition player_defend (player : PowerRanger) : PowerRanger :=
  match Py.get "Medic Protocol" (skills player) with
  | Some true =>
      let heal_amount := (inject_Z (max_health player) * 0.1)%Q in
      fst (heal heal_amount player)
  | _ => with_defense (defense player + 3) player
  end.

(** [action == ("limb_attack", limb_name)], [roll] drawn from -2..3:
    the enemy afterwards and whether the limb could be struck. *)
Definition player_limb_attack (limb_name : string) (roll : Z) (pick : nat)
    (player : PowerRanger) (enemy : EnemyAI.Enemy) : EnemyAI.Enemy * bool :=
  let damage := attack player + roll in
  let '(enemy, (success, _)) :=
    EnemyAI.take_limb_damage limb_name (inject_Z damage) enemy in
  if success then
    let regular_damage := damage / 2 in
    (fst (EnemyAI.take_damage (inject_Z regular_damage) pick enemy), true)
  else (enemy, false).

(** *** The enemy's turn *)

(** [_execute_enemy_turn(player, enemy)]: the enemy decides, then acts;
    the loop ignores what the method returns.  [d] are the draws of
    the decision, [u] and [pick] those of the action. *)
Definition _execute_enemy_turn (d : EnemyAI.Draws) (u : Q) (pick : nat)
    (player : PowerRanger) (enemy : EnemyAI.Enemy)
  : EnemyAI.Enemy * PowerRanger * Q :=
  let '(enemy, action) := EnemyAI.choose_action d enemy in
  EnemyAI.execute_action action u pick player enemy.

End Battle.

(** * Vocabulary of the properties

    Notions the statements below use and concrete combatants they are
    tried on; nothing here is part of the simulation. *)

Section PlayerVocabulary.

Import Character.

(** The multiplier injured arms put on incoming damage. *)
Definition arm_penalty (p : PowerRanger) : Q :=
  if 0 <? arms (limb_damage p) then 1.2%Q else 1%Q.

(** A level-3 ranger holding two keys and 4 mega energy, and the same
    ranger with only 2 mega energy. *)
Definition fusion_ready : PowerRanger :=
  with_ranger_keys ["Red Ranger Key"; "Blue Ranger Key"]
    (with_mega_energy 4 (with_level 3 (init "Tommy" "Red" "Megaforce" "Power Sword"))).

Definition fusion_drained : PowerRanger := with_mega_energy 2 fusion_ready.

End PlayerVocabulary.

Section EnemyVocabulary.

Import EnemyAI.

(** The archetype names in the class table of [create_enemy], and the
    difficulty tags in its multiplier table. *)
Definition known_archetypes : list string :=
  [ "Loogies"; "Zombats"; "Bruisers"; "X-Borgs";
    "Metal Alice"; "Black Knight"; "Emperor Mavro" ].

Definition known_difficulties : list string :=
  [ "Easy"; "Medium"; "Hard"; "Extreme" ].

(** The multiplier a difficulty tag stands for. *)
Definition multiplier_of (mission_difficulty : string) : Q :=
  match Py.get mission_difficulty difficulty_multipliers with
  | Some m => m
  | None => 1.0%Q
  end.

(** A Loogies brought to exactly 20% health, with one broken leg at
    most.  A strike of 29 against defense 5 takes 24 of its 30 health
    points; being critical, it also deals 9 points to the limb drawn,
    here the right leg. *)
Definition wounded_loogies : Enemy := fst (take_damage 29 3 Loogies).

(** The same enemy when its left leg was broken before the strike. *)
Definition crippled_loogies : Enemy :=
  fst (take_damage 29 3 (fst (take_limb_damage "left_leg" 9 Loogies))).

(** The stat penalty of a limb that has just broken: the attack of an
    arm's owner, or else the speed of a leg's owner, is multiplied by
    0.8 and truncated to an integer. *)
Definition break_penalty (limb_name : string) (e : Enemy) : Enemy :=
  if Py.contains "arm" limb_name then
    with_attack (Py.int (inject_Z (attack e) * 0.8)%Q) e
  else if Py.contains "leg" limb_name then
    with_speed (Py.int (inject_Z (speed e) * 0.8)%Q) e
  else e.

(** Repeated hits on one limb, oldest first. *)
Definition take_limb_damages (limb_name : string) (damages : list Q) (e : Enemy) : Enemy :=
  fold_left (fun e damage => fst (take_limb_damage limb_name damage e)) damages e.

(** What a battle does to an enemy between its creation and its end,
    as far as its defense is concerned: it decides ([choose_action]),
    defends ([execute_action] on [defend]), is struck ([take_damage])
    or is struck on a limb ([take_limb_damage]). *)
Inductive EnemyEvent :=
| Decides (d : Draws)
| Defends (u : Q) (pick : nat) (player : Character.PowerRanger)
| Struck (damage : Q) (pick : nat)
| LimbStruck (limb_name : string) (damage : Q).

Definition enemy_step (e : Enemy) (ev : EnemyEvent) : Enemy :=
  match ev with
  | Decides d => fst (choose_action d e)
  | Defends u pick player => fst (fst (execute_action defend u pick player e))
  | Struck damage pick => fst (take_damage damage pick e)
  | LimbStruck limb_name damage => fst (take_limb_damage limb_name damage e)
  end.

Definition enemy_run (events : list EnemyEvent) (e : Enemy) : Enemy :=
  fold_left enemy_step events e.

(** The number of [defend] actions in a run. *)
Fixpoint defends (events : list EnemyEvent) : Z :=
  match events with
  | [] => 0
  | Defends _ _ _ :: rest => 1 + defends rest
  | _ :: rest => defends rest
  end.

End EnemyVocabulary.

Section BattleVocabulary.

Import Character Battle.


(** The operations of the core that touch a ranger's resources. *)
Inductive CoreOp :=
| BattleStart (environment : string) (enemy : EnemyAI.Enemy)
| UseSkill (skill_name : string)
| UseFusion
| Regenerate (turn_counter : Z)
| AcquireKey (key_name : string)
| LearnSkill (skill_name : string)
| GainXp (amount : Z).

Definition core_step (p : PowerRanger) (op : CoreOp) : PowerRanger :=
  match op with
  | BattleStart environment enemy =>
      fst (_apply_environment_effects p enemy environment)
  | UseSkill skill_name => fst (use_skill skill_name p)
  | UseFusion => fst (use_fusion_power p)
  | Regenerate turn_counter => regenerate_mega_energy turn_counter p
  | AcquireKey key_name => fst (add_ranger_key key_name p)
  | LearnSkill skill_name => fst (learn_skill skill_name p)
  | GainXp amount => fst (gain_xp amount p)
  end.

Definition core_run (ops : list CoreOp) (p : PowerRanger) : PowerRanger :=
  fold_left core_step ops p.

End BattleVocabulary.

Section MoreVocabulary.

Import Character Battle.

(** A ranger's health is within its bounds. *)
Definition healthy (p : PowerRanger) : Prop :=
  (0 <= current_health p)%Q /\ (current_health p <= inject_Z (max_health p))%Q.

(** What happens to a ranger's health in and between battles: a hit
    ([take_damage]), a heal, a skill, a defensive stance, experience,
    a defeat. *)
Inductive PlayerEvent :=
| Hit (damage : Q)
| Heals (amount : Q)
| Casts (skill_name : string)
| Guards
| Earns (amount : Z)
| Falls (battle_log : list string) (turn_counter : Z) (now : Q) (enemy : EnemyAI.Enemy).

Definition player_step (p : PowerRanger) (ev : PlayerEvent) : PowerRanger :=
  match ev with
  | Hit damage => fst (take_damage damage p)
  | Heals amount => fst (heal amount p)
  | Casts skill_name => fst (use_skill skill_name p)
  | Guards => player_defend p
  | Earns amount => fst (gain_xp amount p)
  | Falls battle_log turn_counter now enemy =>
      fst (_handle_defeat battle_log turn_counter now p enemy)
  end.

Definition player_run (events : list PlayerEvent) (p : PowerRanger) : PowerRanger :=
  fold_left player_step events p.

(** No heal of the run is of a negative amount. *)
Definition heals_nonneg (events : list PlayerEvent) : Prop :=
  Forall (fun ev => match ev with Heals amount => (0 <= amount)%Q | _ => True end) events.

(** The mega energy a skill costs. *)
Definition skill_cost (skill_name : string) : Z :=
  if String.eqb skill_name "Mega Blast" then 2
  else if String.eqb skill_name "Medic Protocol" then 2
  else 1.

(** The five skills [use_skill] has an effect for. *)
Definition skill_names : list string :=
  [ "Power Strike"; "Mega Blast"; "Healing Light"; "Speed Boost"; "Medic Protocol" ].

(** A level-3 ranger (Power Strike unlocked by the level) who spent a
    skill point on Speed Boost; 3 mega energy, 1 skill point left. *)
Definition trained : PowerRanger :=
  fst (learn_skill "Speed Boost"
         (fst (gain_xp 250 (init "Tommy" "Red" "Megaforce" "Power Sword")))).

(** The three skills a level can unlock are in the ranger's table. *)
Definition unlockable_present (p : PowerRanger) : Prop :=
  forall skill, In skill ["Power Strike"; "Mega Blast"; "Healing Light"] ->
    Py.get skill (skills p) <> None.

(** What [k] passes of the loop add. *)
Definition grown (k : Z) (p p' : PowerRanger) : Prop :=
  level p' = level p + k /\
  xp p' = xp p /\
  skill_points p' = skill_points p + k /\
  max_health p' = max_health p + 5 * k /\
  attack p' = attack p + 2 * k /\
  defense p' = defense p + k /\
  speed p' = speed p + k /\
  (inject_Z (max_health p') - current_health p'
   == inject_Z (max_health p) - current_health p)%Q /\
  mega_energy p' = mega_energy p /\
  gold p' = gold p /\
  ranger_keys p' = ranger_keys p.

(** The enemy has the four limbs of [Enemy.__init__]. *)
Definition four_limbs (e : EnemyAI.Enemy) : Prop :=
  forall k, In k ["left_arm"; "right_arm"; "left_leg"; "right_leg"] ->
    Py.get k (EnemyAI.limbs e) <> None.

(** No limb of the enemy is broken. *)
Definition limbs_intact (e : EnemyAI.Enemy) : Prop :=
  forall k l, Py.get k (EnemyAI.limbs e) = Some l -> EnemyAI.broken l = false.

(** An enemy's health is within its bounds. *)
Definition enemy_healthy (e : EnemyAI.Enemy) : Prop :=
  (0 <= EnemyAI.current_health e)%Q /\
  (EnemyAI.current_health e <= inject_Z (EnemyAI.max_health e))%Q.

(** The moves of a battle whose effect does not pass through a message
    text: the player's attack, defensive stance, limb attack and combo,
    the enemy's turn, and the bookkeeping that closes a turn. *)
Inductive Move :=
| Attacks (roll : Z) (pick : nat)
| TakesStance
| Targets (limb_name : string) (roll : Z) (pick : nat)
| Combos (required_sequence player_input : list string)
    (time_taken stun_draw : Q) (pick : nat)
| EnemyActs (d : EnemyAI.Draws) (u : Q) (pick : nat)
| TurnCloses (turn_counter : Z).

Definition move_step (s : PowerRanger * EnemyAI.Enemy) (m : Move)
  : PowerRanger * EnemyAI.Enemy :=
  let '(player, enemy) := s in
  match m with
  | Attacks roll pick => (player, fst (player_attack roll pick player enemy))
  | TakesStance => (player_defend player, enemy)
  | Targets limb_name roll pick =>
      (player, fst (player_limb_attack limb_name roll pick player enemy))
  | Combos required_sequence player_input time_taken stun_draw pick =>
      (player, fst (_execute_combo_attack player enemy required_sequence
                      player_input time_taken stun_draw pick))
  | EnemyActs d u pick =>
      let '(enemy, player, _) := _execute_enemy_turn d u pick player enemy in
      (player, enemy)
  | TurnCloses turn_counter =>
      (regenerate_mega_energy turn_counter (_update_status_effects player), enemy)
  end.

Definition battle_run (moves : list Move) (s : PowerRanger * EnemyAI.Enemy)
  : PowerRanger * EnemyAI.Enemy :=
  fold_left move_step moves s.

(** [e'] is [e] after some wear: attack and speed have not risen (nor
    gone below 0), the limb table has the same keys, every limb that
    was broken still is, and no fewer limbs are broken. *)
Definition worn (e e' : EnemyAI.Enemy) : Prop :=
  0 <= EnemyAI.attack e' <= EnemyAI.attack e /\
  0 <= EnemyAI.speed e' <= EnemyAI.speed e /\
  Py.keys (EnemyAI.limbs e') = Py.keys (EnemyAI.limbs e) /\
  (forall k, EnemyAI.limb_broken k e = Some true ->
             EnemyAI.limb_broken k e' = Some true) /\
  EnemyAI.broken_limbs e <= EnemyAI.broken_limbs e'.

(** The operations of a run whose increment of mega energy is not
    capped: a battle started in the City and the acquisition of a
    key. *)
Fixpoint uncapped (ops : list CoreOp) : Z :=
  match ops with
  | [] => 0
  | BattleStart environment _ :: rest =>
      (if String.eqb environment "City" then 1 else 0) + uncapped rest
  | AcquireKey _ :: rest => 1 + uncapped rest
  | _ :: rest => uncapped rest
  end.

(** The cells of a bar. *)
Definition bar_cells (b : HealthBar) : list string :=
  match b with
  | Bar_unknown bar => bar
  | Bar_of bar _ _ => bar
  end.

End MoreVocabulary.

(** * Properties *)

(** ** Facts about the built-ins *)

Section PyFacts.

Lemma py_max_ge_l (a b : Q) : (a <= Py.max a b)%Q.
Proof.
  unfold Py.max. destruct (Qlt_le_dec a b) as [Hlt | Hle].
  - apply Qlt_le_weak, Hlt.
  - apply Qle_refl.
Qed.

(** Python's [max] is the mathematical maximum. *)
Lemma py_max_is_Qmax (a b : Q) : (Py.max a b == Qmax a b)%Q.
Proof.
  unfold Py.max. destruct (Qlt_le_dec a b) as [Hlt | Hle].
  - symmetry. apply Qminmax.Q.max_r. apply Qlt_le_weak, Hlt.
  - symmetry. apply Qminmax.Q.max_l. exact Hle.
Qed.

Lemma py_min_le_l (a b : Q) : (Py.min a b <= a)%Q.
Proof.
  unfold Py.min. destruct (Qlt_le_dec b a) as [Hlt | Hle].
  - apply Qlt_le_weak, Hlt.
  - apply Qle_refl.
Qed.

End PyFacts.

(** ** The player's damage model *)

Section PlayerDamage.

Import Character.

Lemma take_damage_returns (damage : Q) (p : PowerRanger) :
  (snd (take_damage damage p)
   == Py.max 1 (damage - inject_Z (defense p)) * arm_penalty p)%Q.
Proof.
  unfold take_damage, arm_penalty. simpl.
  destruct (0 <? arms (limb_damage p)).
  - reflexivity.
  - ring.
Qed.

(** C2.  For every raw damage and every defense, [take_damage]
    computes max(1, raw_damage - defense), multiplies it by 1.2 when
    the arms are injured, subtracts the result from [current_health]
    clamped at 0, touches nothing else, and returns that result, which
    is at least 1 however large the defense is. *)
Theorem take_damage_spec (damage : Q) (p : PowerRanger) :
  let actual := (Qmax 1 (damage - inject_Z (defense p)) * arm_penalty p)%Q in
  let p' := fst (take_damage damage p) in
  let returned := snd (take_damage damage p) in
  (returned == actual)%Q /\
  (current_health p' == Qmax 0 (current_health p - actual))%Q /\
  (1 <= returned)%Q /\
  p' = with_current_health (current_health p') p.
Proof.
  cbv zeta.
  assert (Hret : (snd (take_damage damage p)
                  == Qmax 1 (damage - inject_Z (defense p)) * arm_penalty p)%Q).
  { rewrite take_damage_returns. rewrite py_max_is_Qmax. reflexivity. }
  split; [exact Hret |]. split; [| split].
  - change (current_health (fst (take_damage damage p)))
      with (Py.max 0 (current_health p - snd (take_damage damage p))).
    rewrite py_max_is_Qmax. rewrite Hret. reflexivity.
  - rewrite take_damage_returns.
    pose proof (py_max_ge_l 1 (damage - inject_Z (defense p))) as Hge.
    unfold arm_penalty. destruct (0 <? arms (limb_damage p)).
    + apply Qle_trans with (Py.max 1 (damage - inject_Z (defense p)) * 1)%Q.
      * rewrite Qmult_1_r. exact Hge.
      * rewrite (Qmult_comm _ 1), (Qmult_comm _ 1.2).
        apply Qmult_le_compat_r; [discriminate |].
        apply Qle_trans with 1%Q; [discriminate | exact Hge].
    + rewrite Qmult_1_r. exact Hge.
  - destruct p; reflexivity.
Qed.

(** [heal] never takes the health above [max_health]. *)
Lemma heal_bounded (amount : Q) (p : PowerRanger) :
  (current_health (fst (heal amount p)) <= inject_Z (max_health p))%Q.
Proof. unfold heal. simpl. apply py_min_le_l. Qed.

(** A hit far below the defense still costs one point of health. *)
Example take_damage_under_defense :
  let p := init "Tommy" "Blue" "Time Force" "Power Sword" in
  defense p = 22 /\
  snd (take_damage 3 p) = 1%Q /\
  (current_health (fst (take_damage 3 p)) == 104)%Q.
Proof. vm_compute. repeat split. Qed.

End PlayerDamage.

(** ** Fusion power *)

Section Fusion.

Import Character.

(** The gate of fusion power is exactly the three thresholds. *)
Lemma can_use_fusion_power_iff (p : PowerRanger) :
  can_use_fusion_power p = true <->
  3 <= level p /\ 3 <= mega_energy p /\ (2 <= length (ranger_keys p))%nat.
Proof.
  unfold can_use_fusion_power.
  rewrite !andb_true_iff, !Z.leb_le. split.
  - intros [[Hl Hm] Hk]. repeat split; [exact Hl | exact Hm | lia].
  - intros (Hl & Hm & Hk). repeat split; [exact Hl | exact Hm | lia].
Qed.

(** C3.  Fusion power is all-or-nothing.  When one of the three
    preconditions (level >= 3, mega_energy >= 3, at least two ranger
    keys) fails, [use_fusion_power] reports failure and the ranger is
    exactly as before; when all three hold it reports success, the
    only attribute that changes is [mega_energy], which drops by
    exactly 3, and the reported damage is attack x 3.0. *)
Theorem use_fusion_power_all_or_nothing (p : PowerRanger) :
  (level p < 3 \/ mega_energy p < 3 \/ (length (ranger_keys p) < 2)%nat ->
   use_fusion_power p = (p, (false, Msg_cannot_use_fusion)))
  /\
  (3 <= level p /\ 3 <= mega_energy p /\ (2 <= length (ranger_keys p))%nat ->
   exists damage,
     use_fusion_power p
     = (with_mega_energy (mega_energy p - 3) p, (true, Msg_fusion_activated damage))
     /\ (damage == inject_Z (attack p) * 3)%Q).
Proof.
  split.
  - intros Hfail.
    assert (Hcan : can_use_fusion_power p = false).
    { destruct (can_use_fusion_power p) eqn:E; [| reflexivity].
      apply can_use_fusion_power_iff in E. lia. }
    unfold use_fusion_power. rewrite Hcan. reflexivity.
  - intros Hok. apply can_use_fusion_power_iff in Hok.
    unfold use_fusion_power. rewrite Hok. simpl.
    eexists. split; [reflexivity |]. unfold Qeq. simpl. lia.
Qed.

Lemma use_fusion_power_all_or_nothing_witness :
  use_fusion_power fusion_drained = (fusion_drained, (false, Msg_cannot_use_fusion))
  /\ exists damage,
       use_fusion_power fusion_ready
       = (with_mega_energy 1 fusion_ready, (true, Msg_fusion_activated damage))
       /\ (damage == 135)%Q.
Proof.
  split.
  - apply (proj1 (use_fusion_power_all_or_nothing fusion_drained)).
    right; left. vm_compute. reflexivity.
  - destruct (proj2 (use_fusion_power_all_or_nothing fusion_ready)) as (damage & Hrun & Hdmg).
    + repeat split; simpl; lia.
    + exists damage. split; [exact Hrun | rewrite Hdmg; reflexivity].
Defined.

End Fusion.

(** ** Serialization *)

Section RoundTrip.

Import Character.

(** Every key [load_from_dict] asks for is in the mapping
    [get_stats_dict] writes, under the value of the attribute. *)
Lemma get_stats_dict_lookups (p : PowerRanger) :
  get_stats_dict p !! "level" = Some (VInt (level p)) /\
  get_stats_dict p !! "current_health" = Some (VNum (current_health p)) /\
  get_stats_dict p !! "skills" = Some (VSkills (skills p)) /\
  get_stats_dict p !! "limb_damage" = Some (VLimbDamage (limb_damage p)) /\
  get_stats_dict p !! "status_effects" = Some (VEffects (status_effects p)) /\
  get_stats_dict p !! "stamina" = None.
Proof. destruct p. vm_compute. repeat split. Qed.

Lemma load_after_get_stats_dict (p self : PowerRanger) :
  load_from_dict (get_stats_dict p) self = Some (p, true).
Proof. destruct p. reflexivity. Qed.

(** C9.  Writing a ranger to its attribute mapping with
    [get_stats_dict] and loading that mapping with [load_from_dict]
    into any ranger object succeeds and yields the original ranger:
    level, xp, max and current health, attack, defense, speed, gold,
    mega_energy, skill_points, skills, limb_damage and status_effects
    (and every other attribute) are identical. *)
Theorem load_from_dict_get_stats_dict (p self : PowerRanger) :
  exists p',
    load_from_dict (get_stats_dict p) self = Some (p', true) /\
    level p' = level p /\ xp p' = xp p /\ max_health p' = max_health p /\
    current_health p' = current_health p /\ attack p' = attack p /\
    defense p' = defense p /\ speed p' = speed p /\ gold p' = gold p /\
    mega_energy p' = mega_energy p /\ skill_points p' = skill_points p /\
    skills p' = skills p /\ limb_damage p' = limb_damage p /\
    status_effects p' = status_effects p /\
    p' = p.
Proof.
  exists p. split; [apply load_after_get_stats_dict |]. repeat split.
Qed.

(** A ranger in the middle of a battle, written and read back into a
    new object. *)
Example round_trip_mid_battle :
  let p := fst (use_skill "Speed Boost"
                  (fst (learn_skill "Speed Boost"
                          (fst (gain_xp 250 (init "Tommy" "Red" "Megaforce" "Power Sword")))))) in
  status_effects p = [mkEffect "speed_boost" 3] /\
  mega_energy p = 2 /\
  load_from_dict (get_stats_dict p) (init "" "" "" "") = Some (p, true).
Proof. vm_compute. repeat split. Qed.

End RoundTrip.

(** ** The enemy factory *)

Section Factory.

Import EnemyAI.

Lemma known_archetypes_are_the_classes :
  known_archetypes = Py.keys enemy_classes /\
  known_difficulties = Py.keys difficulty_multipliers.
Proof. split; reflexivity. Qed.

Lemma eqb_of_neq (a b : string) : a <> b -> String.eqb a b = false.
Proof. intros H. apply String.eqb_neq. exact H. Qed.

(** A name outside the class table is not found in it. *)
Lemma unknown_archetype_not_in_table (enemy_type : string) :
  ~ In enemy_type known_archetypes -> Py.get enemy_type enemy_classes = None.
Proof.
  intros Hnot. unfold known_archetypes in Hnot. simpl in Hnot.
  unfold enemy_classes, Py.get.
  repeat (rewrite eqb_of_neq; [| intros ->; apply Hnot; tauto]).
  reflexivity.
Qed.

(** The four tags and their multipliers; every other tag reads 1.0. *)
Lemma multiplier_of_cases (d : string) :
  (d = "Easy" /\ multiplier_of d = 0.8%Q) \/
  (d = "Medium" /\ multiplier_of d = 1.0%Q) \/
  (d = "Hard" /\ multiplier_of d = 1.3%Q) \/
  (d = "Extreme" /\ multiplier_of d = 1.6%Q) \/
  (~ In d known_difficulties /\ multiplier_of d = 1.0%Q).
Proof.
  unfold multiplier_of, difficulty_multipliers, Py.get.
  destruct (String.eqb_spec d "Easy") as [-> | H1]; [left; split; reflexivity |].
  destruct (String.eqb_spec d "Medium") as [-> | H2]; [right; left; split; reflexivity |].
  destruct (String.eqb_spec d "Hard") as [-> | H3];
    [right; right; left; split; reflexivity |].
  destruct (String.eqb_spec d "Extreme") as [-> | H4];
    [right; right; right; left; split; reflexivity |].
  right; right; right; right. split; [| reflexivity].
  simpl. intros [E | [E | [E | [E | []]]]]; congruence.
Qed.

(** C10.  For every archetype string that is neither ["random"] nor
    one of the seven known names, [create_enemy] does not fail: it
    builds a Loogies enemy and scales its health, attack, defense and
    both rewards by the multiplier of the requested difficulty, 1.0
    when the difficulty tag is unknown (so that the enemy is then a
    plain Loogies). *)
Theorem create_enemy_unknown_archetype
    (enemy_type mission_difficulty : string) (pick : nat) :
  enemy_type <> "random" ->
  ~ In enemy_type known_archetypes ->
  let m := multiplier_of mission_difficulty in
  let enemy := create_enemy enemy_type mission_difficulty pick in
  enemy = scale m Loogies /\
  name enemy = "Loogies" /\
  max_health enemy = Py.int (30 * m)%Q /\
  current_health enemy = inject_Z (max_health enemy) /\
  attack enemy = Py.int (8 * m)%Q /\
  defense enemy = Py.int (5 * m)%Q /\
  gold_reward enemy = Py.int (25 * m)%Q /\
  xp_reward enemy = Py.int (20 * m)%Q /\
  (~ In mission_difficulty known_difficulties -> enemy = Loogies).
Proof.
  intros Hrandom Hunknown m enemy.
  assert (Hrun : enemy = scale m Loogies).
  { unfold enemy, create_enemy.
    rewrite (eqb_of_neq _ _ Hrandom).
    rewrite (unknown_archetype_not_in_table _ Hunknown). reflexivity. }
  split; [exact Hrun |].
  rewrite Hrun. repeat split.
  intros Hdiff. unfold m.
  destruct (multiplier_of_cases mission_difficulty)
    as [[E _] | [[E _] | [[E _] | [[E _] | [_ E]]]]];
    try (exfalso; apply Hdiff; rewrite E; simpl; tauto).
  rewrite E. reflexivity.
Qed.

Lemma create_enemy_unknown_archetype_witness :
  let enemy := create_enemy "Gorgon" "Nightmare" 0 in
  enemy = Loogies /\ max_health enemy = 30 /\ attack enemy = 8 /\
  defense enemy = 5 /\ gold_reward enemy = 25 /\ xp_reward enemy = 20.
Proof.
  pose proof (create_enemy_unknown_archetype "Gorgon" "Nightmare" 0) as H.
  destruct H as (_ & _ & Hh & _ & Ha & Hd & Hg & Hx & Hplain).
  - discriminate.
  - simpl. intros [E | [E | [E | [E | [E | [E | [E | []]]]]]]]; discriminate.
  - split.
    { apply Hplain. simpl. intros [E | [E | [E | [E | []]]]]; discriminate. }
    split; [rewrite Hh; reflexivity |].
    split; [rewrite Ha; reflexivity |].
    split; [rewrite Hd; reflexivity |].
    split; [rewrite Hg; reflexivity | rewrite Hx; reflexivity].
Defined.

(** The fallback under each known difficulty. *)
Example create_enemy_unknown_archetype_hard :
  let enemy := create_enemy "Gorgon" "Hard" 0 in
  (max_health enemy, attack enemy, defense enemy, gold_reward enemy, xp_reward enemy)
  = (39, 10, 6, 32, 26).
Proof. reflexivity. Qed.

Example create_enemy_unknown_archetype_easy :
  let enemy := create_enemy "Gorgon" "Easy" 0 in
  (max_health enemy, attack enemy, defense enemy, gold_reward enemy, xp_reward enemy)
  = (24, 6, 4, 20, 16).
Proof. reflexivity. Qed.

End Factory.

(** ** Combo scoring *)

Section Combo.

Import Character Battle.



(** [correct_count] is the number of positions at which the two
    sequences agree. *)
Lemma correct_count_positions (player_input required_sequence : list string) :
  correct_count player_input required_sequence
  = Z.of_nat (length (List.filter (fun kr => String.eqb (fst kr) (snd kr))
                        (combine player_input required_sequence))).
Proof.
  revert required_sequence.
  induction player_input as [| key input' IH]; intros [| r required']; simpl;
    try reflexivity.
  rewrite IH. destruct (String.eqb key r); cbn [length]; lia.
Qed.




End Combo.

(** ** The enemy's state machine at low health *)

Section LowHealth.

Import EnemyAI.

(** What [update_ai_state] does at 20% health or below. *)
Lemma update_ai_state_low (r : Q) (pick : nat) (e : Enemy) :
  max_health e <> 0 ->
  (current_health e / inject_Z (max_health e) <= 0.2)%Q ->
  update_ai_state r pick e
  = let e1 := if Qlt_le_dec r 0.6 then with_state FLEEING e else with_state ENRAGED e in
    if 2 <=? broken_limbs e then with_state DEFENSIVE e1 else e1.
Proof.
  intros Hmax Hlow. unfold update_ai_state.
  apply Z.eqb_neq in Hmax. rewrite Hmax.
  apply Qle_bool_iff in Hlow. rewrite Hlow.
  destruct (Qlt_le_dec r 0.6); reflexivity.
Qed.

(** C6, as amended.  For every enemy whose health fraction is defined
    ([max_health] is not 0) and at most 20%, in particular exactly 20%:
    with fewer than two broken limbs, [update_ai_state] leaves the
    enemy Fleeing when the random draw is below 0.6 and Enraged
    otherwise, and no other state is possible; with two or more broken
    limbs the state is Defensive, whatever the draw. *)
Theorem update_ai_state_low_health (r : Q) (pick : nat) (e : Enemy) :
  max_health e <> 0 ->
  (current_health e / inject_Z (max_health e) <= 0.2)%Q ->
  let e' := update_ai_state r pick e in
  (broken_limbs e < 2 ->
     ((r < 0.6)%Q -> state e' = FLEEING) /\
     ((0.6 <= r)%Q -> state e' = ENRAGED) /\
     (state e' = FLEEING \/ state e' = ENRAGED)) /\
  (2 <= broken_limbs e -> state e' = DEFENSIVE).
Proof.
  intros Hmax Hlow e'. unfold e'.
  rewrite (update_ai_state_low r pick e Hmax Hlow). cbv zeta.
  split.
  - intros Hfew. apply Z.leb_gt in Hfew. rewrite Hfew.
    destruct (Qlt_le_dec r 0.6) as [Hlt | Hge]; simpl.
    + split; [reflexivity |]. split; [| left; reflexivity].
      intros Hge. exfalso. apply (Qlt_irrefl r). eapply Qlt_le_trans; eassumption.
    + split; [| split; [reflexivity | right; reflexivity]].
      intros Hlt. exfalso. apply (Qlt_irrefl r). eapply Qlt_le_trans; eassumption.
  - intros Hmany. apply Z.leb_le in Hmany. rewrite Hmany. reflexivity.
Qed.

Lemma update_ai_state_low_health_witness :
  (current_health wounded_loogies / inject_Z (max_health wounded_loogies) == 0.2)%Q /\
  broken_limbs wounded_loogies = 1 /\
  state (update_ai_state 0.3 0 wounded_loogies) = FLEEING /\
  state (update_ai_state 0.6 0 wounded_loogies) = ENRAGED /\
  state (update_ai_state 0.3 0 crippled_loogies) = DEFENSIVE.
Proof.
  split; [reflexivity |]. split; [reflexivity |].
  assert (Hmax : max_health wounded_loogies <> 0) by discriminate.
  assert (Hlow : (current_health wounded_loogies
                  / inject_Z (max_health wounded_loogies) <= 0.2)%Q) by discriminate.
  assert (Hmax' : max_health crippled_loogies <> 0) by discriminate.
  assert (Hlow' : (current_health crippled_loogies
                   / inject_Z (max_health crippled_loogies) <= 0.2)%Q) by discriminate.
  split; [| split].
  - apply (update_ai_state_low_health 0.3 0 wounded_loogies Hmax Hlow).
    + reflexivity.
    + reflexivity.
  - apply (update_ai_state_low_health 0.6 0 wounded_loogies Hmax Hlow).
    + reflexivity.
    + discriminate.
  - apply (update_ai_state_low_health 0.3 0 crippled_loogies Hmax' Hlow').
    discriminate.
Defined.

(** C6 as stated fails: an enemy at exactly 20% health with two broken
    legs ends Defensive, for a draw on either side of 0.6. *)
Lemma update_ai_state_low_health_counterexample :
  (current_health crippled_loogies / inject_Z (max_health crippled_loogies) == 0.2)%Q /\
  broken_limbs crippled_loogies = 2 /\
  forall r pick,
    state (update_ai_state r pick crippled_loogies) = DEFENSIVE /\
    state (update_ai_state r pick crippled_loogies) <> FLEEING /\
    state (update_ai_state r pick crippled_loogies) <> ENRAGED.
Proof.
  split; [reflexivity |]. split; [reflexivity |].
  intros r pick.
  assert (H : state (update_ai_state r pick crippled_loogies) = DEFENSIVE).
  { rewrite update_ai_state_low by discriminate.
    cbv zeta. destruct (Qlt_le_dec r 0.6); reflexivity. }
  rewrite H. repeat split; discriminate.
Qed.

End LowHealth.

(** ** Limb damage *)

Section LimbDamage.

Import EnemyAI.

Lemma get_set_same {V} (k : string) (v v0 : V) (d : Py.dict V) :
  Py.get k d = Some v0 -> Py.get k (Py.set k v d) = Some v.
Proof.
  induction d as [| [k' v'] d IH]; simpl; [discriminate |].
  destruct (String.eqb k k') eqn:E; simpl; rewrite E.
  - intros _. reflexivity.
  - exact IH.
Qed.

Lemma get_set_other {V} (k k2 : string) (v : V) (d : Py.dict V) :
  k2 <> k -> Py.get k2 (Py.set k v d) = Py.get k2 d.
Proof.
  intros Hne. induction d as [| [k' v'] d IH]; simpl.
  - apply String.eqb_neq in Hne. rewrite Hne. reflexivity.
  - destruct (String.eqb k k') eqn:E; simpl.
    + apply String.eqb_eq in E. subst k'.
      apply String.eqb_neq in Hne. rewrite Hne. reflexivity.
    + destruct (String.eqb k2 k'); [reflexivity | exact IH].
Qed.

Lemma take_limb_damage_broken (limb_name : string) (damage : Q) (e : Enemy) (limb : Limb) :
  Py.get limb_name (limbs e) = Some limb -> broken limb = true ->
  take_limb_damage limb_name damage e = (e, (false, Limb_already_broken)).
Proof.
  intros Hget Hbroken. unfold take_limb_damage. rewrite Hget, Hbroken. reflexivity.
Qed.

Lemma limbs_break_penalty (limb_name : string) (e : Enemy) :
  limbs (break_penalty limb_name e) = limbs e.
Proof.
  unfold break_penalty.
  destruct (Py.contains "arm" limb_name); [reflexivity |].
  destruct (Py.contains "leg" limb_name); reflexivity.
Qed.

(** C4, as amended.  A limb can only break once.  On an already-broken
    limb [take_limb_damage] reports failure and the enemy (that limb's
    health and flag, every stat) is unchanged.  On a limb that is not
    broken it subtracts the amount and reports success; while the
    limb's health stays positive nothing else changes; when it drops
    to 0 or below the health is set to 0, the limb is marked broken,
    and the penalty is applied: int(attack x 0.8) for an arm,
    int(speed x 0.8) for a leg, the product being truncated to an
    integer.  Whatever hits follow on that limb, the penalty is not
    applied again. *)
Theorem take_limb_damage_spec
    (limb_name : string) (damage : Q) (e : Enemy) (limb : Limb) :
  Py.get limb_name (limbs e) = Some limb ->
  (broken limb = true ->
     take_limb_damage limb_name damage e = (e, (false, Limb_already_broken))) /\
  (broken limb = false -> (0 < health limb - damage)%Q ->
     take_limb_damage limb_name damage e
     = (with_limbs
          (Py.set limb_name
             (mkLimb (health limb - damage) (limb_max_health limb) false) (limbs e)) e,
        (true, Limb_takes_damage damage))) /\
  (broken limb = false -> (health limb - damage <= 0)%Q ->
     let e' := fst (take_limb_damage limb_name damage e) in
     fst (snd (take_limb_damage limb_name damage e)) = true /\
     e' = break_penalty limb_name
            (with_limbs
               (Py.set limb_name (mkLimb 0 (limb_max_health limb) true) (limbs e)) e) /\
     Py.get limb_name (limbs e') = Some (mkLimb 0 (limb_max_health limb) true) /\
     forall damages, take_limb_damages limb_name damages e' = e').
Proof.
  intros Hget. split; [| split].
  - intros Hbroken. exact (take_limb_damage_broken _ _ _ _ Hget Hbroken).
  - intros Hsound Hpos. unfold take_limb_damage. rewrite Hget, Hsound. simpl.
    destruct (Qle_bool (health limb - damage) 0) eqn:E; [| reflexivity].
    apply Qle_bool_iff in E. exfalso.
    apply (Qlt_irrefl 0). eapply Qlt_le_trans; eassumption.
  - intros Hsound Hdead.
    assert (Hrun : take_limb_damage limb_name damage e
                   = (break_penalty limb_name
                        (with_limbs
                           (Py.set limb_name (mkLimb 0 (limb_max_health limb) true)
                              (limbs e)) e),
                      (true,
                       if Py.contains "arm" limb_name then Limb_arm_broken
                       else if Py.contains "leg" limb_name then Limb_leg_broken
                       else Limb_takes_damage damage))).
    { unfold take_limb_damage, break_penalty. rewrite Hget, Hsound. simpl.
      apply Qle_bool_iff in Hdead. rewrite Hdead.
      destruct (Py.contains "arm" limb_name); [reflexivity |].
      destruct (Py.contains "leg" limb_name); reflexivity. }
    cbv zeta. rewrite Hrun. simpl.
    assert (Hlimb : Py.get limb_name
                      (limbs (break_penalty limb_name
                         (with_limbs
                            (Py.set limb_name (mkLimb 0 (limb_max_health limb) true)
                               (limbs e)) e)))
                    = Some (mkLimb 0 (limb_max_health limb) true)).
    { rewrite limbs_break_penalty. simpl. eapply get_set_same. exact Hget. }
    split; [reflexivity |]. split; [reflexivity |]. split; [exact Hlimb |].
    intros damages. unfold take_limb_damages.
    induction damages as [| d ds IH]; simpl; [reflexivity |].
    rewrite (take_limb_damage_broken _ d _ _ Hlimb eq_refl). exact IH.
Qed.

(** The other limbs are never touched. *)
Lemma take_limb_damage_other_limbs
    (limb_name other : string) (damage : Q) (e : Enemy) :
  other <> limb_name ->
  Py.get other (limbs (fst (take_limb_damage limb_name damage e)))
  = Py.get other (limbs e).
Proof.
  intros Hother. unfold take_limb_damage.
  destruct (Py.get limb_name (limbs e)) as [limb |]; [| reflexivity].
  destruct (broken limb); [reflexivity |]. simpl.
  destruct (Qle_bool (health limb - damage) 0).
  - destruct (Py.contains "arm" limb_name); simpl;
      [apply get_set_other, Hother |].
    destruct (Py.contains "leg" limb_name); simpl; apply get_set_other, Hother.
  - simpl. apply get_set_other, Hother.
Qed.

(** A limb name the enemy does not have is refused as well. *)
Lemma take_limb_damage_invalid (limb_name : string) (damage : Q) (e : Enemy) :
  Py.get limb_name (limbs e) = None ->
  take_limb_damage limb_name damage e = (e, (false, Limb_invalid)).
Proof. intros Hget. unfold take_limb_damage. rewrite Hget. reflexivity. Qed.

(** A Loogies (attack 8, arms of 12 health) hit on the left arm: 5
    points leave the arm sound, 12 break it, and further hits are
    refused. *)
Lemma take_limb_damage_spec_witness :
  let broken_arm := mkLimb 0 12 true in
  let e' := fst (take_limb_damage "left_arm" 12 Loogies) in
  Py.get "left_arm" (limbs (fst (take_limb_damage "left_arm" 5 Loogies)))
    = Some (mkLimb (12 - 5) 12 false) /\
  Py.get "left_arm" (limbs e') = Some broken_arm /\
  attack e' = 6 /\
  take_limb_damages "left_arm" [3%Q; 40%Q] e' = e' /\
  take_limb_damage "left_arm" 3 e' = (e', (false, Limb_already_broken)).
Proof.
  intros broken_arm e'.
  assert (Hget : Py.get "left_arm" (limbs Loogies) = Some (mkLimb 12 12 false))
    by reflexivity.
  destruct (take_limb_damage_spec "left_arm" 5 Loogies _ Hget) as (_ & Hhit & _).
  destruct (take_limb_damage_spec "left_arm" 12 Loogies _ Hget) as (_ & _ & Hbreak).
  destruct (Hbreak eq_refl) as (_ & Hpen & Hlimb & Honce); [discriminate |].
  assert (Hget' : Py.get "left_arm" (limbs e') = Some broken_arm) by exact Hlimb.
  destruct (take_limb_damage_spec "left_arm" 3 e' _ Hget') as (Hrefused & _ & _).
  split; [rewrite Hhit; reflexivity |].
  split; [exact Hlimb |].
  split; [unfold e'; rewrite Hpen; reflexivity |].
  split; [apply Honce | apply Hrefused; reflexivity].
Defined.

(** C4 as stated fails on the size of the penalty: breaking an arm of
    a Loogies (attack 8) leaves attack 6, not 8 x 0.8 = 6.4. *)
Lemma take_limb_damage_counterexample :
  let e' := fst (take_limb_damage "left_arm" 12 Loogies) in
  Py.get "left_arm" (limbs Loogies) = Some (mkLimb 12 12 false) /\
  attack Loogies = 8 /\
  attack e' = 6 /\
  ~ (inject_Z (attack e') == inject_Z (attack Loogies) * 0.8)%Q.
Proof.
  repeat split. intros H. discriminate H.
Qed.

End LimbDamage.

(** ** Victory rewards *)

Section Rewards.

Import Character Battle.

Lemma combo_bonus_formula (battle_log : list string) :
  (combo_bonus battle_log == 1 + 0.1 * inject_Z (combo_count battle_log))%Q.
Proof.
  unfold combo_bonus.
  destruct (0 <? combo_count battle_log) eqn:E.
  - ring.
  - assert (H0 : combo_count battle_log = 0).
    { apply Z.ltb_ge in E. unfold combo_count in *. lia. }
    rewrite H0. reflexivity.
Qed.

(** The bonus has no cap: a log of [n] perfect-combo lines earns
    1 + n/10. *)
Lemma combo_bonus_uncapped (n : nat) :
  (combo_bonus (repeat "PERFECT COMBO!" n) == 1 + 0.1 * inject_Z (Z.of_nat n))%Q.
Proof.
  rewrite combo_bonus_formula.
  assert (H : combo_count (repeat "PERFECT COMBO!" n) = Z.of_nat n).
  { unfold combo_count. f_equal.
    induction n as [| n IH]; [reflexivity |].
    cbn [repeat]. change (Py.contains "COMBO" "PERFECT COMBO!") with true in *.
    cbn [List.filter].
    change (Py.contains "COMBO" "PERFECT COMBO!") with true.
    cbn [length]. rewrite IH. reflexivity. }
  rewrite H. reflexivity.
Qed.

(** The log lines the combo attack writes: only the perfect one holds
    the upper-case text the reward code looks for. *)
Example combo_lines_counted :
  combo_count
    [ "🎯 PERFECT COMBO! 35.0 damage dealt! (1.2s)";
      "✨ Good combo! 28.0 damage dealt! (80% accuracy)";
      "💥 Weak combo. 5.0 damage dealt. (40% accuracy)";
      "❌ Combo failed! Only 1 damage dealt.";
      "⏰ Too slow! Combo failed! (3.4s)" ] = 1.
Proof. reflexivity. Qed.




End Rewards.

(** ** The enemy's defend boost *)

Section DefendBoost.

Import EnemyAI.

(** What [take_damage] needs to take a boost back: the marker
    attribute.  No enemy is created with it... *)
Lemma scale_keeps_marker (m : Q) (e : Enemy) :
  _temp_defense_boost (scale m e) = _temp_defense_boost e.
Proof. reflexivity. Qed.

Lemma created_without_marker (enemy_type mission_difficulty : string) (pick : nat) :
  _temp_defense_boost (create_enemy enemy_type mission_difficulty pick) = false.
Proof.
  unfold create_enemy.
  destruct (if String.eqb enemy_type "random"
            then Py.choice (Py.keys Config.ENEMY_TYPES) pick
            else Some enemy_type) as [chosen |]; [| reflexivity].
  rewrite scale_keeps_marker.
  unfold enemy_classes, Py.get.
  repeat (match goal with
          | |- context [String.eqb chosen ?k] => destruct (String.eqb chosen k)
          end; [reflexivity |]).
  reflexivity.
Qed.

(** ... and no step of a battle sets it, nor lowers the defense
    without it. *)
Lemma update_ai_state_defense (r : Q) (pick : nat) (e : Enemy) :
  defense (update_ai_state r pick e) = defense e /\
  _temp_defense_boost (update_ai_state r pick e) = _temp_defense_boost e.
Proof.
  unfold update_ai_state.
  repeat match goal with
         | |- context [if ?c then _ else _] => destruct c
         | |- context [match ?c with Some _ => _ | None => _ end] => destruct c
         end; split; reflexivity.
Qed.

Lemma choose_action_defense (d : Draws) (e : Enemy) :
  defense (fst (choose_action d e)) = defense e /\
  _temp_defense_boost (fst (choose_action d e)) = _temp_defense_boost e.
Proof.
  unfold choose_action.
  set (e1 := update_ai_state _ _ _).
  assert (H1 : defense e1 = defense e /\ _temp_defense_boost e1 = _temp_defense_boost e).
  { unfold e1. destruct (update_ai_state_defense (draw_state d) (draw_state_pick d)
                           (with_turn_counter (turn_counter e + 1) e)) as [Hd Hm].
    split; [rewrite Hd | rewrite Hm]; reflexivity. }
  clearbody e1.
  repeat match goal with
         | |- context [if ?c then _ else _] => destruct c
         | |- context [match ?c with _ => _ end] => destruct c
         end; exact H1.
Qed.

Lemma take_limb_damage_defense (limb_name : string) (damage : Q) (e : Enemy) :
  defense (fst (take_limb_damage limb_name damage e)) = defense e /\
  _temp_defense_boost (fst (take_limb_damage limb_name damage e))
  = _temp_defense_boost e.
Proof.
  unfold take_limb_damage.
  repeat match goal with
         | |- context [if ?c then _ else _] => destruct c
         | |- context [match ?c with Some _ => _ | None => _ end] => destruct c
         end; split; reflexivity.
Qed.

Lemma take_damage_defense (damage : Q) (pick : nat) (e : Enemy) :
  _temp_defense_boost e = false ->
  defense (fst (take_damage damage pick e)) = defense e /\
  _temp_defense_boost (fst (take_damage damage pick e)) = false.
Proof.
  intros Hmarker. unfold take_damage. simpl. rewrite Hmarker.
  destruct (Qlt_le_dec _ damage); [| split; [reflexivity | exact Hmarker]].
  destruct (Py.choice _ pick) as [target |]; [| split; [reflexivity | exact Hmarker]].
  simpl.
  match goal with
  | |- context [take_limb_damage ?n ?d ?x] =>
      destruct (take_limb_damage_defense n d x) as [Hd Hm]
  end.
  rewrite Hd, Hm. split; [reflexivity | exact Hmarker].
Qed.

Lemma enemy_step_defense (ev : EnemyEvent) (e : Enemy) :
  _temp_defense_boost e = false ->
  defense (enemy_step e ev) = defense e + 5 * defends [ev] /\
  _temp_defense_boost (enemy_step e ev) = false.
Proof.
  intros Hmarker. destruct ev as [d | u pick player | damage pick | limb_name damage];
    simpl.
  - destruct (choose_action_defense d e) as [Hd Hm]. rewrite Hd, Hm. split; [lia | exact Hmarker].
  - split; [lia | exact Hmarker].
  - destruct (take_damage_defense damage pick e Hmarker) as [Hd Hm].
    rewrite Hd, Hm. split; [lia | reflexivity].
  - destruct (take_limb_damage_defense limb_name damage e) as [Hd Hm].
    rewrite Hd, Hm. split; [lia | exact Hmarker].
Qed.

Lemma enemy_run_defense (events : list EnemyEvent) (e : Enemy) :
  _temp_defense_boost e = false ->
  defense (enemy_run events e) = defense e + 5 * defends events.
Proof.
  revert e. induction events as [| ev events IH]; intros e Hmarker.
  - simpl. lia.
  - unfold enemy_run. simpl fold_left.
    destruct (enemy_step_defense ev e Hmarker) as [Hd Hm].
    change (fold_left enemy_step events (enemy_step e ev))
      with (enemy_run events (enemy_step e ev)).
    rewrite (IH _ Hm).
    destruct ev; simpl in *; lia.
Qed.

(** C7 on the code.  The claim is that the +5 defense of a [defend]
    action is taken back later.  On the code it never is: for every
    enemy the factory creates and every course of a battle, the
    defense at the end is the defense at creation plus 5 for each
    [defend] executed; [take_damage] would take a boost back only for
    an enemy carrying the [_temp_defense_boost] marker, which nothing
    sets. *)
Theorem defend_boost_is_permanent
    (enemy_type mission_difficulty : string) (pick : nat)
    (events : list EnemyEvent) :
  let enemy := create_enemy enemy_type mission_difficulty pick in
  defense (enemy_run events enemy) = defense enemy + 5 * defends events.
Proof.
  intros enemy. apply enemy_run_defense.
  apply created_without_marker.
Qed.

(** A Loogies (defense 5) that defends, is struck, defends again and
    is struck again has defense 15; with the marker set by [defend]
    the same enemy would be back at 5. *)
Example defend_boost_accumulates :
  let player := Character.init "Tommy" "Red" "Megaforce" "Power Sword" in
  let enemy := create_enemy "Loogies" "Medium" 0 in
  defense enemy = 5 /\
  defense (enemy_run [Defends 1 0 player; Struck 10 0] enemy) = 10 /\
  defense (enemy_run [Defends 1 0 player; Struck 10 0;
                      Defends 1 0 player; Struck 10 0] enemy) = 15.
Proof. repeat split. Qed.

End DefendBoost.

(** ** Levelling up *)

Section Levelling.

Import Character.

Lemma unlock_at_level_keeps (p p' : PowerRanger) :
  unlock_at_level p = Some p' ->
  level p' = level p /\ xp p' = xp p /\ mega_energy p' = mega_energy p.
Proof.
  unfold unlock_at_level.
  repeat match goal with
         | |- context [if ?c then _ else _] => destruct c
         | |- context [match Py.get ?k ?d with _ => _ end] =>
             destruct (Py.get k d) as [[|] |]
         end; intros [= <-]; repeat split.
Qed.

(** The fuel [gain_xp] gives its loop is enough: the loop ends because
    its condition fails (or because the lookup of a skill raised). *)
Lemma gain_xp_loop_finished (fuel : nat) (p : PowerRanger) :
  Config.MAX_LEVEL - level p <= Z.of_nat fuel ->
  snd (gain_xp_loop fuel p) = true \/
  (Config.XP_PER_LEVEL * level (fst (gain_xp_loop fuel p))
     <=? xp (fst (gain_xp_loop fuel p)))
  && (level (fst (gain_xp_loop fuel p)) <? Config.MAX_LEVEL) = false.
Proof.
  revert p. induction fuel as [| fuel IH]; intros p Hfuel.
  - right. simpl. apply andb_false_iff. right. apply Z.ltb_ge.
    unfold Config.MAX_LEVEL in *. lia.
  - cbn [gain_xp_loop].
    destruct ((Config.XP_PER_LEVEL * level p <=? xp p) && (level p <? Config.MAX_LEVEL))
      eqn:Econd; [| right; exact Econd].
    cbv zeta.
    match goal with
    | |- context [unlock_at_level ?q] =>
        destruct (unlock_at_level q) as [p' |] eqn:Eunlock
    end; [| left; reflexivity].
    apply IH. apply unlock_at_level_keeps in Eunlock as (Hlevel & _ & _).
    rewrite Hlevel. simpl. lia.
Qed.

Lemma gain_xp_loop_mega_energy (fuel : nat) (p : PowerRanger) :
  mega_energy (fst (gain_xp_loop fuel p)) = mega_energy p.
Proof.
  revert p. induction fuel as [| fuel IH]; intros p; [reflexivity |].
  cbn [gain_xp_loop].
  destruct ((Config.XP_PER_LEVEL * level p <=? xp p) && (level p <? Config.MAX_LEVEL));
    [| reflexivity].
  cbv zeta.
  match goal with
  | |- context [unlock_at_level ?q] =>
      destruct (unlock_at_level q) as [p' |] eqn:Eunlock
  end; [| reflexivity].
  rewrite IH. apply unlock_at_level_keeps in Eunlock as (_ & _ & Hme).
  rewrite Hme. reflexivity.
Qed.

Lemma gain_xp_mega_energy (amount : Z) (p : PowerRanger) :
  mega_energy (fst (gain_xp amount p)) = mega_energy p.
Proof.
  unfold gain_xp.
  pose proof (gain_xp_loop_mega_energy
                (Z.to_nat (Config.MAX_LEVEL - level (with_xp (xp p + amount) p)))
                (with_xp (xp p + amount) p)) as H.
  destruct (gain_xp_loop _ _) as [p2 raised]. exact H.
Qed.

(** Two hundred and fifty points of experience take a new ranger to
    level 3, which unlocks Power Strike. *)
Example gain_xp_to_level_three :
  let p := fst (gain_xp 250 (init "Tommy" "Red" "Megaforce" "Power Sword")) in
  level p = 3 /\ skill_points p = 2 /\ Py.get "Power Strike" (skills p) = Some true.
Proof. repeat split. Qed.

End Levelling.

(** ** The bounds of mega energy *)

Section MegaEnergy.

Import Character Battle.

(** The part of the claim that holds: skills, fusion and the
    regeneration keep mega energy within 0..5. *)
Lemma use_skill_mega_energy (skill_name : string) (p : PowerRanger) :
  0 <= mega_energy p <= 5 ->
  0 <= mega_energy (fst (use_skill skill_name p)) <= 5.
Proof.
  intros Hb. unfold use_skill.
  destruct (Py.get skill_name (skills p)) as [[|] |]; [| exact Hb | exact Hb].
  repeat match goal with
         | |- context [String.eqb skill_name ?k] => destruct (String.eqb skill_name k)
         | |- context [?a <=? ?b] => destruct (Z.leb_spec a b)
         end; simpl; lia.
Qed.

Lemma use_fusion_power_mega_energy (p : PowerRanger) :
  0 <= mega_energy p <= 5 ->
  0 <= mega_energy (fst (use_fusion_power p)) <= 5.
Proof.
  intros Hb. unfold use_fusion_power.
  destruct (can_use_fusion_power p) eqn:E; simpl; [| exact Hb].
  apply can_use_fusion_power_iff in E. lia.
Qed.

Lemma regenerate_mega_energy_bounds (turn_counter : Z) (p : PowerRanger) :
  0 <= mega_energy p <= 5 ->
  0 <= mega_energy (regenerate_mega_energy turn_counter p) <= 5.
Proof.
  intros Hb. unfold regenerate_mega_energy.
  destruct (turn_counter mod 3 =? 0); simpl; lia.
Qed.

(** No operation takes mega energy below 0. *)
Lemma core_step_mega_energy_nonneg (op : CoreOp) (p : PowerRanger) :
  0 <= mega_energy p -> 0 <= mega_energy (core_step p op).
Proof.
  intros Hb. destruct op as [environment enemy | skill | | turn | key | skill | amount];
    simpl.
  - unfold _apply_environment_effects.
    repeat match goal with
           | |- context [String.eqb environment ?k] =>
               destruct (String.eqb environment k)
           end; simpl; lia.
  - unfold use_skill.
    destruct (Py.get skill (skills p)) as [[|] |]; [| exact Hb | exact Hb].
    repeat match goal with
           | |- context [String.eqb skill ?k] => destruct (String.eqb skill k)
           | |- context [?a <=? ?b] => destruct (Z.leb_spec a b)
           end; simpl; lia.
  - unfold use_fusion_power.
    destruct (can_use_fusion_power p) eqn:E; simpl; [| exact Hb].
    apply can_use_fusion_power_iff in E. lia.
  - unfold regenerate_mega_energy. destruct (turn mod 3 =? 0); simpl; lia.
  - unfold add_ranger_key.
    destruct (negb (has_key key (ranger_keys p))); simpl; [| exact Hb].
    destruct (_ =? 0); simpl; lia.
  - unfold learn_skill.
    destruct (Py.get skill (skills p)) as [[|] |]; simpl; try exact Hb.
    destruct (skill_points p <=? 0); simpl; exact Hb.
  - rewrite gain_xp_mega_energy. exact Hb.
Qed.

Lemma core_run_mega_energy_nonneg (ops : list CoreOp) (p : PowerRanger) :
  0 <= mega_energy p -> 0 <= mega_energy (core_run ops p).
Proof.
  revert p. induction ops as [| op ops IH]; intros p Hb; [exact Hb |].
  apply IH. apply core_step_mega_energy_nonneg. exact Hb.
Qed.

(** The part that does not: the City modifier and the fifth ranger key
    add one point whatever the current amount. *)
Lemma city_adds_mega_energy (p : PowerRanger) (enemy : EnemyAI.Enemy) :
  mega_energy (fst (_apply_environment_effects p enemy "City")) = mega_energy p + 1.
Proof. reflexivity. Qed.

Lemma fifth_key_adds_mega_energy (key_name : string) (p : PowerRanger) :
  has_key key_name (ranger_keys p) = false ->
  length (ranger_keys p) = 4%nat ->
  mega_energy (fst (add_ranger_key key_name p)) = mega_energy p + 1.
Proof.
  intros Hnew Hfour. unfold add_ranger_key. rewrite Hnew. simpl.
  rewrite length_app, Hfour. reflexivity.
Qed.

(** C1 on the code.  The claim is that mega energy stays within 0..5
    under every operation.  The lower bound holds, the upper one does
    not: a new ranger starts with 3; starting three battles in the
    City leaves 6, and so does regenerating to 5 and then collecting a
    fifth ranger key. *)
Theorem mega_energy_exceeds_cap :
  let ranger := init "Tommy" "Red" "Megaforce" "Power Sword" in
  let enemy := EnemyAI.create_enemy "Loogies" "Medium" 0 in
  mega_energy ranger = 3 /\
  mega_energy (core_run [BattleStart "City" enemy; BattleStart "City" enemy;
                         BattleStart "City" enemy] ranger) = 6 /\
  mega_energy (core_run [Regenerate 3; Regenerate 6] ranger) = 5 /\
  mega_energy (core_run [Regenerate 3; Regenerate 6;
                         AcquireKey "Red Ranger Key"; AcquireKey "Blue Ranger Key";
                         AcquireKey "Yellow Ranger Key"; AcquireKey "Pink Ranger Key";
                         AcquireKey "Black Ranger Key"] ranger) = 6.
Proof. repeat split. Qed.

End MegaEnergy.

(** * Further properties of the code *)

(** Split conjunctions only (an order on [Q] unfolds to a negation). *)
Ltac split_ands := repeat match goal with |- _ /\ _ => split end.

(** ** Healing and skills *)

Section PlayerMore.

Import Character Battle.

Lemma py_min_cases (a b : Q) : Py.min a b = a \/ Py.min a b = b.
Proof. unfold Py.min. destruct (Qlt_le_dec b a); auto. Qed.

Lemma py_min_le_r (a b : Q) : (Py.min a b <= b)%Q.
Proof.
  unfold Py.min. destruct (Qlt_le_dec b a) as [Hlt | Hle].
  - apply Qle_refl.
  - exact Hle.
Qed.

Lemma py_min_glb (a b c : Q) : (c <= a)%Q -> (c <= b)%Q -> (c <= Py.min a b)%Q.
Proof. intros Ha Hb. destruct (py_min_cases a b) as [-> | ->]; assumption. Qed.

(** X1.  [heal] never takes the health above [max_health]; for a
    ranger whose health is within its bounds and an amount that is
    not negative, the health does not drop, the value returned is the
    gain in health, and it is between 0 and the amount asked for. *)
Theorem heal_spec (amount : Q) (p : PowerRanger) :
  healthy p -> (0 <= amount)%Q ->
  let p' := fst (heal amount p) in
  let actual_heal := snd (heal amount p) in
  healthy p' /\
  (actual_heal == current_health p' - current_health p)%Q /\
  (0 <= actual_heal)%Q /\ (actual_heal <= amount)%Q /\
  ((current_health p + amount <= inject_Z (max_health p))%Q ->
     (actual_heal == amount)%Q) /\
  p' = with_current_health (current_health p') p.
Proof.
  intros [Hlow Hhigh] Hamount. unfold heal, healthy. cbn [fst snd].
  set (h := Py.min (inject_Z (max_health p)) (current_health p + amount)).
  assert (Hle_max : (h <= inject_Z (max_health p))%Q) by apply py_min_le_l.
  assert (Hle_sum : (h <= current_health p + amount)%Q) by apply py_min_le_r.
  assert (Hge : (current_health p <= h)%Q).
  { apply py_min_glb; [exact Hhigh | lra]. }
  change (current_health (with_current_health h p)) with h.
  change (max_health (with_current_health h p)) with (max_health p).
  split_ands; try lra; try reflexivity.
  - intros Hroom. unfold h, Py.min.
    destruct (Qlt_le_dec (current_health p + amount) (inject_Z (max_health p)));
      simpl; lra.
Qed.

Lemma heal_spec_witness :
  let p := fst (take_damage 40 (init "Tommy" "Red" "Megaforce" "Power Sword")) in
  (snd (heal 10 p) == 10)%Q /\ (snd (heal 500 p) <= 500)%Q /\
  healthy (fst (heal 500 p)).
Proof.
  intros p.
  assert (Hp : healthy p) by (split; discriminate).
  split; [| split].
  - apply (heal_spec 10 p Hp); discriminate.
  - apply (heal_spec 500 p Hp); discriminate.
  - apply (heal_spec 500 p Hp); discriminate.
Defined.

(** X2.  A skill is all-or-nothing.  When [use_skill] reports
    failure the ranger is exactly as before; it reports success
    exactly when the skill is learned, is one of the five skills with
    an effect and its cost (2 for Mega Blast and Medic Protocol, 1
    otherwise) is covered, and then the mega energy drops by exactly
    that cost. *)
Theorem use_skill_all_or_nothing (skill_name : string) (p : PowerRanger) :
  let p' := fst (use_skill skill_name p) in
  let ok := fst (snd (use_skill skill_name p)) in
  (ok = false -> p' = p) /\
  (ok = true <->
     Py.get skill_name (skills p) = Some true /\ In skill_name skill_names /\
     skill_cost skill_name <= mega_energy p) /\
  (ok = true -> mega_energy p' = mega_energy p - skill_cost skill_name).
Proof.
  cbv zeta. unfold use_skill, skill_names.
  destruct (Py.get skill_name (skills p)) as [[|] |].
  2, 3: (split; [reflexivity |]; split; [| discriminate];
         split; [discriminate | intros (H & _); discriminate]).
  destruct (String.eqb_spec skill_name "Power Strike") as [-> | N1].
  { unfold skill_cost. simpl String.eqb. cbv iota.
    destruct (Z.leb_spec 1 (mega_energy p)); simpl;
      (split; [try reflexivity; discriminate |]);
      (split; [| try reflexivity; discriminate]);
      (split; [try discriminate; intros _; repeat split; tauto || lia
              | try reflexivity; intros (_ & _ & ?); lia]). }
  destruct (String.eqb_spec skill_name "Mega Blast") as [-> | N2].
  { unfold skill_cost. simpl String.eqb. cbv iota.
    destruct (Z.leb_spec 2 (mega_energy p)); simpl;
      (split; [try reflexivity; discriminate |]);
      (split; [| try reflexivity; discriminate]);
      (split; [try discriminate; intros _; repeat split; tauto || lia
              | try reflexivity; intros (_ & _ & ?); lia]). }
  destruct (String.eqb_spec skill_name "Healing Light") as [-> | N3].
  { unfold skill_cost. simpl String.eqb. cbv iota.
    destruct (Z.leb_spec 1 (mega_energy p)); simpl;
      (split; [try reflexivity; discriminate |]);
      (split; [| try reflexivity; discriminate]);
      (split; [try discriminate; intros _; repeat split; tauto || lia
              | try reflexivity; intros (_ & _ & ?); lia]). }
  destruct (String.eqb_spec skill_name "Speed Boost") as [-> | N4].
  { unfold skill_cost. simpl String.eqb. cbv iota.
    destruct (Z.leb_spec 1 (mega_energy p)); simpl;
      (split; [try reflexivity; discriminate |]);
      (split; [| try reflexivity; discriminate]);
      (split; [try discriminate; intros _; repeat split; tauto || lia
              | try reflexivity; intros (_ & _ & ?); lia]). }
  destruct (String.eqb_spec skill_name "Medic Protocol") as [-> | N5].
  { unfold skill_cost. simpl String.eqb. cbv iota.
    destruct (Z.leb_spec 2 (mega_energy p)); simpl;
      (split; [try reflexivity; discriminate |]);
      (split; [| try reflexivity; discriminate]);
      (split; [try discriminate; intros _; repeat split; tauto || lia
              | try reflexivity; intros (_ & _ & ?); lia]). }
  simpl. split; [reflexivity |]. split; [| discriminate].
  split; [discriminate |].
  intros (_ & [E | [E | [E | [E | [E | []]]]]] & _); congruence.
Qed.

Lemma use_skill_all_or_nothing_witness :
  fst (use_skill "Mega Blast" trained) = trained /\
  fst (snd (use_skill "Power Strike" trained)) = true /\
  mega_energy (fst (use_skill "Power Strike" trained)) = 2.
Proof.
  split; [| split].
  - apply (use_skill_all_or_nothing "Mega Blast" trained). vm_compute. reflexivity.
  - apply (use_skill_all_or_nothing "Power Strike" trained).
    split; [vm_compute; reflexivity |].
    split; [simpl; tauto | vm_compute; discriminate].
  - change 2 with (mega_energy trained - skill_cost "Power Strike").
    apply (use_skill_all_or_nothing "Power Strike" trained). reflexivity.
Defined.

(** X3.  [learn_skill] succeeds exactly when the skill is in the
    table, not yet learned, and a skill point is left.  A refused call
    changes nothing.  A successful one spends exactly one point, marks
    that skill and no other as learned, and cannot be repeated: the
    next call for the same skill is refused. *)
Theorem learn_skill_spec (skill_name : string) (p : PowerRanger) :
  let p' := fst (learn_skill skill_name p) in
  let ok := fst (snd (learn_skill skill_name p)) in
  (ok = true <-> Py.get skill_name (skills p) = Some false /\ 0 < skill_points p) /\
  (ok = false -> p' = p) /\
  (ok = true ->
     skill_points p' = skill_points p - 1 /\
     Py.get skill_name (skills p') = Some true /\
     (forall other, other <> skill_name ->
        Py.get other (skills p') = Py.get other (skills p)) /\
     learn_skill skill_name p' = (p', (false, Msg_already_learned))).
Proof.
  cbv zeta.
  destruct (Py.get skill_name (skills p)) as [[|] |] eqn:Hget.
  - assert (Hrun : learn_skill skill_name p = (p, (false, Msg_already_learned))).
    { unfold learn_skill. rewrite Hget. reflexivity. }
    rewrite Hrun. cbn [fst snd].
    split; [split; [discriminate | intros [H _]; discriminate] |].
    split; [reflexivity | discriminate].
  - destruct (Z.leb_spec (skill_points p) 0) as [Hnone | Hsome].
    + assert (Hrun : learn_skill skill_name p = (p, (false, Msg_no_skill_points))).
      { unfold learn_skill. rewrite Hget.
        apply Z.leb_le in Hnone. rewrite Hnone. reflexivity. }
      rewrite Hrun. cbn [fst snd].
      split; [split; [discriminate | intros [_ H]; lia] |].
      split; [reflexivity | discriminate].
    + assert (Hrun : learn_skill skill_name p
                     = (with_skill_points (skill_points p - 1)
                          (with_skills (Py.set skill_name true (skills p)) p),
                        (true, Msg_learned skill_name))).
      { unfold learn_skill. rewrite Hget.
        apply Z.leb_gt in Hsome. rewrite Hsome. reflexivity. }
      rewrite Hrun. cbn [fst snd].
      assert (Hnow : Py.get skill_name (Py.set skill_name true (skills p)) = Some true).
      { eapply get_set_same. exact Hget. }
      split; [split; [intros _; split; [reflexivity | exact Hsome] | reflexivity] |].
      split; [discriminate |]. intros _.
      split; [reflexivity |]. split; [exact Hnow |]. split.
      * intros other Hother. apply get_set_other. exact Hother.
      * unfold learn_skill. cbn [skills with_skills with_skill_points].
        rewrite Hnow. reflexivity.
  - assert (Hrun : learn_skill skill_name p = (p, (false, Msg_unknown_skill))).
    { unfold learn_skill. rewrite Hget. reflexivity. }
    rewrite Hrun. cbn [fst snd].
    split; [split; [discriminate | intros [H _]; discriminate] |].
    split; [reflexivity | discriminate].
Qed.

Lemma learn_skill_spec_witness :
  let p := fst (gain_xp 250 (init "Tommy" "Red" "Megaforce" "Power Sword")) in
  let p' := fst (learn_skill "Speed Boost" p) in
  fst (snd (learn_skill "Speed Boost" p)) = true /\
  skill_points p' = skill_points p - 1 /\
  learn_skill "Speed Boost" p' = (p', (false, Msg_already_learned)) /\
  fst (learn_skill "Flying Kick" p) = p.
Proof.
  intros p p'.
  destruct (learn_skill_spec "Speed Boost" p) as (Hiff & _ & Hdone).
  assert (Hok : fst (snd (learn_skill "Speed Boost" p)) = true).
  { apply Hiff. split; vm_compute; reflexivity. }
  destruct (Hdone Hok) as (Hpoints & _ & _ & Hagain).
  split; [exact Hok |]. split; [exact Hpoints |]. split; [exact Hagain |].
  apply (learn_skill_spec "Flying Kick" p). vm_compute. reflexivity.
Defined.

Lemma has_key_In (key_name : string) (keys : list string) :
  has_key key_name keys = true <-> In key_name keys.
Proof.
  unfold has_key. rewrite existsb_exists. split.
  - intros (x & Hin & Heq). apply String.eqb_eq in Heq. subst x. exact Hin.
  - intros Hin. exists key_name. split; [exact Hin | apply String.eqb_refl].
Qed.

Lemma NoDup_snoc {A} (x : A) (l : list A) :
  List.NoDup l -> ~ In x l -> List.NoDup (l ++ [x]).
Proof.
  induction l as [| y l IH]; intros Hnd Hnot; simpl.
  - constructor; [intros [] | constructor].
  - inversion Hnd as [| ? ? Hy Hl]; subst. constructor.
    + rewrite in_app_iff. intros [Hin | [-> | []]]; [exact (Hy Hin) |].
      apply Hnot. left. reflexivity.
    + apply IH; [exact Hl |]. intros Hin. apply Hnot. right. exact Hin.
Qed.

(** X4.  The key collection never holds a key twice.  [add_ranger_key]
    returns True exactly for a key that was not held, and then the
    collection grows by that one key; for a held key it returns False
    and the ranger is unchanged, so adding the same key again is
    always refused. *)
Theorem add_ranger_key_dedup (key_name : string) (p : PowerRanger) :
  List.NoDup (ranger_keys p) ->
  let p' := fst (add_ranger_key key_name p) in
  List.NoDup (ranger_keys p') /\
  In key_name (ranger_keys p') /\
  (snd (add_ranger_key key_name p) = true <-> ~ In key_name (ranger_keys p)) /\
  (~ In key_name (ranger_keys p) ->
     ranger_keys p' = (ranger_keys p ++ [key_name])%list) /\
  (In key_name (ranger_keys p) -> p' = p) /\
  add_ranger_key key_name p' = (p', false).
Proof.
  intros Hnd. cbv zeta.
  assert (Hheld : forall q, In key_name (ranger_keys q) ->
                            add_ranger_key key_name q = (q, false)).
  { intros q Hin. unfold add_ranger_key.
    apply has_key_In in Hin. rewrite Hin. reflexivity. }
  destruct (has_key key_name (ranger_keys p)) eqn:Hhas.
  - assert (Hin : In key_name (ranger_keys p)) by (apply has_key_In; exact Hhas).
    rewrite (Hheld p Hin). simpl.
    split; [exact Hnd |]. split; [exact Hin |].
    split; [split; [discriminate | intros H; contradiction] |].
    split; [intros H; contradiction |]. split; [reflexivity | apply Hheld, Hin].
  - assert (Hnot : ~ In key_name (ranger_keys p)).
    { intros Hin. apply has_key_In in Hin. congruence. }
    assert (Hkeys : ranger_keys (fst (add_ranger_key key_name p))
                    = (ranger_keys p ++ [key_name])%list).
    { unfold add_ranger_key. rewrite Hhas. simpl.
      destruct (_ =? 0); reflexivity. }
    assert (Hin' : In key_name (ranger_keys (fst (add_ranger_key key_name p)))).
    { rewrite Hkeys. apply in_app_iff. right. left. reflexivity. }
    split; [rewrite Hkeys; apply NoDup_snoc; assumption |].
    split; [exact Hin' |].
    split; [split; [intros _; exact Hnot |] |].
    { intros _. unfold add_ranger_key. rewrite Hhas. reflexivity. }
    split; [intros _; exact Hkeys |].
    split; [intros Hin; contradiction | apply Hheld, Hin'].
Qed.

Lemma add_ranger_key_dedup_witness :
  let p := fst (add_ranger_key "Red Ranger Key" (init "Tommy" "" "" "")) in
  ranger_keys p = ["Red Ranger Key"] /\
  add_ranger_key "Red Ranger Key" p = (p, false) /\
  ranger_keys (fst (add_ranger_key "Blue Ranger Key" p))
  = ["Red Ranger Key"; "Blue Ranger Key"].
Proof.
  intros p.
  destruct (add_ranger_key_dedup "Red Ranger Key" (init "Tommy" "" "" ""))
    as (Hnd & _ & _ & Hnew & _ & Hagain); [constructor |].
  destruct (add_ranger_key_dedup "Blue Ranger Key" p Hnd) as (_ & _ & _ & Hnew2 & _).
  split; [apply Hnew; intros [] |]. split; [exact Hagain |].
  apply Hnew2. intros [E | []]. discriminate E.
Defined.

End PlayerMore.

(** ** Experience and levels *)

Section LevelsMore.

Import Character Battle.

Lemma get_set_present {V} (k k2 : string) (v : V) (d : Py.dict V) :
  Py.get k2 d <> None -> Py.get k2 (Py.set k v d) <> None.
Proof.
  intros Hin. destruct (String.eqb_spec k2 k) as [-> | Hne].
  - destruct (Py.get k d) as [v0 |] eqn:E; [| contradiction].
    rewrite (get_set_same k v v0 d E). discriminate.
  - rewrite get_set_other by exact Hne. exact Hin.
Qed.

(** Unlocking touches the skill table only, and drops no skill. *)
Lemma unlock_at_level_only_skills (p p' : PowerRanger) :
  unlock_at_level p = Some p' ->
  p' = with_skills (skills p') p /\
  (forall k, Py.get k (skills p) <> None -> Py.get k (skills p') <> None).
Proof.
  unfold unlock_at_level.
  repeat match goal with
         | |- context [if ?c then _ else _] => destruct c
         | |- context [match Py.get ?k ?d with _ => _ end] =>
             destruct (Py.get k d) as [[|] |]
         end; intros [= <-]; (split; [destruct p; reflexivity |]);
    intros k Hk; try exact Hk; apply get_set_present; exact Hk.
Qed.

Lemma unlock_at_level_succeeds (p : PowerRanger) :
  unlockable_present p -> unlock_at_level p <> None.
Proof.
  intros Hpresent. unfold unlock_at_level.
  pose proof (Hpresent "Power Strike") as H1.
  pose proof (Hpresent "Mega Blast") as H2.
  pose proof (Hpresent "Healing Light") as H3.
  simpl in H1, H2, H3.
  repeat match goal with
         | |- context [if ?c then _ else _] => destruct c
         end; try discriminate.
  - destruct (Py.get "Power Strike" (skills p)) as [[|] |]; try discriminate.
    exfalso. apply H1; tauto.
  - destruct (Py.get "Mega Blast" (skills p)) as [[|] |]; try discriminate.
    exfalso. apply H2; tauto.
  - destruct (Py.get "Healing Light" (skills p)) as [[|] |]; try discriminate.
    exfalso. apply H3; tauto.
Qed.

Lemma gain_xp_loop_grown (fuel : nat) (p : PowerRanger) :
  exists k, 0 <= k /\ grown k p (fst (gain_xp_loop fuel p)).
Proof.
  revert p. induction fuel as [| fuel IH]; intros p.
  - exists 0. split; [lia |]. unfold grown. simpl.
    split_ands; try lia; reflexivity.
  - cbn [gain_xp_loop].
    destruct ((Config.XP_PER_LEVEL * level p <=? xp p) && (level p <? Config.MAX_LEVEL)).
    2: { exists 0. split; [lia |]. unfold grown. simpl.
         split_ands; try lia; reflexivity. }
    cbv zeta.
    match goal with
    | |- context [unlock_at_level ?q] =>
        set (p1 := q); destruct (unlock_at_level p1) as [p2 |] eqn:Eunlock
    end.
    + destruct (IH p2) as (k & Hk & Hg).
      apply unlock_at_level_only_skills in Eunlock as [Hp2 _].
      exists (k + 1). split; [lia |].
      unfold grown in *.
      destruct Hg as (H1 & H2 & H3 & H4 & H5 & H6 & H7 & H8 & H9 & H10 & H11).
      assert (F1 : level p2 = level p + 1) by (rewrite Hp2; reflexivity).
      assert (F2 : xp p2 = xp p) by (rewrite Hp2; reflexivity).
      assert (F3 : skill_points p2 = skill_points p + 1) by (rewrite Hp2; reflexivity).
      assert (F4 : max_health p2 = max_health p + 5) by (rewrite Hp2; reflexivity).
      assert (F5 : attack p2 = attack p + 2) by (rewrite Hp2; reflexivity).
      assert (F6 : defense p2 = defense p + 1) by (rewrite Hp2; reflexivity).
      assert (F7 : speed p2 = speed p + 1) by (rewrite Hp2; reflexivity).
      assert (F8 : current_health p2 = (current_health p + inject_Z 5)%Q)
        by (rewrite Hp2; reflexivity).
      assert (F9 : mega_energy p2 = mega_energy p) by (rewrite Hp2; reflexivity).
      assert (F10 : gold p2 = gold p) by (rewrite Hp2; reflexivity).
      assert (F11 : ranger_keys p2 = ranger_keys p) by (rewrite Hp2; reflexivity).
      split_ands; try lia; try congruence.
      rewrite H8, F4, F8. rewrite inject_Z_plus. ring.
    + exists 1. split; [lia |]. unfold grown, p1, Config.LEVEL_STAT_BONUS. simpl.
      split_ands; try lia; try reflexivity.
      rewrite inject_Z_plus. ring.
Qed.

Lemma gain_xp_loop_no_raise (fuel : nat) (p : PowerRanger) :
  unlockable_present p -> snd (gain_xp_loop fuel p) = false.
Proof.
  revert p. induction fuel as [| fuel IH]; intros p Hpresent; [reflexivity |].
  cbn [gain_xp_loop].
  destruct ((Config.XP_PER_LEVEL * level p <=? xp p) && (level p <? Config.MAX_LEVEL));
    [| reflexivity].
  cbv zeta.
  match goal with
  | |- context [unlock_at_level ?q] =>
      set (p1 := q); destruct (unlock_at_level p1) as [p2 |] eqn:Eunlock
  end.
  - apply IH. apply unlock_at_level_only_skills in Eunlock as [_ Hkeep].
    intros skill Hin. apply Hkeep. exact (Hpresent skill Hin).
  - exfalso. apply (unlock_at_level_succeeds p1); [| exact Eunlock].
    exact Hpresent.
Qed.

(** X5.  [gain_xp] adds the amount to [xp] and then levels up zero or
    more times: with [k] the number of levels gained, the skill points
    grow by [k], [max_health] by 5k, attack by 2k, defense and speed
    by [k], the missing health (maximum minus current) is unchanged,
    and a level within [MAX_LEVEL] stays within it.  For a ranger
    whose skill table holds the three unlockable skills the loop runs
    to its end (the level is at the maximum or the experience is below
    100 x level) and the value returned tells whether a level was
    gained. *)
Theorem gain_xp_levels (amount : Z) (p : PowerRanger) :
  let p' := fst (gain_xp amount p) in
  let k := level p' - level p in
  0 <= k /\
  xp p' = xp p + amount /\
  skill_points p' = skill_points p + k /\
  max_health p' = max_health p + 5 * k /\
  attack p' = attack p + 2 * k /\
  defense p' = defense p + k /\
  speed p' = speed p + k /\
  (inject_Z (max_health p') - current_health p'
   == inject_Z (max_health p) - current_health p)%Q /\
  (level p <= Config.MAX_LEVEL -> level p' <= Config.MAX_LEVEL) /\
  (unlockable_present p ->
     (Config.MAX_LEVEL <= level p' \/ xp p' < Config.XP_PER_LEVEL * level p') /\
     (snd (gain_xp amount p) = true <-> level p < level p')).
Proof.
  cbv zeta. unfold gain_xp.
  set (p1 := with_xp (xp p + amount) p).
  set (fuel := Z.to_nat (Config.MAX_LEVEL - level p1)).
  destruct (gain_xp_loop_grown fuel p1) as (k & Hk & Hg).
  pose proof (gain_xp_loop_finished fuel p1) as Hfin.
  pose proof (gain_xp_loop_no_raise fuel p1) as Hraise.
  destruct (gain_xp_loop fuel p1) as [p2 raised] eqn:Eloop.
  cbn [fst snd] in *.
  destruct Hg as (H1 & H2 & H3 & H4 & H5 & H6 & H7 & H8 & _).
  change (level p1) with (level p) in *. change (xp p1) with (xp p + amount) in *.
  change (skill_points p1) with (skill_points p) in *.
  change (max_health p1) with (max_health p) in *.
  change (attack p1) with (attack p) in *.
  change (defense p1) with (defense p) in *.
  change (speed p1) with (speed p) in *.
  change (current_health p1) with (current_health p) in *.
  split_ands; try lia; try assumption.
  - intros Hmax.
    assert (Hbound : k <= Z.of_nat fuel \/ True) by (right; exact I).
    destruct (Z.le_gt_cases (level p2) Config.MAX_LEVEL) as [Hle | Hgt]; [exact Hle |].
    exfalso.
    (* the loop only steps below the maximum *)
    clear Hfin Hraise Hbound.
    assert (Hcap : forall n q, level q <= Config.MAX_LEVEL ->
                     level (fst (gain_xp_loop n q)) <= Config.MAX_LEVEL).
    { induction n as [| n IHn]; intros q Hq; [exact Hq |].
      cbn [gain_xp_loop].
      destruct ((Config.XP_PER_LEVEL * level q <=? xp q) && (level q <? Config.MAX_LEVEL))
        eqn:Econd; [| exact Hq].
      apply andb_true_iff in Econd as [_ Hlt]. apply Z.ltb_lt in Hlt.
      cbv zeta.
      match goal with
      | |- context [unlock_at_level ?r] =>
          destruct (unlock_at_level r) as [q2 |] eqn:Eunlock
      end.
      - apply IHn. apply unlock_at_level_keeps in Eunlock as (Hl & _ & _).
        rewrite Hl. simpl. lia.
      - simpl. lia. }
    pose proof (Hcap fuel p1 Hmax) as Hc. rewrite Eloop in Hc. simpl in Hc. lia.
  - intros Hpresent.
    assert (Hr : raised = false) by (apply Hraise; exact Hpresent).
    subst raised. split.
    + destruct Hfin as [Hbad | Hcond]; [unfold fuel; lia | discriminate |].
      apply andb_false_iff in Hcond as [Hc | Hc].
      * right. apply Z.leb_gt in Hc. exact Hc.
      * left. apply Z.ltb_ge in Hc. exact Hc.
    + rewrite Z.ltb_lt. reflexivity.
Qed.

Lemma gain_xp_levels_witness :
  let p := init "Tommy" "Red" "Megaforce" "Power Sword" in
  let p' := fst (gain_xp 250 p) in
  level p' <= Config.MAX_LEVEL /\
  xp p' < Config.XP_PER_LEVEL * level p' /\
  snd (gain_xp 250 p) = true.
Proof.
  intros p p'.
  destruct (gain_xp_levels 250 p) as (_ & _ & _ & _ & _ & _ & _ & _ & Hcap & Hend).
  assert (Hpresent : unlockable_present p).
  { intros skill [<- | [<- | [<- | []]]]; discriminate. }
  destruct (Hend Hpresent) as ([Hmax | Hxp] & Hret).
  - exfalso. vm_compute in Hmax. apply Hmax. reflexivity.
  - split; [apply Hcap; discriminate |]. split; [exact Hxp |].
    apply Hret. vm_compute. reflexivity.
Defined.

End LevelsMore.

(** ** The ranger's health *)

Section HealthMore.

Import Character Battle.

Lemma player_take_damage_at_least_one (damage : Q) (p : PowerRanger) :
  (1 <= snd (take_damage damage p))%Q.
Proof.
  unfold take_damage. cbn [snd].
  pose proof (py_max_ge_l 1 (damage - inject_Z (defense p))) as Hge.
  destruct (0 <? arms (limb_damage p)); lra.
Qed.

Lemma py_max_lub (a b c : Q) : (a <= c)%Q -> (b <= c)%Q -> (Py.max a b <= c)%Q.
Proof. intros Ha Hb. unfold Py.max. destruct (Qlt_le_dec a b); assumption. Qed.

Lemma take_damage_keeps_healthy (damage : Q) (p : PowerRanger) :
  healthy p -> healthy (fst (take_damage damage p)).
Proof.
  intros [Hlow Hhigh].
  pose proof (player_take_damage_at_least_one damage p) as Hone.
  unfold healthy.
  change (current_health (fst (take_damage damage p)))
    with (Py.max 0 (current_health p - snd (take_damage damage p))).
  change (max_health (fst (take_damage damage p))) with (max_health p).
  split; [apply py_max_ge_l | apply py_max_lub; lra].
Qed.

Lemma heal_keeps_healthy (amount : Q) (p : PowerRanger) :
  healthy p -> (0 <= amount)%Q -> healthy (fst (heal amount p)).
Proof.
  intros [Hlow Hhigh] Hamount. unfold healthy, heal. cbn [fst].
  cbn [current_health max_health with_current_health].
  split; [apply py_min_glb; lra | apply py_min_le_l].
Qed.

Lemma use_skill_keeps_healthy (skill_name : string) (p : PowerRanger) :
  healthy p -> healthy (fst (use_skill skill_name p)).
Proof.
  intros Hp. pose proof Hp as [Hlow Hhigh].
  assert (Hmax : (0 <= inject_Z (max_health p))%Q) by lra.
  unfold use_skill.
  destruct (Py.get skill_name (skills p)) as [[|] |]; [| exact Hp | exact Hp].
  repeat match goal with
         | |- context [String.eqb skill_name ?k] => destruct (String.eqb skill_name k)
         | |- context [?a <=? ?b] => destruct (a <=? b)
         end; try exact Hp; unfold healthy; simpl;
    try (split; assumption);
    (split; [apply py_min_glb; lra | apply py_min_le_l]).
Qed.

Lemma player_defend_keeps_healthy (p : PowerRanger) :
  healthy p -> healthy (player_defend p).
Proof.
  intros Hp. unfold player_defend.
  destruct (Py.get "Medic Protocol" (skills p)) as [[|] |]; try exact Hp.
  apply heal_keeps_healthy; [exact Hp |]. destruct Hp as [Hlow Hhigh]. lra.
Qed.

Lemma gain_xp_keeps_healthy (amount : Z) (p : PowerRanger) :
  healthy p -> healthy (fst (gain_xp amount p)).
Proof.
  intros [Hlow Hhigh]. unfold gain_xp.
  destruct (gain_xp_loop_grown
              (Z.to_nat (Config.MAX_LEVEL - level (with_xp (xp p + amount) p)))
              (with_xp (xp p + amount) p)) as (k & Hk & Hg).
  destruct (gain_xp_loop _ _) as [p2 raised]. cbn [fst] in *.
  destruct Hg as (_ & _ & _ & Hmax & _ & _ & _ & Hgap & _).
  change (max_health (with_xp (xp p + amount) p)) with (max_health p) in *.
  change (current_health (with_xp (xp p + amount) p)) with (current_health p) in *.
  unfold healthy. rewrite Hmax in *. rewrite inject_Z_plus, inject_Z_mult in *.
  assert (Hk' : (0 <= inject_Z k)%Q).
  { change 0%Q with (inject_Z 0). rewrite <- Zle_Qle. exact Hk. }
  change (inject_Z 5) with 5%Q in *.
  split; lra.
Qed.

Lemma handle_defeat_keeps_healthy (battle_log : list string) (turn_counter : Z)
    (now : Q) (enemy : EnemyAI.Enemy) (p : PowerRanger) :
  healthy p -> healthy (fst (_handle_defeat battle_log turn_counter now p enemy)).
Proof.
  intros [Hlow Hhigh]. unfold healthy, _handle_defeat. simpl. split; lra.
Qed.

(** X6.  The health of a ranger stays within 0..[max_health] under
    everything the core does to it: hits, heals of a non-negative
    amount, skills, defensive stances, experience (levels raise both
    bounds together) and defeats. *)
Theorem player_health_invariant (events : list PlayerEvent) (p : PowerRanger) :
  healthy p -> heals_nonneg events -> healthy (player_run events p).
Proof.
  revert p. induction events as [| ev events IH]; intros p Hp Hheals; [exact Hp |].
  inversion Hheals as [| ? ? Hev Hrest]; subst.
  apply IH; [| exact Hrest].
  destruct ev as [damage | amount | skill | | amount | log turn now enemy];
    cbn [player_step].
  - apply take_damage_keeps_healthy, Hp.
  - apply heal_keeps_healthy; assumption.
  - apply use_skill_keeps_healthy, Hp.
  - apply player_defend_keeps_healthy, Hp.
  - apply gain_xp_keeps_healthy, Hp.
  - apply handle_defeat_keeps_healthy, Hp.
Qed.

Lemma player_health_invariant_witness :
  let p := init "Tommy" "Red" "Megaforce" "Power Sword" in
  healthy (player_run [Hit 30; Earns 250; Heals 500; Hit 1000;
                       Falls [] 7 0 EnemyAI.Loogies; Guards] p).
Proof.
  intros p. apply player_health_invariant.
  - split; discriminate.
  - repeat constructor. discriminate.
Defined.

(** X7.  After a defeat the ranger's gold is never negative and at most
    50 gold is taken; the health is set to 30% of [max_health], so a
    ranger with a positive maximum is alive again; and one defeat
    record is appended to the battle history.  With gold that was not
    negative, the loss is min(10% of the gold, 50) and the gold is
    reduced by exactly that. *)
Theorem handle_defeat_spec (battle_log : list string) (turn_counter : Z) (now : Q)
    (p : PowerRanger) (enemy : EnemyAI.Enemy) :
  let p' := fst (_handle_defeat battle_log turn_counter now p enemy) in
  let lost := gold_lost_out (snd (_handle_defeat battle_log turn_counter now p enemy)) in
  (0 <= gold p')%Q /\
  (lost <= 50)%Q /\
  (current_health p' == inject_Z (max_health p) * 0.3)%Q /\
  (0 < max_health p -> is_alive p' = true) /\
  battle_history p'
  = (battle_history p ++ [DefeatRecord (EnemyAI.name enemy) turn_counter lost now])%list /\
  ((0 <= gold p)%Q ->
     (0 <= lost)%Q /\ (gold p' == gold p - lost)%Q /\
     ((gold p <= 500)%Q -> (lost == gold p * 0.1)%Q) /\
     ((500 <= gold p)%Q -> (lost == 50)%Q)).
Proof.
  cbv zeta. unfold _handle_defeat. cbn [fst snd gold_lost_out].
  set (lost := Py.min (gold p * 0.1) 50).
  assert (Hlost50 : (lost <= 50)%Q) by apply py_min_le_r.
  assert (Hlost10 : (lost <= gold p * 0.1)%Q) by apply py_min_le_l.
  simpl.
  split; [apply py_max_ge_l |]. split; [exact Hlost50 |]. split; [reflexivity |].
  split.
  { intros Hmax. unfold is_alive. simpl.
    destruct (Qlt_le_dec 0 (inject_Z (max_health p) * 0.3)) as [_ | Hle];
      [reflexivity |].
    exfalso.
    assert (H0 : (0 < inject_Z (max_health p))%Q).
    { change 0%Q with (inject_Z 0). rewrite <- Zlt_Qlt. exact Hmax. }
    lra. }
  split; [reflexivity |].
  intros Hgold.
  assert (Hlost0 : (0 <= lost)%Q) by (apply py_min_glb; lra).
  split; [exact Hlost0 |]. split.
  { unfold Py.max. destruct (Qlt_le_dec 0 (gold p - lost)); lra. }
  split; intros Hside; unfold lost, Py.min;
    destruct (Qlt_le_dec 50 (gold p * 0.1)); lra.
Qed.

Lemma handle_defeat_spec_witness :
  let p := init "Tommy" "Red" "Megaforce" "Power Sword" in
  let p' := fst (_handle_defeat [] 4 0 p EnemyAI.Loogies) in
  is_alive p' = true /\ (gold p' == 90)%Q /\
  (gold (fst (_handle_defeat [] 4 0 (with_gold 2000 p) EnemyAI.Loogies)) == 1950)%Q.
Proof.
  intros p p'.
  destruct (handle_defeat_spec [] 4 0 p EnemyAI.Loogies)
    as (_ & _ & _ & Halive & _ & Hgold).
  destruct (handle_defeat_spec [] 4 0 (with_gold 2000 p) EnemyAI.Loogies)
    as (_ & _ & _ & _ & _ & Hgold').
  destruct Hgold as (_ & Hg & Hsmall & _); [discriminate |].
  destruct Hgold' as (_ & Hg' & _ & Hbig); [discriminate |].
  split; [apply Halive; reflexivity |]. split.
  - unfold p'. rewrite Hg, Hsmall by discriminate. reflexivity.
  - rewrite Hg', Hbig by discriminate. reflexivity.
Defined.

End HealthMore.

(** ** The enemy's damage *)

Section EnemyDamageMore.

Import EnemyAI.

(** On a number that is not negative [int] is the floor. *)
Lemma py_int_floor (x : Q) : (0 <= x)%Q -> Py.int x = Qfloor x.
Proof.
  intros Hx. destruct x as [n d]. unfold Py.int, Qfloor. simpl.
  apply Z.quot_div_nonneg; [| reflexivity].
  unfold Qle in Hx. simpl in Hx. lia.
Qed.

Lemma py_int_mono (x y : Q) : (0 <= x)%Q -> (x <= y)%Q -> Py.int x <= Py.int y.
Proof.
  intros Hx Hxy. rewrite !py_int_floor by lra. apply Qfloor_resp_le. exact Hxy.
Qed.

Lemma py_int_nonneg (x : Q) : (0 <= x)%Q -> 0 <= Py.int x.
Proof.
  intros Hx. rewrite py_int_floor by exact Hx.
  change 0 with (Qfloor 0). apply Qfloor_resp_le. exact Hx.
Qed.

Lemma py_int_of_Z (z : Z) : Py.int (inject_Z z) = z.
Proof. unfold Py.int. simpl. apply Z.quot_1_r. Qed.

Lemma choice_In {A} (l : list A) (draw : nat) (a : A) :
  Py.choice l draw = Some a -> In a l.
Proof.
  unfold Py.choice. destruct l as [| x l]; [discriminate |].
  apply nth_error_In.
Qed.

Lemma choice_nonempty {A} (l : list A) (draw : nat) :
  l <> [] -> Py.choice l draw <> None.
Proof.
  intros Hl. unfold Py.choice. destruct l as [| x l]; [contradiction |].
  apply nth_error_Some. apply Nat.mod_upper_bound. discriminate.
Qed.

Lemma enemy_take_damage_health (damage : Q) (pick : nat) (e : Enemy) :
  (current_health (fst (take_damage damage pick e))
   == Qmax 0 (current_health e - Qmax 1 (damage - inject_Z (defense e))))%Q.
Proof.
  assert (Hlimb : forall n d x, current_health (fst (take_limb_damage n d x))
                                = current_health x).
  { intros n d x. unfold take_limb_damage.
    repeat match goal with
           | |- context [if ?c then _ else _] => destruct c
           | |- context [match ?c with Some _ => _ | None => _ end] => destruct c
           end; reflexivity. }
  unfold take_damage. cbv zeta.
  set (actual := Py.max 1 (damage - inject_Z (defense e))).
  assert (Hactual : (actual == Qmax 1 (damage - inject_Z (defense e)))%Q)
    by apply py_max_is_Qmax.
  repeat match goal with
         | |- context [if ?c then _ else _] => destruct c
         | |- context [match ?c with Some _ => _ | None => _ end] => destruct c
         end; cbn [fst]; rewrite ?Hlimb; simpl;
    rewrite py_max_is_Qmax; rewrite Hactual; reflexivity.
Qed.

(** X8.  [Enemy.take_damage] on an enemy that has limbs returns
    max(1, damage - defense), which is at least 1, and leaves the
    health at max(0, health - that value): never negative and never
    above what it was.  A hit that is not critical (damage at most
    1.5 x attack) changes nothing but the health; a critical one also
    strikes one of the enemy's limbs for floor(damage / 3). *)
Theorem enemy_take_damage_spec (damage : Q) (pick : nat) (e : Enemy) :
  limbs e <> [] -> _temp_defense_boost e = false ->
  let e' := fst (take_damage damage pick e) in
  let returned := snd (take_damage damage pick e) in
  (returned == Qmax 1 (damage - inject_Z (defense e)))%Q /\
  (1 <= returned)%Q /\
  (current_health e' == Qmax 0 (current_health e - returned))%Q /\
  (0 <= current_health e')%Q /\
  ((0 <= current_health e)%Q -> (current_health e' <= current_health e)%Q) /\
  ((damage <= inject_Z (attack e) * 1.5)%Q ->
     e' = with_current_health (current_health e') e) /\
  ((inject_Z (attack e) * 1.5 < damage)%Q ->
     exists target_limb,
       In target_limb (Py.keys (limbs e)) /\
       e' = fst (take_limb_damage target_limb (inject_Z (Qfloor (damage / 3)))
                   (with_current_health (current_health e') e))).
Proof.
  intros Hlimbs Hmarker. cbv zeta.
  pose proof (enemy_take_damage_health damage pick e) as Hhealth.
  assert (Hret : snd (take_damage damage pick e)
                 = Py.max 1 (damage - inject_Z (defense e))).
  { unfold take_damage. cbv zeta. cbn [_temp_defense_boost with_current_health].
    rewrite Hmarker.
    destruct (Qlt_le_dec _ damage); [| reflexivity].
    cbn [limbs with_current_health].
    destruct (Py.choice (Py.keys (limbs e)) pick) eqn:Echoice; [reflexivity |].
    exfalso. apply (choice_nonempty (Py.keys (limbs e)) pick); [| exact Echoice].
    unfold Py.keys. destruct (limbs e); [contradiction | discriminate]. }
  rewrite Hret.
  assert (Hone : (1 <= Py.max 1 (damage - inject_Z (defense e)))%Q)
    by apply py_max_ge_l.
  assert (Hq : (Py.max 1 (damage - inject_Z (defense e))
                == Qmax 1 (damage - inject_Z (defense e)))%Q) by apply py_max_is_Qmax.
  split; [exact Hq |]. split; [exact Hone |].
  split; [rewrite Hhealth, Hq; reflexivity |].
  split; [rewrite Hhealth; apply Q.le_max_l |].
  split.
  { intros Hpos. rewrite Hhealth. apply Q.max_lub; [exact Hpos |]. rewrite <- Hq. lra. }
  split.
  - intros Hsoft. unfold take_damage. cbv zeta.
    cbn [_temp_defense_boost with_current_health]. rewrite Hmarker.
    cbn [attack with_current_health].
    destruct (Qlt_le_dec (inject_Z (attack e) * 1.5) damage) as [Hcrit | _]; [lra |].
    reflexivity.
  - intros Hcrit. unfold take_damage. cbv zeta.
    cbn [_temp_defense_boost with_current_health]. rewrite Hmarker.
    cbn [attack limbs with_current_health].
    destruct (Qlt_le_dec (inject_Z (attack e) * 1.5) damage) as [_ | Hsoft]; [| lra].
    destruct (Py.choice (Py.keys (limbs e)) pick) as [target |] eqn:Echoice.
    + exists target. split; [eapply choice_In; exact Echoice |].
      cbn [fst]. unfold Py.floordiv.
      assert (Hcur : forall n d x, current_health (fst (take_limb_damage n d x))
                                   = current_health x).
      { intros n d x. unfold take_limb_damage.
        repeat match goal with
               | |- context [if ?c then _ else _] => destruct c
               | |- context [match ?c with Some _ => _ | None => _ end] => destruct c
               end; reflexivity. }
      rewrite Hcur. reflexivity.
    + exfalso. apply (choice_nonempty (Py.keys (limbs e)) pick); [| exact Echoice].
      unfold Py.keys. destruct (limbs e); [contradiction | discriminate].
Qed.

Lemma enemy_take_damage_spec_witness :
  (snd (take_damage 3 0 Loogies) == 1)%Q /\
  fst (take_damage 10 0 Loogies) = with_current_health (30 - 5) Loogies /\
  (0 <= current_health (fst (take_damage 1000 2 Loogies)))%Q.
Proof.
  assert (Hl : limbs Loogies <> []) by discriminate.
  assert (Hm : _temp_defense_boost Loogies = false) by reflexivity.
  split; [| split].
  - destruct (enemy_take_damage_spec 3 0 Loogies Hl Hm) as (H & _).
    rewrite H. reflexivity.
  - destruct (enemy_take_damage_spec 10 0 Loogies Hl Hm) as (_ & _ & _ & _ & _ & H & _).
    rewrite H by discriminate. reflexivity.
  - apply (enemy_take_damage_spec 1000 2 Loogies Hl Hm).
Defined.

End EnemyDamageMore.

(** ** The enemy's attack *)

Ltac split_cases :=
  repeat match goal with
         | |- context [if ?c then _ else _] => destruct c
         | |- context [match ?c with Some _ => _ | None => _ end] => destruct c
         end.

Section EnemyAttackMore.

Import EnemyAI.




End EnemyAttackMore.

(** ** The enemy's decision *)

Section EnemyDecisionMore.

Import EnemyAI.

Lemma update_ai_state_only_state (r : Q) (pick : nat) (e : Enemy) :
  update_ai_state r pick e = with_state (state (update_ai_state r pick e)) e.
Proof.
  destruct e. unfold update_ai_state. cbv zeta. split_cases; reflexivity.
Qed.

Lemma update_ai_state_never_stunned (r : Q) (pick : nat) (e : Enemy) :
  max_health e <> 0 -> state (update_ai_state r pick e) <> STUNNED.
Proof.
  intros Hmax. unfold update_ai_state. cbv zeta.
  destruct (max_health e =? 0) eqn:E; [apply Z.eqb_eq in E; contradiction |].
  destruct (Py.choice [AGGRESSIVE; DEFENSIVE] pick) as [s |] eqn:Ec.
  - apply choice_In in Ec. simpl in Ec.
    destruct Ec as [<- | [<- | []]]; split_cases; discriminate.
  - exfalso. apply (choice_nonempty [AGGRESSIVE; DEFENSIVE] pick); [discriminate | exact Ec].
Qed.

Lemma tick_effects_In (s' : StatusEffect) (l : list StatusEffect) :
  In s' (tick_effects l) <->
  exists s, In s l /\ 0 < effect_duration s /\
            s' = mkEffect (effect_type s) (effect_duration s - 1).
Proof.
  unfold tick_effects. rewrite List.in_map_iff. split.
  - intros (s & Heq & Hin). apply List.filter_In in Hin. destruct Hin as [Hin Hpos].
    exists s. split; [exact Hin |].
    split; [apply Z.ltb_lt; exact Hpos | symmetry; exact Heq].
  - intros (s & Hin & Hpos & Heq). exists s. split; [symmetry; exact Heq |].
    apply List.filter_In. split; [exact Hin | apply Z.ltb_lt; exact Hpos].
Qed.

Lemma stunned_effect_ticked (l : list StatusEffect) :
  existsb (fun s => String.eqb (effect_type s) "stunned") (tick_effects l) = true <->
  exists s, In s l /\ effect_type s = "stunned" /\ 0 < effect_duration s.
Proof.
  rewrite existsb_exists. split.
  - intros (s' & Hin & Heq). apply tick_effects_In in Hin.
    destruct Hin as (s & Hin & Hpos & ->). simpl in Heq.
    exists s. split; [exact Hin |]. split; [apply String.eqb_eq; exact Heq | exact Hpos].
  - intros (s & Hin & Htype & Hpos).
    exists (mkEffect (effect_type s) (effect_duration s - 1)). split.
    + apply tick_effects_In. exists s. auto.
    + simpl. apply String.eqb_eq. exact Htype.
Qed.

Lemma choose_action_fst (d : Draws) (e : Enemy) :
  fst (choose_action d e)
  = with_status_effects (tick_effects (status_effects e))
      (update_ai_state (draw_state d) (draw_state_pick d)
         (with_turn_counter (turn_counter e + 1) e)).
Proof.
  unfold choose_action. cbv zeta.
  set (e1 := update_ai_state _ _ _).
  assert (Heff : status_effects e1 = status_effects e).
  { unfold e1. rewrite update_ai_state_only_state. reflexivity. }
  rewrite Heff.
  destruct (existsb _ _); [reflexivity |].
  destruct (state _); split_cases; try reflexivity.
  all: destruct (special_abilities _); split_cases; reflexivity.
Qed.

Lemma choose_action_stunned (d : Draws) (e : Enemy) :
  snd (choose_action d e) = stunned <->
  exists s, In s (status_effects e) /\ effect_type s = "stunned" /\ 0 < effect_duration s.
Proof.
  rewrite <- stunned_effect_ticked.
  unfold choose_action. cbv zeta.
  set (e1 := update_ai_state _ _ _).
  assert (Heff : status_effects e1 = status_effects e).
  { unfold e1. rewrite update_ai_state_only_state. reflexivity. }
  cbn [status_effects with_status_effects].
  rewrite Heff.
  destruct (existsb _ (tick_effects (status_effects e))); [split; reflexivity |].
  split; [| discriminate]. intros H. exfalso. revert H.
  set (e2 := with_status_effects _ e1).
  destruct (state e2).
  - destruct (Py.choice _ _) as [a |] eqn:Ec; [| discriminate].
    apply choice_In in Ec. cbn [snd]. intros ->.
    revert Ec. destruct (special_abilities e2);
      repeat match goal with
             | |- context [if ?c then _ else _] => destruct c
             end; simpl; intuition discriminate.
  - destruct (Qlt_le_dec _ _); discriminate.
  - destruct (Qlt_le_dec _ _); discriminate.
  - destruct (Py.choice _ _) as [a |] eqn:Ec; [| discriminate].
    apply choice_In in Ec. cbn [snd]. intros ->.
    revert Ec. destruct (special_abilities e2);
      repeat match goal with
             | |- context [if ?c then _ else _] => destruct c
             end; simpl; intuition discriminate.
  - discriminate.
Qed.

(** X10.  What a decision of the enemy does.  [choose_action] changes
    nothing of the enemy but its turn counter (one more), its state
    and its status effects (the expired ones dropped, the others one
    turn older); the state it leaves is never [STUNNED] (for an enemy
    whose [max_health] is not 0).  The action is [stunned] exactly
    when the enemy carried a stun with a positive duration; otherwise
    it fits the state: flee or a desperate attack when fleeing, the
    enraged attack when enraged, defend or heal when defensive, and in
    the remaining case the basic attack, a special attack only for an
    enemy with special abilities, or a power attack only on every
    third turn. *)
Theorem choose_action_spec (d : Draws) (e : Enemy) :
  let e' := fst (choose_action d e) in
  let action := snd (choose_action d e) in
  e' = with_status_effects (tick_effects (status_effects e))
         (with_state (state e')
            (with_turn_counter (turn_counter e + 1) e)) /\
  (max_health e <> 0 -> state e' <> STUNNED) /\
  (action = stunned <->
     exists s, In s (status_effects e) /\ effect_type s = "stunned" /\
               0 < effect_duration s) /\
  (action <> stunned ->
     match state e' with
     | FLEEING => action = flee \/ action = desperate_attack
     | ENRAGED => action = enraged_attack
     | DEFENSIVE => action = defend \/ action = heal
     | AGGRESSIVE | STUNNED =>
         action = basic_attack \/
         (action = special_attack /\ special_abilities e <> []) \/
         (action = power_attack /\ (turn_counter e + 1) mod 3 = 0)
     end).
Proof.
  cbv zeta. split_ands.
  - rewrite choose_action_fst. cbn [state with_status_effects].
    rewrite <- update_ai_state_only_state. reflexivity.
  - intros Hmax. rewrite choose_action_fst. cbn [state with_status_effects].
    apply update_ai_state_never_stunned. exact Hmax.
  - apply choose_action_stunned.
  - intros Hns. rewrite choose_action_fst. cbn [state with_status_effects].
    revert Hns. unfold choose_action. cbv zeta.
    set (e1 := update_ai_state _ _ _).
    assert (Hab : special_abilities e1 = special_abilities e).
    { unfold e1. rewrite update_ai_state_only_state. reflexivity. }
    assert (Htc : turn_counter e1 = turn_counter e + 1).
    { unfold e1. rewrite update_ai_state_only_state. reflexivity. }
    cbn [state special_abilities turn_counter with_status_effects].
    rewrite Hab, Htc.
    destruct (existsb _ _); [intros H; exfalso; apply H; reflexivity |].
    intros _.
    destruct (state e1).
    + destruct (Py.choice _ _) as [a |] eqn:Ec; [| left; reflexivity].
      apply choice_In in Ec. cbn [snd].
      revert Ec. destruct (special_abilities e) eqn:Es;
        destruct ((turn_counter e + 1) mod 3 =? 0) eqn:Em;
        try apply Z.eqb_eq in Em;
        repeat match goal with
               | |- context [if ?c then _ else _] => destruct c
               end; simpl;
        intuition (subst; auto; try (right; left; split; [reflexivity | discriminate])).
    + destruct (Qlt_le_dec _ _); cbn [snd]; auto.
    + destruct (Qlt_le_dec _ _); cbn [snd]; auto.
    + destruct (Py.choice _ _) as [a |] eqn:Ec; [| left; reflexivity].
      apply choice_In in Ec. cbn [snd].
      revert Ec. destruct (special_abilities e) eqn:Es;
        destruct ((turn_counter e + 1) mod 3 =? 0) eqn:Em;
        try apply Z.eqb_eq in Em;
        repeat match goal with
               | |- context [if ?c then _ else _] => destruct c
               end; simpl;
        intuition (subst; auto; try (right; left; split; [reflexivity | discriminate])).
    + reflexivity.
Qed.

Lemma choose_action_spec_witness :
  state (fst (choose_action (mkDraws 0.9 0 0.1 0) Loogies)) <> STUNNED /\
  snd (choose_action (mkDraws 0.9 0 0.1 0)
         (with_status_effects [mkEffect "stunned" 1] Loogies)) = stunned.
Proof.
  split.
  - pose proof (choose_action_spec (mkDraws 0.9 0 0.1 0) Loogies) as H.
    cbv zeta in H. destruct H as (_ & H & _). apply H. discriminate.
  - pose proof (choose_action_spec (mkDraws 0.9 0 0.1 0)
                  (with_status_effects [mkEffect "stunned" 1] Loogies)) as H.
    cbv zeta in H. destruct H as (_ & _ & H & _). apply H.
    exists (mkEffect "stunned" 1). split; [left; reflexivity |].
    split; [reflexivity | reflexivity].
Defined.

Lemma decisions_effects (ds : list Draws) (e : Enemy) :
  status_effects (enemy_run (map Decides ds) e)
  = Nat.iter (length ds) tick_effects (status_effects e).
Proof.
  revert e. induction ds as [| d ds IH]; intros e; [reflexivity |].
  cbn [map length]. unfold enemy_run. cbn [fold_left enemy_step].
  change (fold_left enemy_step (map Decides ds) (fst (choose_action d e)))
    with (enemy_run (map Decides ds) (fst (choose_action d e))).
  rewrite IH, choose_action_fst. cbn [status_effects with_status_effects].
  rewrite Nat.iter_succ_r. reflexivity.
Qed.

Lemma stunned_after (n : nat) (l : list StatusEffect) :
  (exists s, In s (Nat.iter n tick_effects l) /\ effect_type s = "stunned" /\
             0 < effect_duration s) <->
  (exists s, In s l /\ effect_type s = "stunned" /\ Z.of_nat n < effect_duration s).
Proof.
  revert l. induction n as [| n IH]; intros l.
  - simpl. reflexivity.
  - rewrite Nat.iter_succ_r, IH. split.
    + intros (s' & Hin & Htype & Hdur). apply tick_effects_In in Hin.
      destruct Hin as (s & Hin & Hpos & ->). simpl in Htype, Hdur.
      exists s. split; [exact Hin |]. split; [exact Htype | lia].
    + intros (s & Hin & Htype & Hdur).
      exists (mkEffect (effect_type s) (effect_duration s - 1)). split.
      * apply tick_effects_In. exists s. split; [exact Hin |]. split; [lia | reflexivity].
      * simpl. split; [exact Htype | lia].
Qed.

(** X11.  A stun lasts as many decisions as its duration.  Whatever
    the draws, the decision an enemy takes after [n] earlier ones is
    [stunned] exactly when the enemy carried, before the first of
    them, a stun whose duration exceeds [n]: the stun of duration 1 a
    perfect fast combo inflicts costs the enemy its next decision and
    no other. *)
Theorem stun_lasts_its_duration (ds : list Draws) (d : Draws) (e : Enemy) :
  snd (choose_action d (enemy_run (map Decides ds) e)) = stunned <->
  exists s, In s (status_effects e) /\ effect_type s = "stunned" /\
            Z.of_nat (length ds) < effect_duration s.
Proof.
  rewrite choose_action_stunned, decisions_effects. apply stunned_after.
Qed.

Lemma stun_lasts_its_duration_witness :
  let d := mkDraws 0.9 0 0.1 0 in
  let e := with_status_effects [mkEffect "stunned" 1] Loogies in
  snd (choose_action d (enemy_run (map Decides []) e)) = stunned /\
  snd (choose_action d (enemy_run (map Decides [d]) e)) <> stunned.
Proof.
  intros d e. split.
  - apply (stun_lasts_its_duration [] d e).
    exists (mkEffect "stunned" 1). split; [left; reflexivity |].
    split; [reflexivity | reflexivity].
  - intros H. apply (stun_lasts_its_duration [d] d e) in H.
    destruct H as (s & [<- | []] & _ & Hdur). simpl in Hdur. lia.
Defined.

End EnemyDecisionMore.

(** ** The enemy's action *)

Section EnemyActionMore.

Import EnemyAI.

Lemma player_take_damage_health (damage : Q) (p : Character.PowerRanger) :
  (Character.current_health (fst (Character.take_damage damage p))
   == Qmax 0 (Character.current_health p - snd (Character.take_damage damage p)))%Q.
Proof.
  unfold Character.take_damage. cbn [fst snd].
  cbn [Character.current_health Character.with_current_health].
  apply py_max_is_Qmax.
Qed.

Lemma player_take_damage_max_health (damage : Q) (p : Character.PowerRanger) :
  Character.max_health (fst (Character.take_damage damage p)) = Character.max_health p.
Proof. reflexivity. Qed.

(** What a special ability does to the two combatants before the hit
    lands. *)
Lemma use_special_ability_effect
    (ability : string) (p : Character.PowerRanger) (e : Enemy) :
  let e' := fst (fst (use_special_ability ability p e)) in
  let p' := snd (fst (use_special_ability ability p e)) in
  attack e' = attack e /\ limbs e' = limbs e /\ max_health e' = max_health e /\
  speed e' = speed e /\
  defense e <= defense e' /\
  (current_health e' = current_health e \/
   current_health e'
   = Py.min (inject_Z (max_health e))
       (current_health e + inject_Z (max_health e) * 0.25)%Q) /\
  Character.current_health p' = Character.current_health p /\
  Character.max_health p' = Character.max_health p.
Proof.
  cbv zeta. unfold use_special_ability. cbv zeta.
  split_cases; cbn; split_ands; try reflexivity; try lia; auto.
Qed.

(** The enemy's own recovery: by a fraction of [max_health] that is
    not negative, capped at [max_health]. *)
Lemma enemy_recovery_bounds (f : Q) (e : Enemy) :
  (0 <= f)%Q -> 0 <= max_health e ->
  (current_health e <= inject_Z (max_health e))%Q ->
  let h := Py.min (inject_Z (max_health e))
             (current_health e + inject_Z (max_health e) * f)%Q in
  (current_health e <= h)%Q /\ (h <= inject_Z (max_health e))%Q.
Proof.
  intros Hf Hmax Hle. cbv zeta.
  assert (Hm : (0 <= inject_Z (max_health e))%Q).
  { change 0%Q with (inject_Z 0). rewrite <- Zle_Qle. exact Hmax. }
  assert (Hmf : (0 <= inject_Z (max_health e) * f)%Q)
    by (apply Qmult_le_0_compat; assumption).
  split; [apply py_min_glb; lra | apply py_min_le_l].
Qed.

Lemma execute_action_enemy (action : Action) (u : Q) (pick : nat)
    (p : Character.PowerRanger) (e : Enemy) :
  let e' := fst (fst (execute_action action u pick p e)) in
  attack e' = attack e /\ limbs e' = limbs e /\ max_health e' = max_health e /\
  speed e' = speed e /\
  defense e <= defense e' /\
  ((current_health e <= inject_Z (max_health e))%Q -> 0 <= max_health e ->
   (current_health e <= current_health e')%Q /\
   (current_health e' <= inject_Z (max_health e'))%Q).
Proof.
  cbv zeta.
  assert (Hsame : forall e0 : Enemy,
             (current_health e0 <= inject_Z (max_health e0))%Q -> 0 <= max_health e0 ->
             (current_health e0 <= current_health e0)%Q /\
             (current_health e0 <= inject_Z (max_health e0))%Q).
  { intros e0 H _. split; [lra | exact H]. }
  destruct action; unfold execute_action; cbv beta zeta;
    try (destruct (Character.take_damage _ p); cbn [fst snd];
         split_ands; try reflexivity; try lia; apply Hsame).
  - (* special_attack *)
    destruct (Py.choice (special_abilities e) pick) as [ability |].
    + pose proof (use_special_ability_effect ability p e) as H. cbv zeta in H.
      destruct (use_special_ability ability p e) as [[e1 p1] damage].
      cbn [fst snd] in H.
      destruct H as (Ha & Hl & Hm & Hs & Hd & Hh & _).
      destruct (Character.take_damage damage p1). cbn [fst snd].
      split_ands; try assumption.
      intros Hle Hmax. rewrite Hm.
      destruct Hh as [-> | ->]; [split; [lra | exact Hle] |].
      apply (enemy_recovery_bounds 0.25 e); [discriminate | exact Hmax | exact Hle].
    + destruct (Character.take_damage _ p); cbn [fst snd].
      split_ands; try reflexivity; try lia; apply Hsame.
  - (* defend *)
    cbn [fst snd attack limbs max_health speed defense current_health
         with_defense with_current_health].
    split_ands; try reflexivity; try lia.
    intros Hle Hmax. apply (enemy_recovery_bounds 0.1 e); [discriminate | exact Hmax | exact Hle].
  - (* heal *)
    cbn [fst snd attack limbs max_health speed defense current_health
         with_current_health].
    split_ands; try reflexivity; try lia.
    intros Hle Hmax. apply (enemy_recovery_bounds 0.15 e); [discriminate | exact Hmax | exact Hle].
  - cbn [fst snd]. split_ands; try reflexivity; try lia; apply Hsame.
  - cbn [fst snd]. split_ands; try reflexivity; try lia; apply Hsame.
Qed.

Lemma execute_action_player (action : Action) (u : Q) (pick : nat)
    (p : Character.PowerRanger) (e : Enemy) :
  let p' := snd (fst (execute_action action u pick p e)) in
  let damage_dealt := snd (execute_action action u pick p e) in
  Character.max_health p' = Character.max_health p /\
  (In action [defend; heal; flee; stunned] -> p' = p /\ damage_dealt = 0%Q) /\
  (~ In action [defend; heal; flee; stunned] ->
   (1 <= damage_dealt)%Q /\
   (Character.current_health p'
    == Qmax 0 (Character.current_health p - damage_dealt))%Q).
Proof.
  cbv zeta.
  assert (Hhit : forall damage (e0 : Enemy) (p0 : Character.PowerRanger),
             Character.current_health p0 = Character.current_health p ->
             Character.max_health p0 = Character.max_health p ->
             let r := (let '(p1, dd) := Character.take_damage damage p0 in (e0, p1, dd)) in
             Character.max_health (snd (fst r)) = Character.max_health p /\
             (1 <= snd r)%Q /\
             (Character.current_health (snd (fst r))
              == Qmax 0 (Character.current_health p - snd r))%Q).
  { intros damage e0 p0 Hc Hm. cbv zeta.
    pose proof (player_take_damage_at_least_one damage p0) as Hone.
    pose proof (player_take_damage_health damage p0) as Hhealth.
    pose proof (player_take_damage_max_health damage p0) as Hmax.
    destruct (Character.take_damage damage p0) as [p1 dd]. cbn [fst snd] in *.
    rewrite Hmax, Hhealth, Hc, Hm. split_ands; [reflexivity | exact Hone | reflexivity]. }
  destruct action; unfold execute_action; cbv beta zeta.
  1-4: match goal with
       | |- context [Character.take_damage ?D ?P] =>
           destruct (Hhit D e P eq_refl eq_refl) as (H1 & H2 & H3)
       end;
       split; [exact H1 |]; split; [simpl; intuition discriminate |];
       intros _; split; [exact H2 | exact H3].
  - destruct (Py.choice (special_abilities e) pick) as [ability |].
    + pose proof (use_special_ability_effect ability p e) as H. cbv zeta in H.
      destruct (use_special_ability ability p e) as [[e1 p1] damage].
      cbn [fst snd] in H.
      destruct H as (_ & _ & _ & _ & _ & _ & Hc & Hm).
      destruct (Hhit damage e1 p1 Hc Hm) as (H1 & H2 & H3).
      split; [exact H1 |]. split; [simpl; intuition discriminate |].
      intros _. split; [exact H2 | exact H3].
    + match goal with
      | |- context [Character.take_damage ?D ?P] =>
          destruct (Hhit D e P eq_refl eq_refl) as (H1 & H2 & H3)
      end.
      split; [exact H1 |]. split; [simpl; intuition discriminate |].
      intros _. split; [exact H2 | exact H3].
  - cbn [fst snd]. split; [reflexivity |].
    split; [intros _; split; reflexivity | simpl; tauto].
  - cbn [fst snd]. split; [reflexivity |].
    split; [intros _; split; reflexivity | simpl; tauto].
  - cbn [fst snd]. split; [reflexivity |].
    split; [intros _; split; reflexivity | simpl; tauto].
  - cbn [fst snd]. split; [reflexivity |].
    split; [intros _; split; reflexivity | simpl; tauto].
Qed.

(** X12.  [execute_action].  The four actions that are no attack
    (defend, heal, flee, stunned) leave the ranger untouched and deal
    0; every attack deals at least 1, and the ranger's health becomes
    max(0, health - damage dealt).  No action changes the enemy's
    attack, limbs or [max_health], and none lowers its defense; for an
    enemy whose health is within its [max_health], no action lowers
    the health or takes it above [max_health]. *)
Theorem execute_action_spec (action : Action) (u : Q) (pick : nat)
    (p : Character.PowerRanger) (e : Enemy) :
  let e' := fst (fst (execute_action action u pick p e)) in
  let p' := snd (fst (execute_action action u pick p e)) in
  let damage_dealt := snd (execute_action action u pick p e) in
  (In action [defend; heal; flee; stunned] -> p' = p /\ damage_dealt = 0%Q) /\
  (~ In action [defend; heal; flee; stunned] ->
   (1 <= damage_dealt)%Q /\
   (Character.current_health p'
    == Qmax 0 (Character.current_health p - damage_dealt))%Q) /\
  attack e' = attack e /\ limbs e' = limbs e /\ max_health e' = max_health e /\
  defense e <= defense e' /\
  ((current_health e <= inject_Z (max_health e))%Q -> 0 <= max_health e ->
   (current_health e <= current_health e')%Q /\
   (current_health e' <= inject_Z (max_health e'))%Q).
Proof.
  cbv zeta.
  pose proof (execute_action_player action u pick p e) as Hp. cbv zeta in Hp.
  pose proof (execute_action_enemy action u pick p e) as He. cbv zeta in He.
  destruct Hp as (_ & Hp1 & Hp2).
  destruct He as (He1 & He2 & He3 & _ & He4 & He5).
  split_ands; assumption.
Qed.

Lemma execute_action_spec_witness :
  let p := Character.init "Tommy" "Red" "Megaforce" "Power Sword" in
  (1 <= snd (execute_action enraged_attack 1 0 p Loogies))%Q /\
  snd (fst (execute_action defend 1 0 p Loogies)) = p /\
  (current_health wounded_loogies
   <= current_health (fst (fst (execute_action heal 1 0 p wounded_loogies))))%Q.
Proof.
  intros p. split; [| split].
  - pose proof (execute_action_spec enraged_attack 1 0 p Loogies) as H.
    cbv zeta in H. destruct H as (_ & H & _). apply H.
    simpl. intuition discriminate.
  - pose proof (execute_action_spec defend 1 0 p Loogies) as H.
    cbv zeta in H. destruct H as (H & _). apply H. left. reflexivity.
  - pose proof (execute_action_spec heal 1 0 p wounded_loogies) as H.
    cbv zeta in H. destruct H as (_ & _ & _ & _ & _ & _ & H).
    apply H; vm_compute; discriminate.
Defined.

End EnemyActionMore.

(** ** A battle, move by move *)

Section BattleMore.

Import Character Battle.

Lemma take_limb_damage_body (limb_name : string) (damage : Q) (e : EnemyAI.Enemy) :
  EnemyAI.current_health (fst (EnemyAI.take_limb_damage limb_name damage e))
  = EnemyAI.current_health e /\
  EnemyAI.max_health (fst (EnemyAI.take_limb_damage limb_name damage e))
  = EnemyAI.max_health e.
Proof. unfold EnemyAI.take_limb_damage. split_cases; split; reflexivity. Qed.

Lemma enemy_take_damage_max_health (damage : Q) (pick : nat) (e : EnemyAI.Enemy) :
  EnemyAI.max_health (fst (EnemyAI.take_damage damage pick e)) = EnemyAI.max_health e.
Proof.
  unfold EnemyAI.take_damage. cbv zeta. split_cases; cbn [fst];
    rewrite ?(proj2 (take_limb_damage_body _ _ _)); reflexivity.
Qed.

Lemma enemy_take_damage_keeps_healthy (damage : Q) (pick : nat) (e : EnemyAI.Enemy) :
  enemy_healthy e -> enemy_healthy (fst (EnemyAI.take_damage damage pick e)).
Proof.
  intros [Hlow Hhigh]. unfold enemy_healthy.
  rewrite enemy_take_damage_max_health, enemy_take_damage_health.
  split; [apply Q.le_max_l |].
  apply Q.max_lub; [lra |].
  pose proof (Q.le_max_l 1 (damage - inject_Z (EnemyAI.defense e))). lra.
Qed.

Lemma choose_action_keeps (d : EnemyAI.Draws) (e : EnemyAI.Enemy) :
  let e' := fst (EnemyAI.choose_action d e) in
  EnemyAI.attack e' = EnemyAI.attack e /\ EnemyAI.speed e' = EnemyAI.speed e /\
  EnemyAI.limbs e' = EnemyAI.limbs e /\
  EnemyAI.current_health e' = EnemyAI.current_health e /\
  EnemyAI.max_health e' = EnemyAI.max_health e.
Proof.
  cbv zeta. rewrite choose_action_fst, update_ai_state_only_state.
  split_ands; reflexivity.
Qed.

Lemma combo_attack_enemy
    (player : PowerRanger) (enemy : EnemyAI.Enemy)
    (required_sequence player_input : list string) (time_taken stun_draw : Q)
    (pick : nat) :
  let e' := fst (_execute_combo_attack player enemy required_sequence player_input
                   time_taken stun_draw pick) in
  e' = enemy \/
  exists damage,
    let e1 := fst (EnemyAI.take_damage damage pick enemy) in
    e' = e1 \/
    e' = EnemyAI.with_status_effects
           (EnemyAI.status_effects e1 ++ [mkEffect "stunned" 1])%list e1.
Proof.
  cbv zeta. unfold _execute_combo_attack. cbv zeta.
  destruct (combo_damage _ _) as [damage |]; [| left; reflexivity].
  right. exists damage.
  destruct (EnemyAI.take_damage damage pick enemy) as [e1 actual]. cbn [fst].
  destruct (combo_branch _ _ _); split_cases; auto.
Qed.

Lemma limb_attack_enemy (limb_name : string) (roll : Z) (pick : nat)
    (player : PowerRanger) (enemy : EnemyAI.Enemy) :
  let e' := fst (player_limb_attack limb_name roll pick player enemy) in
  let e1 := fst (EnemyAI.take_limb_damage limb_name (inject_Z (attack player + roll))
                   enemy) in
  e' = e1 \/
  e' = fst (EnemyAI.take_damage (inject_Z ((attack player + roll) / 2)) pick e1).
Proof.
  cbv zeta. unfold player_limb_attack. cbv zeta.
  destruct (EnemyAI.take_limb_damage _ _ enemy) as [e1 [success msg]]. cbn [fst].
  destruct success; auto.
Qed.

(** *** Health *)

Lemma move_step_health (m : Move) (p : PowerRanger) (e : EnemyAI.Enemy) :
  healthy p -> enemy_healthy e ->
  healthy (fst (move_step (p, e) m)) /\
  enemy_healthy (snd (move_step (p, e) m)) /\
  max_health (fst (move_step (p, e) m)) = max_health p /\
  EnemyAI.max_health (snd (move_step (p, e) m)) = EnemyAI.max_health e.
Proof.
  intros Hp He.
  destruct m as [roll pick | | limb_name roll pick | req inp t sd pick | d u pick | tc];
    cbn [move_step fst snd].
  - unfold player_attack.
    split; [exact Hp |]. split; [apply enemy_take_damage_keeps_healthy, He |].
    split; [reflexivity | apply enemy_take_damage_max_health].
  - split; [apply player_defend_keeps_healthy, Hp |]. split; [exact He |].
    split; [| reflexivity].
    unfold player_defend. destruct (Py.get _ _) as [[|] |]; reflexivity.
  - split; [exact Hp |].
    pose proof (limb_attack_enemy limb_name roll pick p e) as H. cbv zeta in H.
    destruct (take_limb_damage_body limb_name (inject_Z (attack p + roll)) e)
      as [Hc Hm].
    set (e1 := fst (EnemyAI.take_limb_damage limb_name (inject_Z (attack p + roll)) e))
      in *.
    assert (He1 : enemy_healthy e1).
    { destruct He as [Hlow Hhigh]. unfold enemy_healthy. rewrite Hc, Hm. split; assumption. }
    destruct H as [-> | ->].
    + split; [exact He1 |]. split; [reflexivity | exact Hm].
    + split; [apply enemy_take_damage_keeps_healthy, He1 |].
      split; [reflexivity |]. rewrite enemy_take_damage_max_health. exact Hm.
  - split; [exact Hp |].
    pose proof (combo_attack_enemy p e req inp t sd pick) as H. cbv zeta in H.
    destruct H as [-> | (damage & [-> | ->])].
    + split; [exact He |]. split; reflexivity.
    + split; [apply enemy_take_damage_keeps_healthy, He |].
      split; [reflexivity | apply enemy_take_damage_max_health].
    + pose proof (enemy_take_damage_keeps_healthy damage pick e He) as H1.
      pose proof (enemy_take_damage_max_health damage pick e) as H2.
      split; [exact H1 |]. split; [reflexivity | exact H2].
  - unfold _execute_enemy_turn.
    pose proof (choose_action_keeps d e) as Hk. cbv zeta in Hk.
    destruct (EnemyAI.choose_action d e) as [e1 action]. cbn [fst] in Hk.
    destruct Hk as (_ & _ & _ & Hc & Hm).
    pose proof (execute_action_enemy action u pick p e1) as Hen. cbv zeta in Hen.
    pose proof (execute_action_player action u pick p e1) as Hpl. cbv zeta in Hpl.
    destruct (EnemyAI.execute_action action u pick p e1) as [[e2 p2] dealt].
    cbn [fst snd] in *.
    destruct Hen as (_ & _ & Hm2 & _ & _ & Hh).
    destruct Hpl as (Hpm & Hquiet & Hhit).
    destruct He as [Hlow Hhigh]. destruct Hp as [Hplow Hphigh].
    assert (Hmax : 0 <= EnemyAI.max_health e).
    { rewrite Zle_Qle. change (inject_Z 0) with 0%Q. lra. }
    destruct Hh as [Hup Hcap]; [rewrite Hc, Hm; exact Hhigh | rewrite Hm; exact Hmax |].
    split.
    { destruct (in_dec (fun a b : EnemyAI.Action => ltac:(decide equality) : {a = b} + {a <> b})
                  action [EnemyAI.defend; EnemyAI.heal; EnemyAI.flee; EnemyAI.stunned])
        as [Hin | Hnot].
      - destruct (Hquiet Hin) as [-> _]. split; assumption.
      - destruct (Hhit Hnot) as [Hone Hcur]. unfold healthy. rewrite Hpm, Hcur.
        split; [apply Q.le_max_l | apply Q.max_lub; lra]. }
    rewrite Hc in Hup.
    split; [unfold enemy_healthy; split; [lra | exact Hcap] |].
    split; [exact Hpm | rewrite Hm2; exact Hm].
  - unfold regenerate_mega_energy.
    destruct (tc mod 3 =? 0);
      (split; [exact Hp | split; [exact He | split; reflexivity]]).
Qed.

(** X13.  Both combatants' health stays within 0..[max_health]
    throughout a battle, and [max_health] itself does not move: for
    every sequence of the player's attacks, stances, limb attacks and
    combos, of enemy turns (decision and action, special abilities
    included) and of turn ends. *)
Theorem battle_health_invariant
    (moves : list Move) (p : PowerRanger) (e : EnemyAI.Enemy) :
  healthy p -> enemy_healthy e ->
  let p' := fst (battle_run moves (p, e)) in
  let e' := snd (battle_run moves (p, e)) in
  healthy p' /\ enemy_healthy e' /\
  max_health p' = max_health p /\ EnemyAI.max_health e' = EnemyAI.max_health e.
Proof.
  cbv zeta. revert p e. induction moves as [| m moves IH]; intros p e Hp He.
  - cbn. split_ands; [exact Hp | exact He | reflexivity | reflexivity].
  - unfold battle_run. cbn [fold_left].
    destruct (move_step_health m p e Hp He) as (Hp1 & He1 & Hpm & Hem).
    destruct (move_step (p, e) m) as [p1 e1]. cbn [fst snd] in *.
    destruct (IH p1 e1 Hp1 He1) as (Hp2 & He2 & Hpm2 & Hem2).
    unfold battle_run in *.
    split_ands; [exact Hp2 | exact He2 | congruence | congruence].
Qed.

Lemma battle_health_invariant_witness :
  let p := init "Tommy" "Red" "Megaforce" "Power Sword" in
  let out := battle_run [Attacks 5 0; EnemyActs (EnemyAI.mkDraws 0.9 0 0.1 0) 1.2 0;
                         Targets "left_arm" 3 1; TurnCloses 1;
                         Combos ["W"; "A"; "S"] ["W"; "A"; "S"] 1 0.1 2;
                         EnemyActs (EnemyAI.mkDraws 0.9 0 0.1 0) 0.8 0; TurnCloses 2]
               (p, EnemyAI.Loogies) in
  healthy (fst out) /\ enemy_healthy (snd out).
Proof.
  intros p out.
  assert (Hp : healthy p) by (split; discriminate).
  assert (He : enemy_healthy EnemyAI.Loogies) by (split; discriminate).
  pose proof (battle_health_invariant
                [Attacks 5 0; EnemyActs (EnemyAI.mkDraws 0.9 0 0.1 0) 1.2 0;
                 Targets "left_arm" 3 1; TurnCloses 1;
                 Combos ["W"; "A"; "S"] ["W"; "A"; "S"] 1 0.1 2;
                 EnemyActs (EnemyAI.mkDraws 0.9 0 0.1 0) 0.8 0; TurnCloses 2]
                p EnemyAI.Loogies Hp He) as H.
  cbv zeta in H. destruct H as (H1 & H2 & _). split; [exact H1 | exact H2].
Defined.

(** *** Wear *)

Lemma worn_same (e e' : EnemyAI.Enemy) :
  0 <= EnemyAI.attack e -> 0 <= EnemyAI.speed e ->
  EnemyAI.attack e' = EnemyAI.attack e -> EnemyAI.speed e' = EnemyAI.speed e ->
  EnemyAI.limbs e' = EnemyAI.limbs e -> worn e e'.
Proof.
  intros Ha Hs Ea Es El. unfold worn, EnemyAI.limb_broken, EnemyAI.broken_limbs.
  rewrite Ea, Es, El. split_ands; try lia; auto.
Qed.

Lemma worn_trans (e1 e2 e3 : EnemyAI.Enemy) : worn e1 e2 -> worn e2 e3 -> worn e1 e3.
Proof.
  intros (A1 & S1 & K1 & B1 & C1) (A2 & S2 & K2 & B2 & C2). unfold worn.
  split_ands; try lia; [congruence | auto].
Qed.

Lemma keys_set {V} (k : string) (v v0 : V) (d : Py.dict V) :
  Py.get k d = Some v0 -> Py.keys (Py.set k v d) = Py.keys d.
Proof.
  induction d as [| [k' v'] d IH]; [discriminate |].
  cbn [Py.get Py.set]. destruct (String.eqb k k'); [reflexivity |].
  intros H. unfold Py.keys in *. cbn [map fst]. f_equal. apply IH, H.
Qed.

Lemma broken_count_set (k : string) (l l' : EnemyAI.Limb) (d : Py.dict EnemyAI.Limb) :
  Py.get k d = Some l -> EnemyAI.broken l = false ->
  (length (List.filter (fun x => EnemyAI.broken x) (Py.values d))
   <= length (List.filter (fun x => EnemyAI.broken x) (Py.values (Py.set k l' d))))%nat.
Proof.
  induction d as [| [k' v'] d IH]; [discriminate |].
  cbn [Py.get Py.set]. destruct (String.eqb k k').
  - intros H Hb. injection H as ->. unfold Py.values.
    cbn [map snd List.filter]. rewrite Hb.
    destruct (EnemyAI.broken l'); cbn [length]; lia.
  - intros H Hb. specialize (IH H Hb). unfold Py.values in *.
    cbn [map snd List.filter]. destruct (EnemyAI.broken v'); cbn [length]; lia.
Qed.

Lemma take_limb_damage_worn (limb_name : string) (damage : Q) (e : EnemyAI.Enemy) :
  0 <= EnemyAI.attack e -> 0 <= EnemyAI.speed e ->
  worn e (fst (EnemyAI.take_limb_damage limb_name damage e)).
Proof.
  intros Ha Hs. unfold EnemyAI.take_limb_damage.
  destruct (Py.get limb_name (EnemyAI.limbs e)) as [limb |] eqn:Eget;
    [| apply worn_same; auto].
  destruct (EnemyAI.broken limb) eqn:Eb; [apply worn_same; auto |].
  assert (Hkeys : forall l', Py.keys (Py.set limb_name l' (EnemyAI.limbs e))
                             = Py.keys (EnemyAI.limbs e)).
  { intros l'. eapply keys_set. exact Eget. }
  assert (Hstay : forall l' k,
             EnemyAI.broken <$> Py.get k (EnemyAI.limbs e) = Some true ->
             EnemyAI.broken <$> Py.get k (Py.set limb_name l' (EnemyAI.limbs e))
             = Some true).
  { intros l' k Hk. destruct (String.eqb_spec k limb_name) as [-> | Hne].
    - rewrite Eget in Hk. simpl in Hk. congruence.
    - rewrite get_set_other by exact Hne. exact Hk. }
  assert (Hcount : forall l',
             Z.of_nat (length (List.filter (fun x => EnemyAI.broken x)
                                 (Py.values (EnemyAI.limbs e))))
             <= Z.of_nat (length (List.filter (fun x => EnemyAI.broken x)
                                    (Py.values (Py.set limb_name l' (EnemyAI.limbs e)))))).
  { intros l'. apply Nat2Z.inj_le. eapply broken_count_set; eassumption. }
  assert (Hscaled : forall z, 0 <= z -> 0 <= Py.int (inject_Z z * 0.8)%Q <= z).
  { intros z Hz.
    assert (Hq : (0 <= inject_Z z)%Q).
    { change 0%Q with (inject_Z 0). rewrite <- Zle_Qle. exact Hz. }
    split; [apply py_int_nonneg; lra |].
    rewrite <- (py_int_of_Z z) at 2. apply py_int_mono; lra. }
  pose proof (Hscaled _ Ha) as Hatk. pose proof (Hscaled _ Hs) as Hspd.
  cbv zeta. cbn [EnemyAI.health EnemyAI.limb_max_health EnemyAI.broken].
  split_cases; unfold worn, EnemyAI.limb_broken, EnemyAI.broken_limbs;
    cbn [fst EnemyAI.attack EnemyAI.speed EnemyAI.limbs
         EnemyAI.with_limbs EnemyAI.with_attack EnemyAI.with_speed];
    split_ands; try lia; auto.
Qed.

Lemma enemy_take_damage_worn (damage : Q) (pick : nat) (e : EnemyAI.Enemy) :
  0 <= EnemyAI.attack e -> 0 <= EnemyAI.speed e ->
  worn e (fst (EnemyAI.take_damage damage pick e)).
Proof.
  intros Ha Hs. unfold EnemyAI.take_damage. cbv zeta.
  split_cases; cbn [fst];
    try (apply worn_same; auto; reflexivity);
    match goal with
    | |- worn ?a (fst (EnemyAI.take_limb_damage ?n ?d ?b)) =>
        apply (worn_trans a b);
        [apply worn_same; auto; reflexivity
        | apply take_limb_damage_worn; [exact Ha | exact Hs]]
    end.
Qed.

Lemma move_step_worn (m : Move) (p : PowerRanger) (e : EnemyAI.Enemy) :
  0 <= EnemyAI.attack e -> 0 <= EnemyAI.speed e ->
  worn e (snd (move_step (p, e) m)).
Proof.
  intros Ha Hs.
  destruct m as [roll pick | | limb_name roll pick | req inp t sd pick | d u pick | tc];
    cbn [move_step fst snd].
  - apply enemy_take_damage_worn; assumption.
  - apply worn_same; auto.
  - pose proof (limb_attack_enemy limb_name roll pick p e) as H. cbv zeta in H.
    pose proof (take_limb_damage_worn limb_name (inject_Z (attack p + roll)) e Ha Hs)
      as Hw.
    destruct H as [-> | ->]; [exact Hw |].
    eapply worn_trans; [exact Hw |].
    destruct Hw as (A & S & _). apply enemy_take_damage_worn; lia.
  - pose proof (combo_attack_enemy p e req inp t sd pick) as H. cbv zeta in H.
    pose proof (fun damage => enemy_take_damage_worn damage pick e Ha Hs) as Hw.
    destruct H as [-> | (damage & [-> | ->])].
    + apply worn_same; auto.
    + apply Hw.
    + eapply worn_trans; [apply (Hw damage) |].
      destruct (Hw damage) as (A & S & _). apply worn_same; try lia; reflexivity.
  - unfold _execute_enemy_turn.
    pose proof (choose_action_keeps d e) as Hk. cbv zeta in Hk.
    destruct (EnemyAI.choose_action d e) as [e1 action]. cbn [fst] in Hk.
    destruct Hk as (Ea & Es & El & _).
    pose proof (execute_action_enemy action u pick p e1) as Hen. cbv zeta in Hen.
    destruct (EnemyAI.execute_action action u pick p e1) as [[e2 p2] dealt].
    cbn [fst snd] in *.
    destruct Hen as (Ea2 & El2 & _ & Es2 & _).
    apply worn_same; auto; congruence.
  - apply worn_same; auto.
Qed.

(** X14.  A battle only wears the enemy down.  For an enemy whose
    attack and speed are not negative, after any sequence of moves
    the attack and the speed are not above what they were (and still
    not negative), the limb table has the keys it had, every limb
    that was broken is still broken, and no fewer limbs are broken. *)
Theorem battle_wears_the_enemy
    (moves : list Move) (p : PowerRanger) (e : EnemyAI.Enemy) :
  0 <= EnemyAI.attack e -> 0 <= EnemyAI.speed e ->
  worn e (snd (battle_run moves (p, e))).
Proof.
  revert p e. induction moves as [| m moves IH]; intros p e Ha Hs.
  - cbn. apply worn_same; auto.
  - unfold battle_run. cbn [fold_left].
    pose proof (move_step_worn m p e Ha Hs) as Hw.
    destruct (move_step (p, e) m) as [p1 e1]. cbn [snd] in Hw.
    eapply worn_trans; [exact Hw |].
    destruct Hw as (A & S & _). apply IH; lia.
Qed.

Lemma battle_wears_the_enemy_witness :
  let p := init "Tommy" "Red" "Megaforce" "Power Sword" in
  let moves := [EnemyActs (EnemyAI.mkDraws 0.9 0 0.1 0) 1.2 0; Attacks 5 0;
                Targets "left_arm" 3 1] in
  let e0 := fst (EnemyAI.take_limb_damage "left_arm" 100 EnemyAI.Loogies) in
  EnemyAI.attack (snd (battle_run moves (p, EnemyAI.Loogies)))
  <= EnemyAI.attack EnemyAI.Loogies /\
  EnemyAI.limb_broken "left_arm" (snd (battle_run moves (p, e0))) = Some true.
Proof.
  intros p moves e0. split.
  - destruct (battle_wears_the_enemy moves p EnemyAI.Loogies) as (A & _);
      [discriminate | discriminate | exact (proj2 A)].
  - destruct (battle_wears_the_enemy moves p e0) as (_ & _ & _ & B & _);
      [vm_compute; discriminate | vm_compute; discriminate |].
    apply B. vm_compute. reflexivity.
Defined.

End BattleMore.

(** ** The enemies the factory creates *)

Section FactoryMore.

Import EnemyAI.

Lemma get_In_values {V} (k : string) (v : V) (d : Py.dict V) :
  Py.get k d = Some v -> In v (Py.values d).
Proof.
  induction d as [| [k' v'] d IH]; [discriminate |].
  cbn [Py.get]. unfold Py.values in *. cbn [map snd In].
  destruct (String.eqb k k'); [intros H; injection H as ->; left; reflexivity |].
  intros H. right. apply IH, H.
Qed.

(** Every call of the factory returns one of the seven archetypes,
    scaled by one of the four multipliers; the archetype drawn for
    ["random"] is one of the four of [ENEMY_TYPES]. *)
Lemma create_enemy_cases (enemy_type mission_difficulty : string) (pick : nat) :
  exists cls m,
    In cls [Loogies; Zombats; Bruisers; XBorgs; MetalAlice; BlackKnight; EmperorMavro] /\
    In m [0.8%Q; 1.0%Q; 1.3%Q; 1.6%Q] /\
    create_enemy enemy_type mission_difficulty pick = scale m cls /\
    (enemy_type = "random" -> In cls [Loogies; Zombats; Bruisers; XBorgs]).
Proof.
  assert (Hm : In (multiplier_of mission_difficulty) [0.8%Q; 1.0%Q; 1.3%Q; 1.6%Q]).
  { destruct (multiplier_of_cases mission_difficulty)
      as [[_ ->] | [[_ ->] | [[_ ->] | [[_ ->] | [_ ->]]]]]; simpl; auto. }
  unfold create_enemy. fold (multiplier_of mission_difficulty).
  destruct (String.eqb enemy_type "random") eqn:Er.
  - destruct (Py.choice (Py.keys Config.ENEMY_TYPES) pick) as [chosen |] eqn:Ec.
    + apply choice_In in Ec. cbn in Ec.
      destruct Ec as [<- | [<- | [<- | [<- | []]]]].
      * exists Loogies, (multiplier_of mission_difficulty).
        split_ands; [simpl; auto | exact Hm | reflexivity | simpl; auto].
      * exists Zombats, (multiplier_of mission_difficulty).
        split_ands; [simpl; auto | exact Hm | reflexivity | simpl; auto].
      * exists Bruisers, (multiplier_of mission_difficulty).
        split_ands; [simpl; auto | exact Hm | reflexivity | simpl; auto].
      * exists XBorgs, (multiplier_of mission_difficulty).
        split_ands; [simpl; auto 6 | exact Hm | reflexivity | simpl; auto 6].
    + exfalso. apply (choice_nonempty (Py.keys Config.ENEMY_TYPES) pick);
        [discriminate | exact Ec].
  - assert (Hnr : enemy_type = "random" ->
                  In (match Py.get enemy_type enemy_classes with
                      | Some cls => cls | None => Loogies end)
                    [Loogies; Zombats; Bruisers; XBorgs]).
    { intros ->. discriminate. }
    destruct (Py.get enemy_type enemy_classes) as [cls |] eqn:Eg.
    + exists cls, (multiplier_of mission_difficulty).
      split_ands; [| exact Hm | reflexivity | exact Hnr].
      apply get_In_values in Eg. exact Eg.
    + exists Loogies, (multiplier_of mission_difficulty).
      split_ands; [simpl; auto | exact Hm | reflexivity | exact Hnr].
Qed.

Lemma intact_of_values (e : Enemy) :
  forallb (fun l => negb (broken l)) (Py.values (limbs e)) = true -> limbs_intact e.
Proof.
  intros Hall k l Hget. apply get_In_values in Hget.
  rewrite forallb_forall in Hall. specialize (Hall l Hget).
  destruct (broken l); [discriminate | reflexivity].
Qed.

Lemma four_limbs_of_keys (e : Enemy) :
  forallb (fun k => match Py.get k (limbs e) with Some _ => true | None => false end)
    ["left_arm"; "right_arm"; "left_leg"; "right_leg"] = true ->
  four_limbs e.
Proof.
  intros Hall k Hk. rewrite forallb_forall in Hall. specialize (Hall k Hk).
  destruct (Py.get k (limbs e)); [discriminate | discriminate Hall].
Qed.

(** X15.  Whatever type name, difficulty tag and draw it is called
    with, [create_enemy] returns an enemy that is ready to fight: at
    full health, which is positive, hence alive; with a positive
    attack and speed, and a defense and rewards that are not negative;
    aggressive, at turn 0 and free of status effects; with its four
    limbs, none of them broken; and named after one of the seven
    archetypes.  A ["random"] enemy is never a boss: it is one of the
    four types of [ENEMY_TYPES] and has no special ability. *)
Theorem create_enemy_well_formed (enemy_type mission_difficulty : string) (pick : nat) :
  let e := create_enemy enemy_type mission_difficulty pick in
  0 < max_health e /\ current_health e = inject_Z (max_health e) /\
  is_alive e = true /\
  0 < attack e /\ 0 <= defense e /\ 0 < speed e /\
  0 <= gold_reward e /\ 0 <= xp_reward e /\
  state e = AGGRESSIVE /\ turn_counter e = 0 /\ status_effects e = [] /\
  four_limbs e /\ limbs_intact e /\
  In (name e) known_archetypes /\
  (enemy_type = "random" ->
   In (name e) (Py.keys Config.ENEMY_TYPES) /\ special_abilities e = []).
Proof.
  cbv zeta.
  destruct (create_enemy_cases enemy_type mission_difficulty pick)
    as (cls & m & Hcls & Hm & -> & Hrandom).
  assert (Hbody :
    0 < max_health (scale m cls) /\
    current_health (scale m cls) = inject_Z (max_health (scale m cls)) /\
    is_alive (scale m cls) = true /\
    0 < attack (scale m cls) /\ 0 <= defense (scale m cls) /\ 0 < speed (scale m cls) /\
    0 <= gold_reward (scale m cls) /\ 0 <= xp_reward (scale m cls)).
  { cbn [In] in Hcls, Hm.
    destruct Hm as [<- | [<- | [<- | [<- | []]]]];
      destruct Hcls as [<- | [<- | [<- | [<- | [<- | [<- | [<- | []]]]]]]];
      vm_compute; split_ands; (reflexivity || discriminate). }
  assert (Hshape :
    state (scale m cls) = AGGRESSIVE /\ turn_counter (scale m cls) = 0 /\
    status_effects (scale m cls) = [] /\
    four_limbs (scale m cls) /\ limbs_intact (scale m cls) /\
    In (name (scale m cls)) known_archetypes).
  { cbn [In] in Hcls.
    destruct Hcls as [<- | [<- | [<- | [<- | [<- | [<- | [<- | []]]]]]]];
      (split_ands;
       [reflexivity | reflexivity | reflexivity
       | apply four_limbs_of_keys; vm_compute; reflexivity
       | apply intact_of_values; vm_compute; reflexivity
       | vm_compute; tauto]). }
  destruct Hbody as (B1 & B2 & B3 & B4 & B5 & B6 & B7 & B8).
  destruct Hshape as (S1 & S2 & S3 & S4 & S5 & S6).
  split_ands; try assumption.
  intros Hr. specialize (Hrandom Hr). cbn [In] in Hrandom.
  destruct Hrandom as [<- | [<- | [<- | [<- | []]]]];
    (split; [vm_compute; tauto | reflexivity]).
Qed.

Lemma create_enemy_well_formed_witness :
  is_alive (create_enemy "random" "Extreme" 6) = true /\
  four_limbs (create_enemy "Black Knight" "Easy" 0) /\
  special_abilities (create_enemy "random" "Hard" 3) = [].
Proof.
  split; [| split].
  - pose proof (create_enemy_well_formed "random" "Extreme" 6) as H.
    cbv zeta in H. destruct H as (_ & _ & H & _). exact H.
  - pose proof (create_enemy_well_formed "Black Knight" "Easy" 0) as H.
    cbv zeta in H. destruct H as (_ & _ & _ & _ & _ & _ & _ & _ & _ & _ & _ & H & _).
    exact H.
  - pose proof (create_enemy_well_formed "random" "Hard" 3) as H.
    cbv zeta in H.
    destruct H as (_ & _ & _ & _ & _ & _ & _ & _ & _ & _ & _ & _ & _ & _ & H).
    apply H. reflexivity.
Defined.

End FactoryMore.

(** ** Victory *)

Section VictoryMore.

Import Character Battle.

Lemma gain_xp_loop_history (fuel : nat) (p : PowerRanger) :
  battle_history (fst (gain_xp_loop fuel p)) = battle_history p.
Proof.
  revert p. induction fuel as [| fuel IH]; intros p; [reflexivity |].
  cbn [gain_xp_loop].
  destruct ((Config.XP_PER_LEVEL * level p <=? xp p) && (level p <? Config.MAX_LEVEL));
    [| reflexivity].
  cbv zeta.
  match goal with
  | |- context [unlock_at_level ?q] =>
      destruct (unlock_at_level q) as [p' |] eqn:Eunlock
  end; [| reflexivity].
  rewrite IH. apply unlock_at_level_only_skills in Eunlock as [Hp' _].
  rewrite Hp'. reflexivity.
Qed.

Lemma health_bonus_at_least_one (player : PowerRanger) : (1 <= health_bonus player)%Q.
Proof. unfold health_bonus. split_cases; discriminate. Qed.

Lemma combo_bonus_at_least_one (battle_log : list string) :
  (1 <= combo_bonus battle_log)%Q.
Proof.
  rewrite combo_bonus_formula.
  assert (H : (0 <= inject_Z (combo_count battle_log))%Q).
  { change 0%Q with (inject_Z 0). rewrite <- Zle_Qle. unfold combo_count. lia. }
  lra.
Qed.

Lemma reward_at_least_base (base : Z) (hb cb : Q) :
  0 <= base -> (1 <= hb)%Q -> (1 <= cb)%Q -> base <= Py.int (inject_Z base * hb * cb)%Q.
Proof.
  intros Hbase Hhb Hcb.
  assert (Hq : (0 <= inject_Z base)%Q).
  { change 0%Q with (inject_Z 0). rewrite <- Zle_Qle. exact Hbase. }
  rewrite <- (py_int_of_Z base) at 1. apply py_int_mono; [exact Hq |].
  assert (H1 : (inject_Z base <= inject_Z base * hb)%Q) by nra.
  assert (H2 : (0 <= inject_Z base * hb)%Q) by nra.
  nra.
Qed.

Lemma gain_xp_keeps (amount : Z) (p : PowerRanger) :
  let p' := fst (gain_xp amount p) in
  xp p' = xp p + amount /\ gold p' = gold p /\ ranger_keys p' = ranger_keys p /\
  battle_history p' = battle_history p /\ level p <= level p'.
Proof.
  cbv zeta. unfold gain_xp.
  set (p1 := with_xp (xp p + amount) p).
  pose proof (gain_xp_loop_grown (Z.to_nat (Config.MAX_LEVEL - level p1)) p1)
    as (k & Hk & Hg).
  pose proof (gain_xp_loop_history (Z.to_nat (Config.MAX_LEVEL - level p1)) p1) as Hh.
  destruct (gain_xp_loop _ p1) as [p2 raised]. cbn [fst] in *.
  destruct Hg as (G1 & G2 & _ & _ & _ & _ & _ & _ & _ & G10 & G11).
  rewrite G1, G2, G10, G11, Hh. unfold p1.
  cbn [xp gold ranger_keys battle_history level with_xp].
  split_ands; try reflexivity. lia.
Qed.

(** [_handle_victory] step by step. *)
Lemma handle_victory_steps
    (battle_log : list string) (turn_counter : Z) (key_draw : Q) (key_pick : nat)
    (now : Q) (player : PowerRanger) (enemy : EnemyAI.Enemy) :
  _handle_victory battle_log turn_counter key_draw key_pick now player enemy
  = let final_gold := fst (final_rewards player enemy battle_log) in
    let final_xp := snd (final_rewards player enemy battle_log) in
    let p1 := with_gold (gold player + inject_Z final_gold)%Q player in
    let p2 := fst (gain_xp final_xp p1) in
    let p3 :=
      if Qlt_le_dec key_draw 0.3 then
        match Py.choice ranger_key_pool key_pick with
        | Some key => fst (add_ranger_key key p2)
        | None => p2
        end
      else p2 in
    (with_battle_history
       (battle_history p3
        ++ [VictoryRecord (EnemyAI.name enemy) turn_counter final_gold final_xp now])%list
       p3,
     mkVictory final_gold final_xp (snd (gain_xp final_xp p1)) battle_log).
Proof.
  unfold _handle_victory.
  destruct (final_rewards player enemy battle_log) as [final_gold final_xp].
  cbn [fst snd].
  destruct (gain_xp final_xp _) as [p2 leveled]. reflexivity.
Qed.

(** X16.  What a victory pays.  For an enemy whose rewards are not
    negative, the gold and the experience earned are never below the
    enemy's base rewards; the ranger's gold grows by exactly the gold
    earned and the experience by exactly the experience earned, the
    level does not drop, and exactly one victory record, carrying
    those two amounts, is appended to the battle history.  The ranger
    keys are left as they were or grow by one key of the pool that
    was not held yet, and only when the draw is below 0.3. *)
Theorem handle_victory_spec
    (battle_log : list string) (turn_counter : Z) (key_draw : Q) (key_pick : nat)
    (now : Q) (player : PowerRanger) (enemy : EnemyAI.Enemy) :
  0 <= EnemyAI.gold_reward enemy -> 0 <= EnemyAI.xp_reward enemy ->
  let p' := fst (_handle_victory battle_log turn_counter key_draw key_pick now
                   player enemy) in
  let v := snd (_handle_victory battle_log turn_counter key_draw key_pick now
                  player enemy) in
  EnemyAI.gold_reward enemy <= gold_earned v /\
  EnemyAI.xp_reward enemy <= xp_earned v /\
  (gold_earned v, xp_earned v) = final_rewards player enemy battle_log /\
  gold p' = (gold player + inject_Z (gold_earned v))%Q /\
  xp p' = xp player + xp_earned v /\
  level player <= level p' /\
  battle_history p'
  = (battle_history player
     ++ [VictoryRecord (EnemyAI.name enemy) turn_counter (gold_earned v) (xp_earned v)
           now])%list /\
  battle_log_out v = battle_log /\
  (ranger_keys p' = ranger_keys player \/
   exists key, In key ranger_key_pool /\ ~ In key (ranger_keys player) /\
               (key_draw < 0.3)%Q /\
               ranger_keys p' = (ranger_keys player ++ [key])%list).
Proof.
  intros Hgold Hxp. cbv zeta. rewrite handle_victory_steps. cbv zeta.
  assert (Hg : EnemyAI.gold_reward enemy <= fst (final_rewards player enemy battle_log)).
  { apply reward_at_least_base;
      [exact Hgold | apply health_bonus_at_least_one | apply combo_bonus_at_least_one]. }
  assert (Hx : EnemyAI.xp_reward enemy <= snd (final_rewards player enemy battle_log)).
  { apply reward_at_least_base;
      [exact Hxp | apply health_bonus_at_least_one | apply combo_bonus_at_least_one]. }
  set (final_gold := fst (final_rewards player enemy battle_log)) in *.
  set (final_xp := snd (final_rewards player enemy battle_log)) in *.
  set (p1 := with_gold (gold player + inject_Z final_gold) player).
  pose proof (gain_xp_keeps final_xp p1) as Hkeeps. cbv zeta in Hkeeps.
  set (p2 := fst (gain_xp final_xp p1)) in *.
  destruct Hkeeps as (X1 & X2 & X3 & X4 & X5).
  change (xp p1) with (xp player) in X1.
  change (gold p1) with (gold player + inject_Z final_gold)%Q in X2.
  change (ranger_keys p1) with (ranger_keys player) in X3.
  change (battle_history p1) with (battle_history player) in X4.
  change (level p1) with (level player) in X5.
  assert (Hkey : forall q : PowerRanger,
             (q = p2 \/ exists key, In key ranger_key_pool /\ (key_draw < 0.3)%Q /\
                                    q = fst (add_ranger_key key p2)) ->
             gold q = gold p2 /\ xp q = xp p2 /\ level q = level p2 /\
             battle_history q = battle_history p2 /\
             (ranger_keys q = ranger_keys p2 \/
              exists key, In key ranger_key_pool /\ ~ In key (ranger_keys p2) /\
                          (key_draw < 0.3)%Q /\
                          ranger_keys q = (ranger_keys p2 ++ [key])%list)).
  { intros q [-> | (key & Hin & Hdraw & ->)].
    - split_ands; try reflexivity. left. reflexivity.
    - unfold add_ranger_key.
      destruct (has_key key (ranger_keys p2)) eqn:Ehas; cbn [negb fst].
      + split_ands; try reflexivity. left. reflexivity.
      + assert (Hnot : ~ In key (ranger_keys p2)).
        { intros Hi. apply has_key_In in Hi. congruence. }
        cbv zeta. split_cases;
          cbn [gold xp level battle_history ranger_keys with_ranger_keys
               with_mega_energy];
          split_ands; try reflexivity; right; exists key; auto. }
  match goal with
  | |- context [with_battle_history _ ?q] =>
      destruct (Hkey q) as (K1 & K2 & K3 & K4 & K5)
  end.
  { destruct (Qlt_le_dec key_draw 0.3) as [Hdraw | _]; [| left; reflexivity].
    destruct (Py.choice ranger_key_pool key_pick) as [key |] eqn:Ec;
      [| left; reflexivity].
    right. exists key. split; [eapply choice_In; exact Ec |].
    split; [exact Hdraw | reflexivity]. }
  cbn [fst snd gold_earned xp_earned battle_log_out
       gold xp level battle_history ranger_keys with_battle_history].
  rewrite K1, K2, K3, K4, X1, X2, X4. rewrite X3 in K5.
  split_ands; try reflexivity; assumption.
Qed.

Lemma handle_victory_spec_witness :
  let p := init "Tommy" "Red" "Megaforce" "Power Sword" in
  let out := _handle_victory ["PERFECT COMBO!"] 5 0.9 0 0 p EnemyAI.Loogies in
  25 <= gold_earned (snd out) /\ xp (fst out) = xp_earned (snd out) /\
  length (battle_history (fst out)) = 1%nat.
Proof.
  intros p out.
  pose proof (handle_victory_spec ["PERFECT COMBO!"] 5 0.9 0 0 p EnemyAI.Loogies) as H.
  cbv zeta in H.
  destruct H as (H1 & _ & _ & _ & H5 & _ & H7 & _); [discriminate | discriminate |].
  split; [exact H1 |]. split; [exact H5 |].
  unfold out. rewrite H7. reflexivity.
Defined.

End VictoryMore.

(** ** Limb attacks and phases *)

Section LimbAttackMore.

Import EnemyAI.

(** X17.  The player's limb attack.  It lands exactly when the named
    limb exists and is not broken yet; when it does not land, nothing
    of the enemy changes; when it lands, the body takes a hit of half
    the limb damage (rounded down) as well, which costs the enemy
    max(1, half - defense) health, down to 0 at most. *)
Theorem player_limb_attack_spec (limb_name : string) (roll : Z) (pick : nat)
    (player : Character.PowerRanger) (enemy : Enemy) :
  let damage := Character.attack player + roll in
  let e' := fst (Battle.player_limb_attack limb_name roll pick player enemy) in
  let landed := snd (Battle.player_limb_attack limb_name roll pick player enemy) in
  (landed = true <->
   exists limb, Py.get limb_name (limbs enemy) = Some limb /\ broken limb = false) /\
  (landed = false -> e' = enemy) /\
  (landed = true ->
   (current_health e'
    == Qmax 0 (current_health enemy
               - Qmax 1 (inject_Z (damage / 2) - inject_Z (defense enemy))))%Q).
Proof.
  cbv zeta. unfold Battle.player_limb_attack. cbv zeta.
  pose proof (take_limb_damage_body limb_name
                (inject_Z (Character.attack player + roll)) enemy) as [Hc _].
  pose proof (take_limb_damage_defense limb_name
                (inject_Z (Character.attack player + roll)) enemy) as [Hd _].
  assert (Hland : fst (snd (take_limb_damage limb_name
                              (inject_Z (Character.attack player + roll)) enemy)) = true
                  <-> exists limb, Py.get limb_name (limbs enemy) = Some limb
                                   /\ broken limb = false).
  { unfold take_limb_damage.
    destruct (Py.get limb_name (limbs enemy)) as [limb |].
    - destruct (broken limb) eqn:Eb.
      + cbn [fst snd]. split; [discriminate |].
        intros (l & Hl & Hb). injection Hl as <-. congruence.
      + split; [intros _; exists limb; auto |]. intros _.
        cbv zeta. split_cases; reflexivity.
    - cbn [fst snd]. split; [discriminate | intros (l & Hl & _); discriminate]. }
  assert (Hfail : fst (snd (take_limb_damage limb_name
                              (inject_Z (Character.attack player + roll)) enemy)) = false
                  -> fst (take_limb_damage limb_name
                            (inject_Z (Character.attack player + roll)) enemy) = enemy).
  { unfold take_limb_damage.
    destruct (Py.get limb_name (limbs enemy)) as [limb |]; [| reflexivity].
    destruct (broken limb); [reflexivity |].
    cbv zeta. split_cases; cbn [fst snd]; discriminate. }
  destruct (take_limb_damage limb_name (inject_Z (Character.attack player + roll)) enemy)
    as [e1 [success msg]].
  cbn [fst snd] in *.
  destruct success; cbn [fst snd].
  - split; [exact Hland |]. split; [discriminate |]. intros _.
    rewrite enemy_take_damage_health, Hc, Hd. reflexivity.
  - split; [exact Hland |]. split; [intros _; apply Hfail; reflexivity | discriminate].
Qed.

Lemma player_limb_attack_spec_witness :
  let p := Character.init "Tommy" "Red" "Megaforce" "Power Sword" in
  snd (Battle.player_limb_attack "left_arm" 0 0 p Loogies) = true /\
  fst (Battle.player_limb_attack "tail" 0 0 p Loogies) = Loogies.
Proof.
  intros p. split.
  - pose proof (player_limb_attack_spec "left_arm" 0 0 p Loogies) as H.
    cbv zeta in H. destruct H as (H & _). apply H.
    exists (mkLimb 12 12 false). split; reflexivity.
  - pose proof (player_limb_attack_spec "tail" 0 0 p Loogies) as H.
    cbv zeta in H. destruct H as (Hiff & H & _). apply H.
    apply not_true_is_false. intros E.
    apply Hiff in E. destruct E as (l & Hl & _). discriminate.
Defined.

(** X18.  A phase transition happens once.  On an enemy that has a
    phase (every [MetalAlice] has), [phase_transition] returns
    normally; it fires exactly when the health is at most half of
    [max_health] and the phase is 1.  When it does not fire nothing
    changes; when it fires, the enemy enters phase 2 with attack
    int(attack x 1.2) and defense int(defense x 1.1), its health
    untouched, and a second call does not fire. *)
Theorem phase_transition_once (e : Enemy) (ph : Z) :
  current_phase e = Some ph ->
  exists e' fired,
    phase_transition e = Some (e', fired) /\
    (fired = true <->
     (current_health e <= inject_Z (max_health e) * 0.5)%Q /\ ph = 1) /\
    (fired = false -> e' = e) /\
    (fired = true ->
     e' = with_defense (Py.int (inject_Z (defense e) * 1.1)%Q)
            (with_attack (Py.int (inject_Z (attack e) * 1.2)%Q)
               (with_current_phase (Some 2) e)) /\
     phase_transition e' = Some (e', false)).
Proof.
  intros Hph. unfold phase_transition at 1. rewrite Hph.
  destruct (Qle_bool (current_health e) (inject_Z (max_health e) * 0.5)) eqn:Eh.
  - pose proof Eh as Hle. apply Qle_bool_iff in Hle.
    destruct (ph =? 1) eqn:E1.
    + apply Z.eqb_eq in E1. cbv zeta.
      eexists. exists true. split; [reflexivity |].
      split; [split; auto |]. split; [discriminate |]. intros _.
      split; [reflexivity |].
      unfold phase_transition.
      cbn [current_health max_health current_phase with_defense with_attack
           with_current_phase].
      rewrite Eh. reflexivity.
    + apply Z.eqb_neq in E1.
      exists e, false. split; [reflexivity |].
      split; [split; [discriminate | intros [_ H]; contradiction] |].
      split; [reflexivity | discriminate].
  - exists e, false. split; [reflexivity |].
    split; [split; [discriminate |] |].
    { intros [H _]. apply Qle_bool_iff in H. congruence. }
    split; [reflexivity | discriminate].
Qed.

Lemma phase_transition_once_witness :
  let hurt := with_current_health 90 MetalAlice in
  exists e', phase_transition hurt = Some (e', true) /\
             attack e' = 30 /\ phase_transition e' = Some (e', false).
Proof.
  intros hurt.
  destruct (phase_transition_once hurt 1 eq_refl) as (e' & fired & Hrun & Hiff & _ & Hfired).
  assert (Ht : fired = true).
  { apply Hiff. split; [discriminate | reflexivity]. }
  subst fired. destruct (Hfired eq_refl) as [He' Hagain].
  exists e'. split; [exact Hrun |]. split; [rewrite He'; reflexivity | exact Hagain].
Defined.

End LimbAttackMore.

(** ** Creating and loading a ranger *)

Section CreationMore.

Import Character.

Lemma color_bonus_bounds (color : string) (b : Config.Bonus) :
  Config.COLOR_BONUSES color = Some b ->
  5 <= Config.b_health b <= 10 /\ 0 <= Config.b_attack b <= 5 /\
  0 <= Config.b_defense b <= 5 /\ 0 <= Config.b_speed b <= 5.
Proof.
  unfold Config.COLOR_BONUSES. split_cases; intros H; try discriminate;
    injection H as <-; cbn; lia.
Qed.

Lemma power_bonus_bounds (power_type : string) (b : Config.Bonus) :
  Config.POWER_BONUSES power_type = Some b ->
  0 <= Config.b_attack b <= 8 /\ 0 <= Config.b_defense b <= 7 /\
  0 <= Config.b_speed b <= 8.
Proof.
  unfold Config.POWER_BONUSES. split_cases; intros H; try discriminate;
    injection H as <-; cbn; lia.
Qed.

Lemma weapon_stats_bounds (weapon : string) (damage spd : Z) :
  Config.WEAPON_STATS weapon = Some (damage, spd) ->
  12 <= damage <= 22 /\ -5 <= spd <= 3.
Proof.
  unfold Config.WEAPON_STATS. split_cases; intros H; try discriminate;
    injection H as <- <-; lia.
Qed.

(** The ranger [__init__] builds, with the four stats the bonuses
    may have moved. *)
Lemma init_value (name color power_type weapon : string) :
  exists mh a d s,
    init name color power_type weapon
    = mkPowerRanger name color power_type weapon 1 0 mh (inject_Z mh) a d s
        100%Q 3 0 [] [] [] default_skills (mkLimbDamage 0 0) [] /\
    100 <= mh <= 110 /\ 20 <= a <= 55 /\ 10 <= d <= 22 /\ 10 <= s <= 31 /\
    mh = (if truthy color && truthy power_type && truthy weapon
          then match Config.COLOR_BONUSES color with
               | Some b => Config.BASE_HEALTH + Config.b_health b
               | None => Config.BASE_HEALTH
               end
          else Config.BASE_HEALTH) /\
    (color = "" \/ power_type = "" \/ weapon = "" ->
     mh = Config.BASE_HEALTH /\ a = Config.BASE_ATTACK /\
     d = Config.BASE_DEFENSE /\ s = Config.BASE_SPEED).
Proof.
  unfold init.
  pose proof (color_bonus_bounds color) as Hc.
  pose proof (power_bonus_bounds power_type) as Hp.
  pose proof (weapon_stats_bounds weapon) as Hw.
  unfold Config.BASE_HEALTH, Config.BASE_ATTACK, Config.BASE_DEFENSE, Config.BASE_SPEED.
  destruct (truthy color && truthy power_type && truthy weapon) eqn:Et.
  - assert (Hfull : color = "" \/ power_type = "" \/ weapon = "" -> False).
    { intros [-> | [-> | ->]]; cbn in Et; rewrite ?andb_false_r in Et; discriminate. }
    unfold _apply_creation_bonuses.
    cbn [Character.color].
    destruct (Config.COLOR_BONUSES color) as [bc |];
      [destruct (Hc bc eq_refl) as (C1 & C2 & C3 & C4) |]; clear Hc;
      cbn [Character.power_type Character.max_health Character.attack
           Character.defense Character.speed
           with_max_health with_attack with_defense with_speed with_current_health];
      (destruct (Config.POWER_BONUSES power_type) as [bp |];
       [destruct (Hp bp eq_refl) as (P1 & P2 & P3) |]); clear Hp;
      cbn [Character.weapon Character.max_health Character.attack
           Character.defense Character.speed
           with_max_health with_attack with_defense with_speed with_current_health];
      (destruct (Config.WEAPON_STATS weapon) as [[wd ws] |];
       [destruct (Hw wd ws eq_refl) as (W1 & W2) |]); clear Hw;
      cbv [Character.name Character.color Character.power_type Character.weapon
           Character.level Character.xp Character.max_health Character.current_health
           Character.attack Character.defense Character.speed Character.gold
           Character.mega_energy Character.skill_points Character.ranger_keys
           Character.battle_history Character.investments Character.skills
           Character.limb_damage Character.status_effects
           with_max_health with_attack with_defense with_speed with_current_health];
      (eexists _, _, _, _; split; [reflexivity |]);
      split_ands; try reflexivity; try lia; (intros H; destruct (Hfull H)).
  - exists 100, 20, 10, 15. split; [reflexivity |].
    split_ands; try reflexivity; lia.
Qed.

(** X19.  A new ranger.  Whatever the four strings, the ranger starts
    at level 1 without experience, keys, history, learned skill, injury
    or status effect, with 100 gold and 3 mega energy, and at full
    health.  The stats stay within the range the three bonus tables
    allow; [max_health] is the base health plus the health bonus of
    the colour, whatever the power type (the health entry of the
    power table is never read); and when one of colour, power type
    and weapon is the empty string no bonus is applied at all. *)
Theorem init_spec (name color power_type weapon : string) :
  let p := init name color power_type weapon in
  level p = 1 /\ xp p = 0 /\ gold p = 100%Q /\ mega_energy p = 3 /\
  skill_points p = 0 /\ ranger_keys p = [] /\ battle_history p = [] /\
  skills p = default_skills /\ limb_damage p = mkLimbDamage 0 0 /\
  status_effects p = [] /\
  current_health p = inject_Z (max_health p) /\
  100 <= max_health p <= 110 /\ 20 <= attack p <= 55 /\
  10 <= defense p <= 22 /\ 10 <= speed p <= 31 /\
  max_health p
  = (if truthy color && truthy power_type && truthy weapon
     then match Config.COLOR_BONUSES color with
          | Some b => Config.BASE_HEALTH + Config.b_health b
          | None => Config.BASE_HEALTH
          end
     else Config.BASE_HEALTH) /\
  (color = "" \/ power_type = "" \/ weapon = "" ->
   max_health p = Config.BASE_HEALTH /\ attack p = Config.BASE_ATTACK /\
   defense p = Config.BASE_DEFENSE /\ speed p = Config.BASE_SPEED).
Proof.
  cbv zeta.
  destruct (init_value name color power_type weapon)
    as (mh & a & d & s & -> & Hmh & Ha & Hd & Hs & Hcolor & Hempty).
  cbn [level xp gold mega_energy skill_points ranger_keys battle_history skills
       limb_damage status_effects current_health max_health attack defense speed].
  split_ands; try reflexivity; try assumption; lia.
Qed.

Lemma init_spec_witness :
  max_health (init "Tommy" "Red" "Dino Thunder" "Power Sword") = 110 /\
  attack (init "Tommy" "Red" "Megaforce" "") = 20.
Proof.
  split.
  - pose proof (init_spec "Tommy" "Red" "Dino Thunder" "Power Sword") as H.
    cbv zeta in H.
    destruct H as (_ & _ & _ & _ & _ & _ & _ & _ & _ & _ & _ & _ & _ & _ & _ & H & _).
    rewrite H. reflexivity.
  - pose proof (init_spec "Tommy" "Red" "Megaforce" "") as H.
    cbv zeta in H.
    destruct H as (_ & _ & _ & _ & _ & _ & _ & _ & _ & _ & _ & _ & _ & _ & _ & _ & H).
    destruct H as (_ & H & _); [right; right; reflexivity | exact H].
Defined.

(** X20.  Loading a mapping with keys missing.  A load that succeeds
    returns [True]; every attribute whose key is absent takes the
    value a freshly constructed [PowerRanger()] has, except
    [current_health], which follows the [max_health] that was loaded. *)
Theorem load_from_dict_defaults
    (data : gmap string PyVal) (self p' : PowerRanger) (ok : bool) :
  load_from_dict data self = Some (p', ok) ->
  ok = true /\
  (data !! "current_health" = None -> current_health p' = inject_Z (max_health p')) /\
  (forall key, key <> "current_health" -> data !! key = None ->
     get_stats_dict p' !! key = get_stats_dict (init "" "" "" "") !! key).
Proof.
  intros Hload. unfold load_from_dict in Hload.
  repeat match type of Hload with
         | _ ≫= _ = Some _ =>
             apply bind_Some in Hload as (? & ? & Hload)
         end.
  injection Hload as <- <-.
  split; [reflexivity |]. split.
  - intros Hnone. cbn [current_health max_health].
    match goal with
    | H : get_num data "current_health" _ = Some _ |- _ =>
        unfold get_num in H; rewrite Hnone in H; injection H as <-
    end.
    reflexivity.
  - intros key Hkey Hnone.
    assert (Hstr : forall kk dd vv, get_str data kk dd = Some vv -> kk = key -> vv = dd).
    { intros kk dd vv Hget <-. unfold get_str in Hget. rewrite Hnone in Hget. congruence. }
    assert (Hint : forall kk dd vv, get_int data kk dd = Some vv -> kk = key -> vv = dd).
    { intros kk dd vv Hget <-. unfold get_int in Hget. rewrite Hnone in Hget. congruence. }
    assert (Hnum : forall kk dd vv, get_num data kk dd = Some vv -> kk = key -> vv = dd).
    { intros kk dd vv Hget <-. unfold get_num in Hget. rewrite Hnone in Hget. congruence. }
    assert (Hkeys : forall kk vv, get_keys data kk = Some vv -> kk = key -> vv = []).
    { intros kk vv Hget <-. unfold get_keys in Hget. rewrite Hnone in Hget. congruence. }
    assert (Hhist : forall kk vv, get_history data kk = Some vv -> kk = key -> vv = []).
    { intros kk vv Hget <-. unfold get_history in Hget. rewrite Hnone in Hget. congruence. }
    assert (Hinv : forall kk vv, get_investments data kk = Some vv -> kk = key -> vv = []).
    { intros kk vv Hget <-. unfold get_investments in Hget. rewrite Hnone in Hget. congruence. }
    assert (Hsk : forall kk vv, get_skills data kk = Some vv -> kk = key ->
                              vv = default_skills).
    { intros kk vv Hget <-. unfold get_skills in Hget. rewrite Hnone in Hget. congruence. }
    assert (Hld : forall kk vv, get_limb_damage data kk = Some vv -> kk = key ->
                              vv = mkLimbDamage 0 0).
    { intros kk vv Hget <-. unfold get_limb_damage in Hget. rewrite Hnone in Hget. congruence. }
    assert (Heff : forall kk vv, get_effects data kk = Some vv -> kk = key -> vv = []).
    { intros kk vv Hget <-. unfold get_effects in Hget. rewrite Hnone in Hget. congruence. }
    unfold get_stats_dict.
    cbn [name color power_type weapon level xp max_health current_health attack
         defense speed gold mega_energy skill_points ranger_keys battle_history
         investments skills limb_damage status_effects].
    rewrite !lookup_insert.
    repeat match goal with
           | |- match decide (?k = key) with left _ => _ | right _ => _ end = _ =>
               destruct (decide (k = key)) as [Heq | Hne];
               [ first
                   [ exfalso; apply Hkey; symmetry; exact Heq
                   | f_equal; f_equal;
                     first [ eapply Hstr; eassumption | eapply Hint; eassumption
                           | eapply Hnum; eassumption | eapply Hkeys; eassumption
                           | eapply Hhist; eassumption | eapply Hinv; eassumption
                           | eapply Hsk; eassumption | eapply Hld; eassumption
                           | eapply Heff; eassumption ] ]
               | clear Hne ]
           end.
    reflexivity.
Qed.

Lemma load_from_dict_defaults_witness :
  let data : gmap string PyVal := <["level" := VInt 7]> (<["max_health" := VInt 150]> ∅) in
  exists p', load_from_dict data (init "" "" "" "") = Some (p', true) /\
             current_health p' = 150%Q /\
             get_stats_dict p' !! "gold" = Some (VNum 100).
Proof.
  intros data.
  destruct (load_from_dict data (init "" "" "" "")) as [[p' ok] |] eqn:E;
    [| vm_compute in E; discriminate].
  destruct (load_from_dict_defaults data (init "" "" "" "") p' ok E) as (-> & Hc & Hk).
  exists p'. split; [reflexivity |]. split.
  - rewrite Hc by reflexivity.
    assert (Hm : max_health p' = 150).
    { unfold load_from_dict in E. vm_compute in E. injection E as <-. reflexivity. }
    rewrite Hm. reflexivity.
  - rewrite (Hk "gold") by (discriminate || reflexivity). reflexivity.
Defined.

End CreationMore.
